(** * DW1000 driver: a shallow embedding of [DW1000.py]

    The Python class [DW1000] drives an ultra-wideband transceiver over
    SPI.  Its methods are embedded as functions of a state-and-exception
    monad over the record [DW1000]; the record carries the attributes of
    the object together with the log of everything the object did on its
    GPIO pins and its SPI port.  The chip is a parameter: a function from
    the log so far and the byte clocked out to the byte clocked in. *)

From Stdlib Require Import ZArith List Bool Lia.
From Stdlib Require Import Floats.
From Stdlib Require Strings.Byte.
From Stdlib Require Import Ascii String.
Import ListNotations.
Open Scope Z_scope.

(** ** Python exceptions and fallible values *)

Inductive exn : Set :=
| IndexError
| ValueError
| TypeError
| ZeroDivisionError
| UnboundLocalError
| OverflowError.

Inductive res (A : Type) : Type :=
| Success (a : A)
| Failure (e : exn).
Arguments Success {A} a.
Arguments Failure {A} e.

Definition res_bind {A B} (r : res A) (k : A -> res B) : res B :=
  match r with
  | Success a => k a
  | Failure e => Failure e
  end.

Declare Scope res_scope.
Delimit Scope res_scope with res.
Notation "x <-- c ; k" := (res_bind c (fun x => k))
  (at level 61, c at next level, right associativity) : res_scope.

(** ** Sequences with checked indexing *)

(** [seq[i]] for [0 <= i < len(seq)]; the driver never uses negative
    indices, so those raise like the indices past the end. *)
Definition getitem {A} (l : list A) (i : Z) : res A :=
  if i <? 0 then Failure IndexError
  else match nth_error l (Z.to_nat i) with
       | Some a => Success a
       | None => Failure IndexError
       end.

Fixpoint replace_nth {A} (l : list A) (n : nat) (v : A) : list A :=
  match l, n with
  | [], _ => []
  | _ :: t, O => v :: t
  | h :: t, S n' => h :: replace_nth t n' v
  end.

(** [seq[i] = v] *)
Definition setitem {A} (l : list A) (i : Z) (v : A) : res (list A) :=
  if (0 <=? i) && (i <? Z.of_nat (Datatypes.length l))
  then Success (replace_nth l (Z.to_nat i) v)
  else Failure IndexError.

(** Storing into a [bytearray] checks the value: [ValueError] outside
    [range(0, 256)]. *)
Definition byte_value (v : Z) : res Z :=
  if (0 <=? v) && (v <? 256) then Success v else Failure ValueError.

Definition bytearray_setitem (l : list Z) (i : Z) (v : Z) : res (list Z) :=
  (b <-- byte_value v; setitem l i b)%res.

(** ** The register buffer, [DW1000Register] *)

Module Export Register.

Record DW1000Register : Type := mkRegister {
  address : Z;
  subaddress : Z;
  size : nat;
  data : list Z
}.

Definition with_data (r : DW1000Register) (d : list Z) : DW1000Register :=
  mkRegister (address r) (subaddress r) (size r) d.

(** Modelled from the spec: the class [DW1000Register] (module
    DW1000Register.py) is not among the sources.  A register is a
    buffer of [size] bytes, fixed at creation. *)
Definition new (addr sub : Z) (n : nat) : DW1000Register :=
  mkRegister addr sub n (repeat 0 n).

(** Modelled from the spec: [clear()] zero-fills (DW1000Register.py is
    not among the sources). *)
Definition clear (r : DW1000Register) : DW1000Register :=
  with_data r (repeat 0 (size r)).

(** Modelled from the spec: [setAll(byteValue)] fills every byte
    (DW1000Register.py is not among the sources). *)
Definition setAll (r : DW1000Register) (v : Z) : DW1000Register :=
  with_data r (repeat v (size r)).

Definition in_bits (r : DW1000Register) (i : Z) : bool :=
  (0 <=? i) && (i <? 8 * Z.of_nat (size r)).

(** Modelled from the spec: [getBit(index)] addresses the bit at byte
    [index/8], position [index%8], the index checked against the size
    (DW1000Register.py is not among the sources). *)
Definition getBit (r : DW1000Register) (i : Z) : res bool :=
  if in_bits r i
  then (b <-- getitem (data r) (i / 8); Success (Z.testbit b (i mod 8)))%res
  else Failure IndexError.

Definition write_bit (b : Z) (p : Z) (v : bool) : Z :=
  if v then Z.lor b (Z.shiftl 1 p) else Z.land b (Z.lxor 255 (Z.shiftl 1 p)).

(** Modelled from the spec: [setBit(index, value)] writes one bit and
    leaves the others (DW1000Register.py is not among the sources). *)
Definition setBit (r : DW1000Register) (i : Z) (v : bool) : res DW1000Register :=
  if in_bits r i
  then (b <-- getitem (data r) (i / 8);
        d <-- setitem (data r) (i / 8) (write_bit b (i mod 8) v);
        Success (with_data r d))%res
  else Failure IndexError.

(** Modelled from the spec: [setBits(indices, value)] applies the same
    value at every index of the list; a bad index leaves no partial
    result (DW1000Register.py is not among the sources). *)
Fixpoint setBits (r : DW1000Register) (l : list Z) (v : bool) : res DW1000Register :=
  match l with
  | [] => Success r
  | i :: l' => (r' <-- setBit r i v; setBits r' l' v)%res
  end.

(** Modelled from the spec: [writeValue(n)] scatters an integer
    little-endian across the buffer (DW1000Register.py is not among the
    sources). *)
Definition writeValue (r : DW1000Register) (n : Z) : DW1000Register :=
  with_data r
    (map (fun i => Z.land (Z.shiftr n (8 * Z.of_nat i)) 255) (seq 0 (size r))).

(** Modelled from the spec: indexed byte get and set, [reg[i]] and
    [reg[i] = v], checked against the size (DW1000Register.py is not
    among the sources). *)
Definition get (r : DW1000Register) (i : Z) : res Z := getitem (data r) i.

Definition set (r : DW1000Register) (i : Z) (v : Z) : res DW1000Register :=
  (d <-- setitem (data r) i v; Success (with_data r d))%res.

(** A register whose buffer has the length it was created with. *)
Definition wf (r : DW1000Register) : Prop := Datatypes.length (data r) = size r.

End Register.

(** ** The constants module

    The module DW1000Constants.py (imported as [C]) is not among the
    sources: the development is parametric in it.  The record lists the
    names the embedded methods use; bit positions, register ids and
    table values are integers, the clearing sets of the status register
    are sequences of bit positions, the calibration figures of the
    ranging formulas are floats. *)

Record Constants : Type := {
  (* transaction header *)
  NO_SUB : Z; READ : Z; READ_SUB : Z; WRITE : Z; WRITE_SUB : Z;
  RW_SUB_EXT : Z; JUNK : Z;
  MASK_LS_BYTE : Z; MASK_LS_2BYTES : Z;
  (* register file *)
  SYS_CTRL : Z; CHAN_CTRL : Z; SYS_CFG : Z; SYS_MASK : Z; TX_FCTRL : Z;
  SYS_STATUS : Z; GPIO_CTRL : Z; GPIO_MODE_SUB : Z; PMSC : Z;
  PMSC_CTRL0_SUB : Z; PMSC_LEDC_SUB : Z; OTP_IF : Z; OTP_CTRL_SUB : Z;
  OTP_ADDR_SUB : Z; OTP_RDAT_SUB : Z; PANADR : Z; EUI : Z; ACK_RESP_T : Z;
  RX_FINFO : Z; RX_FQUAL : Z; CIR_PWR_SUB : Z; TX_BUFFER : Z; DX_TIME : Z;
  SYS_TIME : Z;
  AGC_CTRL : Z; AGC_TUNE1_SUB : Z; AGC_TUNE2_SUB : Z; AGC_TUNE3_SUB : Z;
  DRX_CONF : Z; DRX_TUNE0b_SUB : Z; DRX_TUNE1a_SUB : Z; DRX_TUNE1b_SUB : Z;
  DRX_TUNE2_SUB : Z; DRX_TUNE4H_SUB : Z; RF_CONF : Z; RF_RXCTRLH_SUB : Z;
  RF_TXCTRL_SUB : Z; TX_CAL : Z; TC_PGDELAY_SUB : Z; FS_CTRL : Z;
  FS_PLLCFG_SUB : Z; FS_PLLTUNE_SUB : Z; FS_XTALT_SUB : Z; LDE_CTRL : Z;
  LDE_CFG1_SUB : Z; LDE_CFG2_SUB : Z; LDE_REPC_SUB : Z; TX_POWER : Z;
  (* bit positions *)
  MRXFCE_BIT : Z; MRXFCG_BIT : Z; MRXDFR_BIT : Z; MLDEDONE_BIT : Z;
  HRBPT_BIT : Z; HSRBP_BIT : Z; ICRBP_BIT : Z; TRXOFF_BIT : Z;
  WAIT4RESP_BIT : Z; TXSTRT_BIT : Z; TXDLYS_BIT : Z; RXDLYE_BIT : Z;
  TXFRB_BIT : Z; TXPRS_BIT : Z; TXPHS_BIT : Z; TXFRS_BIT : Z;
  SYS_STATUS_ALL_TX : list Z; SYS_STATUS_ALL_RX_ERR : list Z;
  SYS_STATUS_ALL_RX_TO : list Z; SYS_STATUS_ALL_RX_GOOD : list Z;
  (* codes of the operation mode *)
  TRX_RATE_110KBPS : Z; TRX_RATE_850KBPS : Z; TRX_RATE_6800KBPS : Z;
  TX_PULSE_FREQ_16MHZ : Z; TX_PULSE_FREQ_64MHZ : Z;
  TX_PREAMBLE_LEN_64 : Z; TX_PREAMBLE_LEN_1536 : Z;
  TX_PREAMBLE_LEN_2048 : Z; TX_PREAMBLE_LEN_4096 : Z;
  PAC_SIZE_8 : Z; PAC_SIZE_16 : Z; PAC_SIZE_32 : Z; PAC_SIZE_64 : Z;
  CHANNEL_1 : Z; CHANNEL_2 : Z; CHANNEL_3 : Z; CHANNEL_4 : Z;
  CHANNEL_5 : Z; CHANNEL_7 : Z;
  PREAMBLE_CODE_16MHZ_1 : Z; PREAMBLE_CODE_16MHZ_2 : Z;
  PREAMBLE_CODE_16MHZ_3 : Z; PREAMBLE_CODE_16MHZ_4 : Z;
  PREAMBLE_CODE_16MHZ_5 : Z; PREAMBLE_CODE_16MHZ_6 : Z;
  PREAMBLE_CODE_16MHZ_7 : Z; PREAMBLE_CODE_16MHZ_8 : Z;
  PREAMBLE_CODE_64MHZ_9 : Z; PREAMBLE_CODE_64MHZ_10 : Z;
  PREAMBLE_CODE_64MHZ_11 : Z; PREAMBLE_CODE_64MHZ_12 : Z;
  PREAMBLE_CODE_64MHZ_17 : Z; PREAMBLE_CODE_64MHZ_18 : Z;
  PREAMBLE_CODE_64MHZ_19 : Z; PREAMBLE_CODE_64MHZ_20 : Z;
  (* tuning tables *)
  AGC_TUNE1_16MHZ_OP : Z; AGC_TUNE1_DEFAULT_OP : Z; AGC_TUNE2_OP : Z;
  AGC_TUNE3_OP : Z;
  DRX_TUNE0b_110KBPS_NOSTD_OP : Z; DRX_TUNE0b_850KBPS_NOSTD_OP : Z;
  DRX_TUNE0b_6800KBPS_STD_OP : Z;
  DRX_TUNE1a_16MHZ_OP : Z; DRX_TUNE1a_64MHZ_OP : Z;
  LDE_CFG2_16MHZ_OP : Z; LDE_CFG2_64MHZ_OP : Z;
  DRX_TUNE1b_M1024 : Z; DRX_TUNE1b_L1024 : Z; DRX_TUNE1b_64 : Z;
  DRX_TUNE2_8_16MHZ : Z; DRX_TUNE2_8_64MHZ : Z; DRX_TUNE2_16_16MHZ : Z;
  DRX_TUNE2_16_64MHZ : Z; DRX_TUNE2_32_16MHZ : Z; DRX_TUNE2_32_64MHZ : Z;
  DRX_TUNE2_64_16MHZ : Z; DRX_TUNE2_64_64MHZ : Z;
  DRX_TUNE4H_64 : Z; DRX_TUNE4H_128 : Z;
  RF_RXCTRLH_1235 : Z; RF_RXCTRLH_147 : Z;
  RF_TXCTRL_1 : Z; RF_TXCTRL_2 : Z; RF_TXCTRL_3 : Z; RF_TXCTRL_4 : Z;
  RF_TXCTRL_5 : Z; RF_TXCTRL_7 : Z;
  TC_PGDELAY_1 : Z; TC_PGDELAY_2 : Z; TC_PGDELAY_3 : Z; TC_PGDELAY_4 : Z;
  TC_PGDELAY_5 : Z; TC_PGDELAY_7 : Z;
  FS_PLLCFG_1 : Z; FS_PLLCFG_24 : Z; FS_PLLCFG_3 : Z; FS_PLLCFG_57 : Z;
  FS_PLLTUNE_1 : Z; FS_PLLTUNE_24 : Z; FS_PLLTUNE_3 : Z; FS_PLLTUNE_57 : Z;
  TX_POWER_12_16MHZ : Z; TX_POWER_12_64MHZ : Z; TX_POWER_3_16MHZ : Z;
  TX_POWER_3_64MHZ : Z; TX_POWER_4_16MHZ : Z; TX_POWER_4_64MHZ : Z;
  TX_POWER_5_16MHZ : Z; TX_POWER_5_64MHZ : Z; TX_POWER_7_16MHZ : Z;
  TX_POWER_7_64MHZ : Z;
  LDE_CFG1_OP : Z;
  LDE_REPC_1AND2 : Z; LDE_REPC_3AND8 : Z; LDE_REPC_4 : Z; LDE_REPC_5 : Z;
  LDE_REPC_6 : Z; LDE_REPC_7 : Z; LDE_REPC_9 : Z; LDE_REPC_1017 : Z;
  LDE_REPC_111321 : Z; LDE_REPC_12 : Z; LDE_REPC_14161819 : Z;
  LDE_REPC_20 : Z;
  (* crystal trim and the one-time-programmable memory *)
  OTP_XTAL_ADDRESS : Z; OTP_STEP2 : Z; OTP_STEP3 : Z; OTP_STEP5 : Z;
  TUNE_OPERATION : Z; TUNE_MASK1 : Z; TUNE_MASK2 : Z;
  (* frame staging and delayed start *)
  SET_DATA_MASK1 : Z; SET_DATA_MASK2 : Z; SET_DELAY_MASK : Z;
  MICROSECONDS : float; TIME_RES_INV : float; ANTENNA_DELAY : Z;
  (* ranging *)
  TIME_OVERFLOW : Z;
  A_16MHZ : float; CORRFAC_16MHZ : float; A_64MHZ : float;
  CORRFAC_64MHZ : float; TWOPOWER17 : Z; PWR_COEFF : float;
  PWR_COEFF2 : float;
  BIAS_500_16_ZERO : Z; BIAS_500_64_ZERO : Z; BIAS_900_16_ZERO : Z;
  BIAS_900_64_ZERO : Z;
  BIAS_500_16 : list Z; BIAS_500_64 : list Z; BIAS_900_16 : list Z;
  BIAS_900_64 : list Z;
  DISTANCE_OF_RADIO_INV : float; ADJUSTMENT_TIME_FACTOR : float
}.

(** ** The GPIO pins and the SPI port *)

Inductive event : Type :=
| GPIO_output (pin : Z) (high : bool)
| SPI_xfer (sent : Z)
| GPIO_remove_event_detect (pin : Z).

(** ** The object *)

(** [self.operationMode = [None] * 6], the slots in the order the source
    gives: dataRate, pulseFrequency, pacSize, preambleLength, channel,
    preacode; [None] is an unset slot. *)
Record OperationMode : Type := {
  dataRate : option Z;
  pulseFrequency : option Z;
  pacSize : option Z;
  preambleLength : option Z;
  channel : option Z;
  preacode : option Z
}.

Record DW1000 : Type := mkDW1000 {
  cs : Z;
  rst : Z;
  irq : Z;
  dblbuffon : bool;
  sysctrl : DW1000Register;
  chanctrl : DW1000Register;
  syscfg : DW1000Register;
  sysmask : DW1000Register;
  txfctrl : DW1000Register;
  sysstatus : DW1000Register;
  gpiomode : DW1000Register;
  pmscctrl0 : DW1000Register;
  pmscledc : DW1000Register;
  otpctrl : DW1000Register;
  panadr : DW1000Register;
  eui : DW1000Register;
  ackrespt : DW1000Register;
  rxfinfo : DW1000Register;
  seqNum : Z;
  operationMode : OperationMode;
  permanentReceive : bool;
  (* what the object did on its pins and its port, oldest first *)
  log : list event
}.

Definition set_sysctrl (s : DW1000) (r : DW1000Register) : DW1000 :=
  mkDW1000 (cs s) (rst s) (irq s) (dblbuffon s) r (chanctrl s) (syscfg s)
    (sysmask s) (txfctrl s) (sysstatus s) (gpiomode s) (pmscctrl0 s)
    (pmscledc s) (otpctrl s) (panadr s) (eui s) (ackrespt s) (rxfinfo s)
    (seqNum s) (operationMode s) (permanentReceive s) (log s).

Definition set_sysmask (s : DW1000) (r : DW1000Register) : DW1000 :=
  mkDW1000 (cs s) (rst s) (irq s) (dblbuffon s) (sysctrl s) (chanctrl s)
    (syscfg s) r (txfctrl s) (sysstatus s) (gpiomode s) (pmscctrl0 s)
    (pmscledc s) (otpctrl s) (panadr s) (eui s) (ackrespt s) (rxfinfo s)
    (seqNum s) (operationMode s) (permanentReceive s) (log s).

Definition set_txfctrl (s : DW1000) (r : DW1000Register) : DW1000 :=
  mkDW1000 (cs s) (rst s) (irq s) (dblbuffon s) (sysctrl s) (chanctrl s)
    (syscfg s) (sysmask s) r (sysstatus s) (gpiomode s) (pmscctrl0 s)
    (pmscledc s) (otpctrl s) (panadr s) (eui s) (ackrespt s) (rxfinfo s)
    (seqNum s) (operationMode s) (permanentReceive s) (log s).

Definition set_sysstatus (s : DW1000) (r : DW1000Register) : DW1000 :=
  mkDW1000 (cs s) (rst s) (irq s) (dblbuffon s) (sysctrl s) (chanctrl s)
    (syscfg s) (sysmask s) (txfctrl s) r (gpiomode s) (pmscctrl0 s)
    (pmscledc s) (otpctrl s) (panadr s) (eui s) (ackrespt s) (rxfinfo s)
    (seqNum s) (operationMode s) (permanentReceive s) (log s).

Definition set_seqNum (s : DW1000) (n : Z) : DW1000 :=
  mkDW1000 (cs s) (rst s) (irq s) (dblbuffon s) (sysctrl s) (chanctrl s)
    (syscfg s) (sysmask s) (txfctrl s) (sysstatus s) (gpiomode s)
    (pmscctrl0 s) (pmscledc s) (otpctrl s) (panadr s) (eui s) (ackrespt s)
    (rxfinfo s) n (operationMode s) (permanentReceive s) (log s).

Definition set_operationMode (s : DW1000) (m : OperationMode) : DW1000 :=
  mkDW1000 (cs s) (rst s) (irq s) (dblbuffon s) (sysctrl s) (chanctrl s)
    (syscfg s) (sysmask s) (txfctrl s) (sysstatus s) (gpiomode s)
    (pmscctrl0 s) (pmscledc s) (otpctrl s) (panadr s) (eui s) (ackrespt s)
    (rxfinfo s) (seqNum s) m (permanentReceive s) (log s).

Definition set_log (s : DW1000) (l : list event) : DW1000 :=
  mkDW1000 (cs s) (rst s) (irq s) (dblbuffon s) (sysctrl s) (chanctrl s)
    (syscfg s) (sysmask s) (txfctrl s) (sysstatus s) (gpiomode s)
    (pmscctrl0 s) (pmscledc s) (otpctrl s) (panadr s) (eui s) (ackrespt s)
    (rxfinfo s) (seqNum s) (operationMode s) (permanentReceive s) l.

(** ** The monad of the methods: state and exceptions *)

Inductive outcome (A : Type) : Type :=
| Ok (a : A) (s : DW1000)
| Raise (e : exn) (s : DW1000).
Arguments Ok {A} a s.
Arguments Raise {A} e s.

Definition M (A : Type) : Type := DW1000 -> outcome A.

Definition ret {A} (a : A) : M A := fun s => Ok a s.

Definition bind {A B} (m : M A) (k : A -> M B) : M B :=
  fun s => match m s with
           | Ok a s' => k a s'
           | Raise e s' => Raise e s'
           end.

Definition lift {A} (r : res A) : M A :=
  fun s => match r with
           | Success a => Ok a s
           | Failure e => Raise e s
           end.

Definition get_self : M DW1000 := fun s => Ok s s.
Definition put_self (s' : DW1000) : M unit := fun _ => Ok tt s'.

Definition final {A} (o : outcome A) : DW1000 :=
  match o with
  | Ok _ s => s
  | Raise _ s => s
  end.

Declare Scope method_scope.
Delimit Scope method_scope with method.
Notation "x <- c ;; k" := (bind c (fun x => k))
  (at level 61, c at next level, right associativity) : method_scope.
Notation "c ;; k" := (bind c (fun _ => k))
  (at level 61, right associativity) : method_scope.
Open Scope method_scope.

(** ** Python numbers

    A Python [float] is an IEEE 754 binary64 number, a primitive float
    here.  Where Python mixes an [int] into float arithmetic it converts
    the [int] first, rounding to nearest. *)

Definition py_float (z : Z) : float :=
  SF2Prim (binary_normalize prec emax z 0 false).

(** [x / y] on floats *)
Definition py_truediv (x y : float) : res float :=
  if (y =? 0)%float then Failure ZeroDivisionError else Success (x / y)%float.

Definition signed (negative : bool) (m : positive) : Z :=
  if negative then Z.neg m else Z.pos m.

(** [math.floor(x)], an integer *)
Definition math_floor (x : float) : res Z :=
  match Prim2SF x with
  | S754_zero _ => Success 0
  | S754_finite s m e => Success (Z.shiftl (signed s m) e)
  | S754_infinity _ => Failure OverflowError
  | S754_nan => Failure ValueError
  end.

(** [int(x)], rounding toward zero *)
Definition py_int (x : float) : res Z :=
  match Prim2SF x with
  | S754_zero _ => Success 0
  | S754_finite s m e =>
      let magnitude := Z.shiftl (Z.pos m) e in
      Success (if s then - magnitude else magnitude)
  | S754_infinity _ => Failure OverflowError
  | S754_nan => Failure ValueError
  end.

(** [bytearray(l)] of a sequence of integers *)
Definition bytearray_of (l : list Z) : res (list Z) :=
  if forallb (fun v => (0 <=? v) && (v <? 256)) l then Success l
  else Failure ValueError.

(** [s.lower()], on ASCII *)
Definition lower_ascii (c : ascii) : ascii :=
  let n := nat_of_ascii c in
  if (65 <=? n)%nat && (n <=? 90)%nat then ascii_of_nat (n + 32) else c.

Fixpoint lower (s : string) : string :=
  match s with
  | EmptyString => EmptyString
  | String c s' => String (lower_ascii c) (lower s')
  end.

(** ** The link-layer codec

    The module MAC.py is not among the sources.  The driver fills the
    fields of a header and asks for its encoding; the codes it stores
    and the encoder are parameters. *)

Record FrameControl : Type := {
  frameType : Z;
  secEnable : Z;
  framePending : Z;
  ackRequest : bool;
  panCompression : Z;
  destAddrMode : Z;
  frameVersion : Z;
  srcAddrMode : Z
}.

Record MACHeader : Type := {
  frameControl : FrameControl;
  seqNumber : Z;
  destPAN : Z;
  destAddr : Z;
  srcAddr : list Z
}.

Record MACModule : Type := {
  FT_DATA : Z;
  AD_SAD : Z;
  IEEE802_15_4_2003 : Z;
  encode : MACHeader -> list Z
}.

(** ** An instance of the constants

    The figures of the DW1000 user manual, for evaluating the methods on
    concrete inputs.  Every theorem below is stated for an arbitrary
    constants module and says which of its properties it needs. *)

#[local] Set Warnings "-inexact-float".

Definition datasheet : Constants := {|
  NO_SUB := 0xFF; READ := 0x00; READ_SUB := 0x40; WRITE := 0x80;
  WRITE_SUB := 0xC0; RW_SUB_EXT := 0x80; JUNK := 0x00;
  MASK_LS_BYTE := 0xFF; MASK_LS_2BYTES := 0xFFFF;
  SYS_CTRL := 0x0D; CHAN_CTRL := 0x1F; SYS_CFG := 0x04; SYS_MASK := 0x0E;
  TX_FCTRL := 0x08; SYS_STATUS := 0x0F; GPIO_CTRL := 0x26;
  GPIO_MODE_SUB := 0x00; PMSC := 0x36; PMSC_CTRL0_SUB := 0x00;
  PMSC_LEDC_SUB := 0x28; OTP_IF := 0x2D; OTP_CTRL_SUB := 0x06;
  OTP_ADDR_SUB := 0x04; OTP_RDAT_SUB := 0x0A; PANADR := 0x03; EUI := 0x01;
  ACK_RESP_T := 0x1A; RX_FINFO := 0x10; RX_FQUAL := 0x12;
  CIR_PWR_SUB := 0x06; TX_BUFFER := 0x09; DX_TIME := 0x0A;
  SYS_TIME := 0x06;
  AGC_CTRL := 0x23; AGC_TUNE1_SUB := 0x04; AGC_TUNE2_SUB := 0x0C;
  AGC_TUNE3_SUB := 0x12; DRX_CONF := 0x27; DRX_TUNE0b_SUB := 0x02;
  DRX_TUNE1a_SUB := 0x04; DRX_TUNE1b_SUB := 0x06; DRX_TUNE2_SUB := 0x08;
  DRX_TUNE4H_SUB := 0x26; RF_CONF := 0x28; RF_RXCTRLH_SUB := 0x0B;
  RF_TXCTRL_SUB := 0x0C; TX_CAL := 0x2A; TC_PGDELAY_SUB := 0x0B;
  FS_CTRL := 0x2B; FS_PLLCFG_SUB := 0x07; FS_PLLTUNE_SUB := 0x0B;
  FS_XTALT_SUB := 0x0E; LDE_CTRL := 0x2E; LDE_CFG1_SUB := 0x0806;
  LDE_CFG2_SUB := 0x1806; LDE_REPC_SUB := 0x2804; TX_POWER := 0x1E;
  MRXFCE_BIT := 15; MRXFCG_BIT := 14; MRXDFR_BIT := 13; MLDEDONE_BIT := 10;
  HRBPT_BIT := 24; HSRBP_BIT := 30; ICRBP_BIT := 31; TRXOFF_BIT := 6;
  WAIT4RESP_BIT := 7; TXSTRT_BIT := 1; TXDLYS_BIT := 2; RXDLYE_BIT := 9;
  TXFRB_BIT := 4; TXPRS_BIT := 5; TXPHS_BIT := 6; TXFRS_BIT := 7;
  SYS_STATUS_ALL_TX := [3; 4; 5; 6; 7];
  SYS_STATUS_ALL_RX_ERR := [12; 15; 16; 26; 29; 18];
  SYS_STATUS_ALL_RX_TO := [17; 21];
  SYS_STATUS_ALL_RX_GOOD := [13; 14; 8; 9; 11; 10];
  TRX_RATE_110KBPS := 0; TRX_RATE_850KBPS := 1; TRX_RATE_6800KBPS := 2;
  TX_PULSE_FREQ_16MHZ := 1; TX_PULSE_FREQ_64MHZ := 2;
  TX_PREAMBLE_LEN_64 := 0x01; TX_PREAMBLE_LEN_1536 := 0x06;
  TX_PREAMBLE_LEN_2048 := 0x0A; TX_PREAMBLE_LEN_4096 := 0x03;
  PAC_SIZE_8 := 8; PAC_SIZE_16 := 16; PAC_SIZE_32 := 32; PAC_SIZE_64 := 64;
  CHANNEL_1 := 1; CHANNEL_2 := 2; CHANNEL_3 := 3; CHANNEL_4 := 4;
  CHANNEL_5 := 5; CHANNEL_7 := 7;
  PREAMBLE_CODE_16MHZ_1 := 1; PREAMBLE_CODE_16MHZ_2 := 2;
  PREAMBLE_CODE_16MHZ_3 := 3; PREAMBLE_CODE_16MHZ_4 := 4;
  PREAMBLE_CODE_16MHZ_5 := 5; PREAMBLE_CODE_16MHZ_6 := 6;
  PREAMBLE_CODE_16MHZ_7 := 7; PREAMBLE_CODE_16MHZ_8 := 8;
  PREAMBLE_CODE_64MHZ_9 := 9; PREAMBLE_CODE_64MHZ_10 := 10;
  PREAMBLE_CODE_64MHZ_11 := 11; PREAMBLE_CODE_64MHZ_12 := 12;
  PREAMBLE_CODE_64MHZ_17 := 17; PREAMBLE_CODE_64MHZ_18 := 18;
  PREAMBLE_CODE_64MHZ_19 := 19; PREAMBLE_CODE_64MHZ_20 := 20;
  AGC_TUNE1_16MHZ_OP := 0x8870; AGC_TUNE1_DEFAULT_OP := 0x889B;
  AGC_TUNE2_OP := 0x2502A907; AGC_TUNE3_OP := 0x0035;
  DRX_TUNE0b_110KBPS_NOSTD_OP := 0x0016;
  DRX_TUNE0b_850KBPS_NOSTD_OP := 0x0006;
  DRX_TUNE0b_6800KBPS_STD_OP := 0x0001;
  DRX_TUNE1a_16MHZ_OP := 0x0087; DRX_TUNE1a_64MHZ_OP := 0x008D;
  LDE_CFG2_16MHZ_OP := 0x1607; LDE_CFG2_64MHZ_OP := 0x0607;
  DRX_TUNE1b_M1024 := 0x0064; DRX_TUNE1b_L1024 := 0x0020;
  DRX_TUNE1b_64 := 0x0010;
  DRX_TUNE2_8_16MHZ := 0x311A002D; DRX_TUNE2_8_64MHZ := 0x313B006B;
  DRX_TUNE2_16_16MHZ := 0x331A0052; DRX_TUNE2_16_64MHZ := 0x333B00BE;
  DRX_TUNE2_32_16MHZ := 0x351A009A; DRX_TUNE2_32_64MHZ := 0x353B015E;
  DRX_TUNE2_64_16MHZ := 0x371A011D; DRX_TUNE2_64_64MHZ := 0x373B0296;
  DRX_TUNE4H_64 := 0x0010; DRX_TUNE4H_128 := 0x0028;
  RF_RXCTRLH_1235 := 0xD8; RF_RXCTRLH_147 := 0xBC;
  RF_TXCTRL_1 := 0x00005C40; RF_TXCTRL_2 := 0x00045CA0;
  RF_TXCTRL_3 := 0x00086CC0; RF_TXCTRL_4 := 0x00045C80;
  RF_TXCTRL_5 := 0x001E3FE0; RF_TXCTRL_7 := 0x001E7DE0;
  TC_PGDELAY_1 := 0xC9; TC_PGDELAY_2 := 0xC2; TC_PGDELAY_3 := 0xC5;
  TC_PGDELAY_4 := 0x95; TC_PGDELAY_5 := 0xC0; TC_PGDELAY_7 := 0x93;
  FS_PLLCFG_1 := 0x09000407; FS_PLLCFG_24 := 0x08400508;
  FS_PLLCFG_3 := 0x08401009; FS_PLLCFG_57 := 0x0800041D;
  FS_PLLTUNE_1 := 0x1E; FS_PLLTUNE_24 := 0x26; FS_PLLTUNE_3 := 0x5E;
  FS_PLLTUNE_57 := 0xBE;
  TX_POWER_12_16MHZ := 0x15355575; TX_POWER_12_64MHZ := 0x07274767;
  TX_POWER_3_16MHZ := 0x0F2F4F6F; TX_POWER_3_64MHZ := 0x2B4B6B8B;
  TX_POWER_4_16MHZ := 0x1F1F3F5F; TX_POWER_4_64MHZ := 0x3A5A7A9A;
  TX_POWER_5_16MHZ := 0x0E082848; TX_POWER_5_64MHZ := 0x25456585;
  TX_POWER_7_16MHZ := 0x32527292; TX_POWER_7_64MHZ := 0x5171B1D1;
  LDE_CFG1_OP := 0x0D;
  LDE_REPC_1AND2 := 0x5998; LDE_REPC_3AND8 := 0x51EA; LDE_REPC_4 := 0x428E;
  LDE_REPC_5 := 0x451E; LDE_REPC_6 := 0x2E14; LDE_REPC_7 := 0x8000;
  LDE_REPC_9 := 0x28F4; LDE_REPC_1017 := 0x3332; LDE_REPC_111321 := 0x3AE0;
  LDE_REPC_12 := 0x3D70; LDE_REPC_14161819 := 0x35C2; LDE_REPC_20 := 0x47AE;
  OTP_XTAL_ADDRESS := 0x01E; OTP_STEP2 := 0x03; OTP_STEP3 := 0x01;
  OTP_STEP5 := 0x00;
  TUNE_OPERATION := 0x10; TUNE_MASK1 := 0x1F; TUNE_MASK2 := 0x60;
  SET_DATA_MASK1 := 0xE0; SET_DATA_MASK2 := 0x03; SET_DELAY_MASK := 0xFE;
  MICROSECONDS := 1%float; TIME_RES_INV := 63897.6%float;
  ANTENNA_DELAY := 16384;
  TIME_OVERFLOW := 1099511627776;
  A_16MHZ := 115.72%float; CORRFAC_16MHZ := 2.3334%float;
  A_64MHZ := 121.74%float; CORRFAC_64MHZ := 1.1667%float;
  TWOPOWER17 := 131072; PWR_COEFF := 88%float; PWR_COEFF2 := 10%float;
  BIAS_500_16_ZERO := 10; BIAS_500_64_ZERO := 8; BIAS_900_16_ZERO := 7;
  BIAS_900_64_ZERO := 7;
  BIAS_500_16 := [198; 187; 179; 163; 143; 127; 109; 84; 59; 31; 0; 36;
                  65; 84; 97; 106; 110; 112];
  BIAS_500_64 := [110; 105; 100; 93; 82; 69; 51; 27; 0; 21; 35; 42; 49;
                  62; 71; 76; 81; 86];
  BIAS_900_16 := [137; 122; 105; 88; 69; 47; 25; 0; 21; 48; 79; 105; 127;
                  147; 160; 169; 178; 197];
  BIAS_900_64 := [147; 133; 117; 99; 75; 50; 29; 0; 24; 45; 63; 76; 87;
                  98; 116; 122; 132; 142];
  DISTANCE_OF_RADIO_INV := 213.139451293%float;
  ADJUSTMENT_TIME_FACTOR := 0.001%float
|}.

(** A codec that writes the sequence number and the two addresses. *)
Definition plain_codec : MACModule := {|
  FT_DATA := 1;
  AD_SAD := 2;
  IEEE802_15_4_2003 := 0;
  encode := fun h =>
    [Z.land (seqNumber h) 255;
     Z.land (destPAN h) 255; Z.land (Z.shiftr (destPAN h) 8) 255;
     Z.land (destAddr h) 255; Z.land (Z.shiftr (destAddr h) 8) 255]
    ++ map (fun b => Z.land b 255) (srcAddr h)
|}.

(** A chip that answers [x00] to every byte, one that answers [x07], and
    one whose answer is the number of events logged so far. *)
Definition silent_chip : list event -> Z -> Byte.byte :=
  fun _ _ => Byte.x00.

Definition steady_chip : list event -> Z -> Byte.byte :=
  fun _ _ => Byte.x07.

(** A chip that answers [x00] to the first eight events and [x01]
    afterwards. *)
Definition late_chip : list event -> Z -> Byte.byte :=
  fun h _ => if (Datatypes.length h <? 8)%nat then Byte.x00 else Byte.x01.

Definition counting_chip : list event -> Z -> Byte.byte :=
  fun h _ =>
    match Byte.of_N (N.of_nat (Datatypes.length h) mod 256) with
    | Some b => b
    | None => Byte.x00
    end.

(** A chip that answers from a script: the byte at the position of the
    number of events logged so far, [x00] past its end. *)
Definition scripted_chip (script : list Byte.byte) : list event -> Z -> Byte.byte :=
  fun h _ => nth (Datatypes.length h) script Byte.x00.

(** A stand-in for [math.log10] at concrete inputs where the logarithm
    is not taken or its value plays no part: a constant. *)
Definition log10_to_three_places : float -> float :=
  fun _ => 2.672%float.

(** Two modes of operation over the datasheet's codes: the long-range
    mode at 110 kbps with a preamble of 2048 symbols, and a mode at
    6800 kbps with a preamble of 64 symbols; both on channel 5 at 16 MHz. *)
Definition long_range_mode : OperationMode := {|
  dataRate := Some (TRX_RATE_110KBPS datasheet);
  pulseFrequency := Some (TX_PULSE_FREQ_16MHZ datasheet);
  pacSize := Some (PAC_SIZE_64 datasheet);
  preambleLength := Some (TX_PREAMBLE_LEN_2048 datasheet);
  channel := Some (CHANNEL_5 datasheet);
  preacode := Some (PREAMBLE_CODE_16MHZ_4 datasheet)
|}.

Definition short_preamble_mode : OperationMode := {|
  dataRate := Some (TRX_RATE_6800KBPS datasheet);
  pulseFrequency := Some (TX_PULSE_FREQ_16MHZ datasheet);
  pacSize := Some (PAC_SIZE_8 datasheet);
  preambleLength := Some (TX_PREAMBLE_LEN_64 datasheet);
  channel := Some (CHANNEL_5 datasheet);
  preacode := Some (PREAMBLE_CODE_16MHZ_4 datasheet)
|}.

(** ** Checking a property on a range of integers *)

Definition check_step (P : Z -> bool) (st : Z * bool) : Z * bool :=
  (fst st + 1, snd st && P (fst st)).

(** [P] holds on the [n] integers from [start] on. *)
Definition check_from (P : Z -> bool) (start : Z) (n : positive) : bool :=
  snd (Pos.iter (check_step P) (start, true) n).

(** The entries a run added to a log. *)
Definition since (old new : list event) : list event :=
  skipn (Datatypes.length old) new.

(** ** Indexing as Python does it

    Where the index comes from the caller, a negative one counts from
    the end. *)

Definition py_index (n : nat) (i : Z) : res nat :=
  let j := if i <? 0 then i + Z.of_nat n else i in
  if (0 <=? j) && (j <? Z.of_nat n) then Success (Z.to_nat j)
  else Failure IndexError.

(** [seq[i]] *)
Definition py_getitem {A} (l : list A) (i : Z) : res A :=
  (j <-- py_index (Datatypes.length l) i;
   match nth_error l j with
   | Some a => Success a
   | None => Failure IndexError
   end)%res.

(** [seq[i] = v] *)
Definition py_setitem {A} (l : list A) (i : Z) (v : A) : res (list A) :=
  (j <-- py_index (Datatypes.length l) i; Success (replace_nth l j v))%res.

(** [bytearray(n)], [n] zero bytes; a negative count is refused. *)
Definition bytearray_new (n : Z) : res (list Z) :=
  if n <? 0 then Failure ValueError else Success (repeat 0 (Z.to_nat n)).

(** [a / b] on integers (Python 3): the quotient as a float.  The
    operands of this development stay below 2^53, where converting
    them first gives the same float. *)
Definition int_truediv (a b : Z) : res float :=
  if b =? 0 then Failure ZeroDivisionError
  else Success (py_float a / py_float b)%float.

(** ** Little-endian bytes *)

(** The [k] low bytes of [v], lowest first. *)
Definition le_bytes (k : nat) (v : Z) : list Z :=
  map (fun i => (v / 2 ^ (8 * Z.of_nat i)) mod 256) (seq 0 k).

(** The number a list of bytes stands for, lowest byte first. *)
Definition le_value (l : list Z) : Z :=
  fold_right (fun b acc => b + 256 * acc) 0 l.

(** ** Further constants

    The constants of DW1000Constants.py that the methods of the second
    part use, gathered as the first ones are. *)

Record MoreConstants : Type := {
  TX_TIME : Z;
  TX_STAMP_SUB : Z;
  RX_TIME : Z;
  FP_AMPL1_SUB : Z;
  FP_AMPL2_SUB : Z;
  PP_AMPL3_SUB : Z;
  STD_NOISE_SUB : Z;
  RX_BUFFER : Z;
  GET_DATA_MASK : Z;
  AUTO_CLOCK : Z;
  XTI_CLOCK : Z;
  ENABLE_CLOCK_MASK1 : Z;
  ENABLE_CLOCK_MASK2 : Z
}.

(** Their values in the DW1000 user manual. *)
Definition datasheet_more : MoreConstants := {|
  TX_TIME := 0x17; TX_STAMP_SUB := 0x00;
  RX_TIME := 0x15; FP_AMPL1_SUB := 0x07;
  FP_AMPL2_SUB := 0x02; PP_AMPL3_SUB := 0x04; STD_NOISE_SUB := 0x00;
  RX_BUFFER := 0x11; GET_DATA_MASK := 0x03FF;
  AUTO_CLOCK := 0x00; XTI_CLOCK := 0x01;
  ENABLE_CLOCK_MASK1 := 0xFE; ENABLE_CLOCK_MASK2 := 0xFC
|}.

(** ** Further attributes that are assigned *)

Definition set_rxfinfo (s : DW1000) (r : DW1000Register) : DW1000 :=
  mkDW1000 (cs s) (rst s) (irq s) (dblbuffon s) (sysctrl s) (chanctrl s)
    (syscfg s) (sysmask s) (txfctrl s) (sysstatus s) (gpiomode s)
    (pmscctrl0 s) (pmscledc s) (otpctrl s) (panadr s) (eui s) (ackrespt s)
    r (seqNum s) (operationMode s) (permanentReceive s) (log s).

Definition set_pmscctrl0 (s : DW1000) (r : DW1000Register) : DW1000 :=
  mkDW1000 (cs s) (rst s) (irq s) (dblbuffon s) (sysctrl s) (chanctrl s)
    (syscfg s) (sysmask s) (txfctrl s) (sysstatus s) (gpiomode s)
    r (pmscledc s) (otpctrl s) (panadr s) (eui s) (ackrespt s)
    (rxfinfo s) (seqNum s) (operationMode s) (permanentReceive s) (log s).

Definition set_panadr (s : DW1000) (r : DW1000Register) : DW1000 :=
  mkDW1000 (cs s) (rst s) (irq s) (dblbuffon s) (sysctrl s) (chanctrl s)
    (syscfg s) (sysmask s) (txfctrl s) (sysstatus s) (gpiomode s)
    (pmscctrl0 s) (pmscledc s) (otpctrl s) r (eui s) (ackrespt s)
    (rxfinfo s) (seqNum s) (operationMode s) (permanentReceive s) (log s).

Definition set_eui (s : DW1000) (r : DW1000Register) : DW1000 :=
  mkDW1000 (cs s) (rst s) (irq s) (dblbuffon s) (sysctrl s) (chanctrl s)
    (syscfg s) (sysmask s) (txfctrl s) (sysstatus s) (gpiomode s)
    (pmscctrl0 s) (pmscledc s) (otpctrl s) (panadr s) r (ackrespt s)
    (rxfinfo s) (seqNum s) (operationMode s) (permanentReceive s) (log s).

(** [chr(i)] for a byte *)
Definition chr (i : Z) : ascii := ascii_of_nat (Z.to_nat i).

Definition set_dblbuffon (s : DW1000) (b : bool) : DW1000 :=
  mkDW1000 (cs s) (rst s) (irq s) b (sysctrl s) (chanctrl s)
    (syscfg s) (sysmask s) (txfctrl s) (sysstatus s) (gpiomode s)
    (pmscctrl0 s) (pmscledc s) (otpctrl s) (panadr s) (eui s) (ackrespt s)
    (rxfinfo s) (seqNum s) (operationMode s) (permanentReceive s) (log s).

Definition set_syscfg (s : DW1000) (r : DW1000Register) : DW1000 :=
  mkDW1000 (cs s) (rst s) (irq s) (dblbuffon s) (sysctrl s) (chanctrl s)
    r (sysmask s) (txfctrl s) (sysstatus s) (gpiomode s)
    (pmscctrl0 s) (pmscledc s) (otpctrl s) (panadr s) (eui s) (ackrespt s)
    (rxfinfo s) (seqNum s) (operationMode s) (permanentReceive s) (log s).

(** The answers of a reception without a first path to the four reads
    of [getFirstPathPower] on a fresh object: the three amplitudes read
    zero and the preamble accumulation count 16. *)
Definition pathless_reception : list Byte.byte :=
  repeat Byte.x00 23 ++ [Byte.x01].

(** The mode of operation of an object on which no mode was enabled:
    [[None] * 6]. *)
Definition unset_mode : OperationMode := {|
  dataRate := None; pulseFrequency := None; pacSize := None;
  preambleLength := None; channel := None; preacode := None
|}.

(** ** The methods *)

Section Driver.

Variable C : Constants.

Variable MAC : MACModule.

(** [math.log10] on its domain, a function of the C library. *)
Variable log10 : float -> float.

(** The chip, seen from the port: the byte it clocks in, given
    everything the object did so far and the byte being clocked out. *)
Variable chip : list event -> Z -> Byte.byte.

(** *** Register transactions: [readBytes], [writeBytes] *)

Definition GPIO_set (pin : Z) (high : bool) : M unit :=
  fun s => Ok tt (set_log s (log s ++ [GPIO_output pin high])).

(** [self.spi.xfer([b])[0]] *)
Definition spi_xfer (b : Z) : M Z :=
  fun s => Ok (Z.of_N (Byte.to_N (chip (log s) b)))
              (set_log s (log s ++ [SPI_xfer b])).

(** The header of [readBytes] and of [writeBytes]: a [bytearray(3)] and
    the number of its bytes that go on the wire.  The two methods build
    it alike, each with its own pair of flags. *)
Definition buildHeader (flag flag_sub cmd offset : Z) : res (list Z * nat) :=
  let header := [0; 0; 0] in
  let headerLen := 1%nat in
  (if offset =? NO_SUB C then
     header <-- bytearray_setitem header 0 (Z.lor flag cmd);
     Success (header, headerLen)
   else
     header <-- bytearray_setitem header 0 (Z.lor flag_sub cmd);
     if offset <? 128 then
       header <-- bytearray_setitem header 1 offset;
       Success (header, (headerLen + 1)%nat)
     else
       header <-- bytearray_setitem header 1
                    (Z.land (Z.lor (RW_SUB_EXT C) offset) (MASK_LS_BYTE C));
       header <-- bytearray_setitem header 2 (Z.shiftr offset 7);
       Success (header, (headerLen + 2)%nat))%res.

Definition readHeader (cmd offset : Z) : res (list Z * nat) :=
  buildHeader (READ C) (READ_SUB C) cmd offset.

Definition writeHeader (cmd offset : Z) : res (list Z * nat) :=
  buildHeader (WRITE C) (WRITE_SUB C) cmd offset.

(** The bytes of a header that go on the wire, [header[0:headerLen]]. *)
Definition on_wire (h : res (list Z * nat)) : res (list Z) :=
  (p <-- h; Success (firstn (snd p) (fst p)))%res.

(** [for i in range(0, headerLen): self.spi.xfer([int(header[i])])] *)
Fixpoint xfer_header (header : list Z) (i : Z) (k : nat) : M unit :=
  match k with
  | O => ret tt
  | S k' =>
      b <- lift (getitem header i) ;;
      spi_xfer b ;;
      xfer_header header (i + 1) k'
  end.

(** [for i in range(0, n): data[i] = self.spi.xfer([C.JUNK])[0]] *)
Fixpoint read_loop (data : list Z) (i : Z) (k : nat) : M (list Z) :=
  match k with
  | O => ret data
  | S k' =>
      b <- spi_xfer (JUNK C) ;;
      data' <- lift (setitem data i b) ;;
      read_loop data' (i + 1) k'
  end.

(** [for i in range(0, dataSize): if data[i] != None: xfer([int(data[i])])];
    the buffers of this development hold integers, so no element is
    skipped. *)
Fixpoint write_loop (data : list Z) (i : Z) (k : nat) : M unit :=
  match k with
  | O => ret tt
  | S k' =>
      b <- lift (getitem data i) ;;
      spi_xfer b ;;
      write_loop data (i + 1) k'
  end.

(** [readBytes(cmd, offset, data, n)]; the array [data] is filled in
    place, the filled array is the result. *)
Definition readBytes (cmd offset : Z) (data : list Z) (n : nat) : M (list Z) :=
  h <- lift (readHeader cmd offset) ;;
  self <- get_self ;;
  GPIO_set (cs self) false ;;
  xfer_header (fst h) 0 (snd h) ;;
  data' <- read_loop data 0 n ;;
  GPIO_set (cs self) true ;;
  ret data'.

Definition writeBytes (cmd offset : Z) (data : list Z) (dataSize : nat) : M unit :=
  h <- lift (writeHeader cmd offset) ;;
  self <- get_self ;;
  GPIO_set (cs self) false ;;
  xfer_header (fst h) 0 (snd h) ;;
  write_loop data 0 dataSize ;;
  GPIO_set (cs self) true.

(** [readRegister(reg)] fills [reg.data]; the register with its new
    contents is the result. *)
Definition readRegister (reg : DW1000Register) : M DW1000Register :=
  d <- readBytes (address reg) (subaddress reg) (data reg) (size reg) ;;
  ret (with_data reg d).

Definition writeRegister (reg : DW1000Register) : M unit :=
  writeBytes (address reg) (subaddress reg) (data reg) (size reg).

(** *** What a transaction leaves in the log *)

(** One chip-select frame carrying [bytes]. *)
Definition frame (pin : Z) (bytes : list Z) : list event :=
  GPIO_output pin false :: map SPI_xfer bytes ++ [GPIO_output pin true].

(** The bytes the chip answers to [k] junk bytes sent after [h]. *)
Fixpoint answers (h : list event) (k : nat) : list Z :=
  match k with
  | O => []
  | S k' =>
      Z.of_N (Byte.to_N (chip h (JUNK C)))
      :: answers (h ++ [SPI_xfer (JUNK C)]) k'
  end.

(** The contents a read of [n] bytes at [(cmd, offset)] returns when it
    starts after the log [h] on chip-select [pin]. *)
Definition read_result (h : list event) (pin : Z) (hdr : list Z) (n : nat) : list Z :=
  answers (h ++ GPIO_output pin false :: map SPI_xfer hdr) n.


(** *** Attributes of [self] that hold a register *)

Definition the {A} (f : DW1000 -> A) : M A := fun s => Ok (f s) s.

Definition modify (f : DW1000 -> DW1000) : M unit := fun s => Ok tt (f s).

Record attribute : Type := {
  fetch : DW1000 -> DW1000Register;
  store : DW1000 -> DW1000Register -> DW1000
}.

Definition self_sysctrl : attribute := Build_attribute sysctrl set_sysctrl.
Definition self_sysmask : attribute := Build_attribute sysmask set_sysmask.
Definition self_sysstatus : attribute := Build_attribute sysstatus set_sysstatus.
Definition self_txfctrl : attribute := Build_attribute txfctrl set_txfctrl.

(** [self.a.method(...)], a method of the register that changes it. *)
Definition call (a : attribute) (f : DW1000Register -> res DW1000Register) : M unit :=
  fun s => match f (fetch a s) with
           | Success r => Ok tt (store a s r)
           | Failure e => Raise e s
           end.

(** [self.readRegister(self.a)] and [self.writeRegister(self.a)] *)
Definition readRegister_self (a : attribute) : M unit :=
  r <- the (fetch a) ;;
  r' <- readRegister r ;;
  modify (fun s => store a s r').

Definition writeRegister_self (a : attribute) : M unit :=
  r <- the (fetch a) ;;
  writeRegister r.

(** *** Device controller *)

Definition disableInterrupt : M unit :=
  fun s => Ok tt (set_log s (log s ++ [GPIO_remove_event_detect (irq s)])).

Definition toggleHSRBP : M unit :=
  on <- the dblbuffon ;;
  if on then
    (* Save interrupt mask and change HRBPT bits *)
    oldmask <- the (fun s => data (sysmask s)) ;;
    call self_sysmask (fun r =>
      setBits r [MRXFCE_BIT C; MRXFCG_BIT C; MRXDFR_BIT C; MLDEDONE_BIT C] false) ;;
    writeRegister_self self_sysmask ;;
    (* Toggle HSRBP *)
    call self_sysctrl (fun r => setBit r (HRBPT_BIT C) true) ;;
    writeRegister_self self_sysctrl ;;
    (* Restore interrupt mask *)
    call self_sysmask (fun r => Success (with_data r oldmask)) ;;
    writeRegister_self self_sysmask
  else ret tt.

Definition syncHSRBP : M unit :=
  readRegister_self self_sysstatus ;;
  st <- the sysstatus ;;
  hsrbp <- lift (getBit st (HSRBP_BIT C)) ;;
  icrbp <- lift (getBit st (ICRBP_BIT C)) ;;
  if Bool.eqb hsrbp icrbp then toggleHSRBP else ret tt.

Definition clearStatus (bits : list Z) : M unit :=
  call self_sysstatus (fun r => Success (clear r)) ;;
  call self_sysstatus (fun r => setBits r bits true) ;;
  writeRegister_self self_sysstatus.

Definition forceTRxOff : M unit :=
  readRegister_self self_sysmask ;;
  mask <- the (fun s => data (sysmask s)) ;;
  disableInterrupt ;;
  call self_sysmask (fun r => Success (setAll r 0)) ;;
  writeRegister_self self_sysmask ;;
  call self_sysctrl (fun r => Success (clear r)) ;;
  call self_sysctrl (fun r => setBit r (TRXOFF_BIT C) true) ;;
  writeRegister_self self_sysctrl ;;
  clearStatus (SYS_STATUS_ALL_TX C ++ SYS_STATUS_ALL_RX_ERR C ++
               SYS_STATUS_ALL_RX_TO C ++ SYS_STATUS_ALL_RX_GOOD C) ;;
  syncHSRBP ;;
  call self_sysmask (fun r => Success (with_data r mask)) ;;
  writeRegister_self self_sysmask ;;
  call self_sysctrl (fun r => setBit r (WAIT4RESP_BIT C) false).

Definition idle : M unit :=
  call self_sysctrl (fun r => Success (clear r)) ;;
  call self_sysctrl (fun r => setBit r (TRXOFF_BIT C) true) ;;
  writeRegister_self self_sysctrl.

(** *** Mode tuner *)

(** [self.operationMode[...] == C.CODE]; an unset slot equals no code. *)
Definition is_code (slot : option Z) (code : Z) : bool :=
  match slot with
  | Some v => v =? code
  | None => false
  end.

Definition tuneAgcTune1 (self : DW1000) (agctune1 : DW1000Register) : DW1000Register :=
  let pulseFrequency := pulseFrequency (operationMode self) in
  if is_code pulseFrequency (TX_PULSE_FREQ_16MHZ C) then
    writeValue agctune1 (AGC_TUNE1_16MHZ_OP C)
  else if is_code pulseFrequency (TX_PULSE_FREQ_64MHZ C) then
    writeValue agctune1 (AGC_TUNE1_DEFAULT_OP C)
  else agctune1.

Definition tuneDrxTune0b (self : DW1000) (drxtune0b : DW1000Register) : DW1000Register :=
  let dataRate := dataRate (operationMode self) in
  if is_code dataRate (TRX_RATE_110KBPS C) then
    writeValue drxtune0b (DRX_TUNE0b_110KBPS_NOSTD_OP C)
  else if is_code dataRate (TRX_RATE_850KBPS C) then
    writeValue drxtune0b (DRX_TUNE0b_850KBPS_NOSTD_OP C)
  else if is_code dataRate (TRX_RATE_6800KBPS C) then
    writeValue drxtune0b (DRX_TUNE0b_6800KBPS_STD_OP C)
  else drxtune0b.

Definition tuneDrxTune1aAndldecfg2 (self : DW1000) (drxtune1a ldecfg2 : DW1000Register)
  : DW1000Register * DW1000Register :=
  let pulseFrequency := pulseFrequency (operationMode self) in
  if is_code pulseFrequency (TX_PULSE_FREQ_16MHZ C) then
    (writeValue drxtune1a (DRX_TUNE1a_16MHZ_OP C),
     writeValue ldecfg2 (LDE_CFG2_16MHZ_OP C))
  else if is_code pulseFrequency (TX_PULSE_FREQ_64MHZ C) then
    (writeValue drxtune1a (DRX_TUNE1a_64MHZ_OP C),
     writeValue ldecfg2 (LDE_CFG2_64MHZ_OP C))
  else (drxtune1a, ldecfg2).

(** Modelled from the spec: the operations of a register are [clear],
    the bit accessors, [setAll], [writeValue] and indexed access
    (DW1000Register.py is not among the sources); a register is not a
    function, so calling one, [drxtune1b(...)], raises [TypeError]. *)
Definition call_register (r : DW1000Register) (arg : Z) : res DW1000Register :=
  Failure TypeError.

Definition tuneDrxtune1b (self : DW1000) (drxtune1b : DW1000Register) : res DW1000Register :=
  let dataRate := dataRate (operationMode self) in
  let preambleLength := preambleLength (operationMode self) in
  if is_code preambleLength (TX_PREAMBLE_LEN_1536 C)
     || is_code preambleLength (TX_PREAMBLE_LEN_2048 C)
     || is_code preambleLength (TX_PREAMBLE_LEN_4096 C) then
    if is_code dataRate (TRX_RATE_110KBPS C) then
      Success (writeValue drxtune1b (DRX_TUNE1b_M1024 C))
    else Success drxtune1b
  else if negb (is_code preambleLength (TX_PREAMBLE_LEN_64 C)) then
    if is_code dataRate (TRX_RATE_850KBPS C)
       || is_code dataRate (TRX_RATE_6800KBPS C) then
      Success (writeValue drxtune1b (DRX_TUNE1b_L1024 C))
    else Success drxtune1b
  else
    if is_code dataRate (TRX_RATE_6800KBPS C) then
      call_register drxtune1b (DRX_TUNE1b_64 C)
    else Success drxtune1b.

Definition tuneDrxTune2 (self : DW1000) (drxtune2 : DW1000Register) : DW1000Register :=
  let pacSize := pacSize (operationMode self) in
  let pulseFrequency := pulseFrequency (operationMode self) in
  if is_code pacSize (PAC_SIZE_8 C) then
    if is_code pulseFrequency (TX_PULSE_FREQ_16MHZ C) then
      writeValue drxtune2 (DRX_TUNE2_8_16MHZ C)
    else if is_code pulseFrequency (TX_PULSE_FREQ_64MHZ C) then
      writeValue drxtune2 (DRX_TUNE2_8_64MHZ C)
    else drxtune2
  else if is_code pacSize (PAC_SIZE_16 C) then
    if is_code pulseFrequency (TX_PULSE_FREQ_16MHZ C) then
      writeValue drxtune2 (DRX_TUNE2_16_16MHZ C)
    else if is_code pulseFrequency (TX_PULSE_FREQ_64MHZ C) then
      writeValue drxtune2 (DRX_TUNE2_16_64MHZ C)
    else drxtune2
  else if is_code pacSize (PAC_SIZE_32 C) then
    if is_code pulseFrequency (TX_PULSE_FREQ_16MHZ C) then
      writeValue drxtune2 (DRX_TUNE2_32_16MHZ C)
    else if is_code pulseFrequency (TX_PULSE_FREQ_64MHZ C) then
      writeValue drxtune2 (DRX_TUNE2_32_64MHZ C)
    else drxtune2
  else if is_code pacSize (PAC_SIZE_64 C) then
    if is_code pulseFrequency (TX_PULSE_FREQ_16MHZ C) then
      writeValue drxtune2 (DRX_TUNE2_64_16MHZ C)
    else if is_code pulseFrequency (TX_PULSE_FREQ_64MHZ C) then
      writeValue drxtune2 (DRX_TUNE2_64_64MHZ C)
    else drxtune2
  else drxtune2.

(** The five registers [tuneAccToChan] fills, in the order of its
    arguments. *)
Record chan_registers : Type := {
  the_rftxctrl : DW1000Register;
  the_tcpgdelay : DW1000Register;
  the_fspllcfg : DW1000Register;
  the_fsplltune : DW1000Register;
  the_txpower : DW1000Register
}.

(** One branch of [tuneAccToChan]: four values by channel, the transmit
    power by channel and pulse frequency. *)
Definition chan_branch (self : DW1000) (r : chan_registers)
    (v_rftxctrl v_tcpgdelay v_fspllcfg v_fsplltune v_16 v_64 : Z) : chan_registers :=
  let pulseFrequency := pulseFrequency (operationMode self) in
  {| the_rftxctrl := writeValue (the_rftxctrl r) v_rftxctrl;
     the_tcpgdelay := writeValue (the_tcpgdelay r) v_tcpgdelay;
     the_fspllcfg := writeValue (the_fspllcfg r) v_fspllcfg;
     the_fsplltune := writeValue (the_fsplltune r) v_fsplltune;
     the_txpower :=
       if is_code pulseFrequency (TX_PULSE_FREQ_16MHZ C) then
         writeValue (the_txpower r) v_16
       else if is_code pulseFrequency (TX_PULSE_FREQ_64MHZ C) then
         writeValue (the_txpower r) v_64
       else the_txpower r |}.

Definition tuneAccToChan (self : DW1000) (r : chan_registers) : chan_registers :=
  let channel := channel (operationMode self) in
  if is_code channel (CHANNEL_1 C) then
    chan_branch self r (RF_TXCTRL_1 C) (TC_PGDELAY_1 C) (FS_PLLCFG_1 C)
      (FS_PLLTUNE_1 C) (TX_POWER_12_16MHZ C) (TX_POWER_12_64MHZ C)
  else if is_code channel (CHANNEL_2 C) then
    chan_branch self r (RF_TXCTRL_2 C) (TC_PGDELAY_2 C) (FS_PLLCFG_24 C)
      (FS_PLLTUNE_24 C) (TX_POWER_12_16MHZ C) (TX_POWER_12_64MHZ C)
  else if is_code channel (CHANNEL_3 C) then
    chan_branch self r (RF_TXCTRL_3 C) (TC_PGDELAY_3 C) (FS_PLLCFG_3 C)
      (FS_PLLTUNE_3 C) (TX_POWER_3_16MHZ C) (TX_POWER_3_64MHZ C)
  else if is_code channel (CHANNEL_4 C) then
    chan_branch self r (RF_TXCTRL_4 C) (TC_PGDELAY_4 C) (FS_PLLCFG_24 C)
      (FS_PLLTUNE_24 C) (TX_POWER_4_16MHZ C) (TX_POWER_4_64MHZ C)
  else if is_code channel (CHANNEL_5 C) then
    chan_branch self r (RF_TXCTRL_5 C) (TC_PGDELAY_5 C) (FS_PLLCFG_57 C)
      (FS_PLLTUNE_57 C) (TX_POWER_5_16MHZ C) (TX_POWER_5_64MHZ C)
  else if is_code channel (CHANNEL_7 C) then
    chan_branch self r (RF_TXCTRL_7 C) (TC_PGDELAY_7 C) (FS_PLLCFG_57 C)
      (FS_PLLTUNE_57 C) (TX_POWER_7_16MHZ C) (TX_POWER_7_64MHZ C)
  else r.

(** One branch of [tunelderepc]: the table value, scaled down at
    110 kbps. *)
Definition lderepc_branch (self : DW1000) (lderepc : DW1000Register) (v : Z) : DW1000Register :=
  if is_code (dataRate (operationMode self)) (TRX_RATE_110KBPS C) then
    writeValue lderepc (Z.land (Z.shiftr v 3) (MASK_LS_2BYTES C))
  else writeValue lderepc v.

Definition tunelderepc (self : DW1000) (lderepc : DW1000Register) : DW1000Register :=
  let preacode := preacode (operationMode self) in
  if is_code preacode (PREAMBLE_CODE_16MHZ_1 C)
     || is_code preacode (PREAMBLE_CODE_16MHZ_2 C) then
    lderepc_branch self lderepc (LDE_REPC_1AND2 C)
  else if is_code preacode (PREAMBLE_CODE_16MHZ_3 C)
          || is_code preacode (PREAMBLE_CODE_16MHZ_8 C) then
    lderepc_branch self lderepc (LDE_REPC_3AND8 C)
  else if is_code preacode (PREAMBLE_CODE_16MHZ_4 C) then
    lderepc_branch self lderepc (LDE_REPC_4 C)
  else if is_code preacode (PREAMBLE_CODE_16MHZ_5 C) then
    lderepc_branch self lderepc (LDE_REPC_5 C)
  else if is_code preacode (PREAMBLE_CODE_16MHZ_6 C) then
    lderepc_branch self lderepc (LDE_REPC_6 C)
  else if is_code preacode (PREAMBLE_CODE_16MHZ_7 C) then
    lderepc_branch self lderepc (LDE_REPC_7 C)
  else if is_code preacode (PREAMBLE_CODE_64MHZ_9 C) then
    lderepc_branch self lderepc (LDE_REPC_9 C)
  else if is_code preacode (PREAMBLE_CODE_64MHZ_10 C)
          || is_code preacode (PREAMBLE_CODE_64MHZ_17 C) then
    lderepc_branch self lderepc (LDE_REPC_1017 C)
  else if is_code preacode (PREAMBLE_CODE_64MHZ_11 C) then
    lderepc_branch self lderepc (LDE_REPC_111321 C)
  else if is_code preacode (PREAMBLE_CODE_64MHZ_12 C) then
    lderepc_branch self lderepc (LDE_REPC_12 C)
  else if is_code preacode (PREAMBLE_CODE_64MHZ_18 C)
          || is_code preacode (PREAMBLE_CODE_64MHZ_19 C) then
    lderepc_branch self lderepc (LDE_REPC_14161819 C)
  else if is_code preacode (PREAMBLE_CODE_64MHZ_20 C) then
    lderepc_branch self lderepc (LDE_REPC_20 C)
  else lderepc.

(** [bytearray([b])] *)
Definition bytearray1 (b : Z) : res (list Z) :=
  (v <-- byte_value b; Success [v])%res.

Definition readBytesOTP (address : Z) (data : list Z) : M (list Z) :=
  let addressBytes := [0; 0] in
  addressBytes <- lift (bytearray_setitem addressBytes 0
                          (Z.land address (MASK_LS_BYTE C))) ;;
  addressBytes <- lift (bytearray_setitem addressBytes 1
                          (Z.land (Z.shiftr address 8) (MASK_LS_BYTE C))) ;;
  writeBytes (OTP_IF C) (OTP_ADDR_SUB C) addressBytes 2 ;;
  step2 <- lift (bytearray1 (OTP_STEP2 C)) ;;
  writeBytes (OTP_IF C) (OTP_CTRL_SUB C) step2 1 ;;
  step3 <- lift (bytearray1 (OTP_STEP3 C)) ;;
  writeBytes (OTP_IF C) (OTP_CTRL_SUB C) step3 1 ;;
  data <- readBytes (OTP_IF C) (OTP_RDAT_SUB C) data 4 ;;
  step5 <- lift (bytearray1 (OTP_STEP5 C)) ;;
  writeBytes (OTP_IF C) (OTP_CTRL_SUB C) step5 1 ;;
  ret data.

(** The value [tune] writes to the crystal-trim register, from the
    first byte read at [OTP_XTAL_ADDRESS]. *)
Definition xtalt_value (otp0 : Z) : Z :=
  if otp0 =? 0 then
    Z.lor (Z.land (TUNE_OPERATION C) (TUNE_MASK1 C)) (TUNE_MASK2 C)
  else
    Z.lor (Z.land otp0 (TUNE_MASK1 C)) (TUNE_MASK2 C).

Definition tune : M unit :=
  self <- get_self ;;
  let agctune1 := Register.new (AGC_CTRL C) (AGC_TUNE1_SUB C) 2 in
  let agctune2 := Register.new (AGC_CTRL C) (AGC_TUNE2_SUB C) 4 in
  let agctune3 := Register.new (AGC_CTRL C) (AGC_TUNE3_SUB C) 2 in
  let drxtune0b := Register.new (DRX_CONF C) (DRX_TUNE0b_SUB C) 2 in
  let drxtune1a := Register.new (DRX_CONF C) (DRX_TUNE1a_SUB C) 2 in
  let drxtune1b := Register.new (DRX_CONF C) (DRX_TUNE1b_SUB C) 2 in
  let drxtune2 := Register.new (DRX_CONF C) (DRX_TUNE2_SUB C) 4 in
  let drxtune4H := Register.new (DRX_CONF C) (DRX_TUNE4H_SUB C) 2 in
  let rfrxctrlh := Register.new (RF_CONF C) (RF_RXCTRLH_SUB C) 1 in
  let rftxctrl := Register.new (RF_CONF C) (RF_TXCTRL_SUB C) 4 in
  let tcpgdelay := Register.new (TX_CAL C) (TC_PGDELAY_SUB C) 1 in
  let fspllcfg := Register.new (FS_CTRL C) (FS_PLLCFG_SUB C) 4 in
  let fsplltune := Register.new (FS_CTRL C) (FS_PLLTUNE_SUB C) 1 in
  let ldecfg1 := Register.new (LDE_CTRL C) (LDE_CFG1_SUB C) 1 in
  let ldecfg2 := Register.new (LDE_CTRL C) (LDE_CFG2_SUB C) 2 in
  let lderepc := Register.new (LDE_CTRL C) (LDE_REPC_SUB C) 2 in
  let txpower := Register.new (TX_POWER C) (NO_SUB C) 4 in
  let fsxtalt := Register.new (FS_CTRL C) (FS_XTALT_SUB C) 1 in
  let preambleLength := preambleLength (operationMode self) in
  let channel := channel (operationMode self) in

  let agctune1 := tuneAgcTune1 self agctune1 in
  let agctune2 := writeValue agctune2 (AGC_TUNE2_OP C) in
  let agctune2 := writeValue agctune2 (AGC_TUNE3_OP C) in
  let drxtune0b := tuneDrxTune0b self drxtune0b in
  let '(drxtune1a, ldecfg2) := tuneDrxTune1aAndldecfg2 self drxtune1a ldecfg2 in
  drxtune1b <- lift (tuneDrxtune1b self drxtune1b) ;;
  let drxtune2 := tuneDrxTune2 self drxtune2 in

  let drxtune4H :=
    if is_code preambleLength (TX_PREAMBLE_LEN_64 C) then
      writeValue drxtune4H (DRX_TUNE4H_64 C)
    else writeValue drxtune4H (DRX_TUNE4H_128 C) in

  let rfrxctrlh :=
    if negb (is_code channel (CHANNEL_4 C)) && negb (is_code channel (CHANNEL_7 C)) then
      writeValue rfrxctrlh (RF_RXCTRLH_1235 C)
    else writeValue rfrxctrlh (RF_RXCTRLH_147 C) in

  let ch := tuneAccToChan self
              (Build_chan_registers rftxctrl tcpgdelay fspllcfg fsplltune txpower) in

  let ldecfg1 := writeValue ldecfg1 (LDE_CFG1_OP C) in
  let lderepc := tunelderepc self lderepc in

  (* buf_otp = [None] * 4: four places, each filled before it is read *)
  let buf_otp := [0; 0; 0; 0] in
  buf_otp <- readBytesOTP (OTP_XTAL_ADDRESS C) buf_otp ;;
  otp0 <- lift (getitem buf_otp 0) ;;
  let fsxtalt := writeValue fsxtalt (xtalt_value otp0) in

  writeRegister agctune1 ;;
  writeRegister agctune2 ;;
  writeRegister agctune3 ;;
  writeRegister drxtune0b ;;
  writeRegister drxtune1a ;;
  writeRegister drxtune1b ;;
  writeRegister drxtune2 ;;
  writeRegister drxtune4H ;;
  writeRegister ldecfg1 ;;
  writeRegister ldecfg2 ;;
  writeRegister lderepc ;;
  writeRegister (the_txpower ch) ;;
  writeRegister rfrxctrlh ;;
  writeRegister (the_rftxctrl ch) ;;
  writeRegister (the_tcpgdelay ch) ;;
  writeRegister (the_fsplltune ch) ;;
  writeRegister (the_fspllcfg ch) ;;
  writeRegister fsxtalt.


(** *** Ranging math *)

(** [math.log10(x)] *)
Definition math_log10 (x : float) : res float :=
  if (0 <? x)%float then Success (log10 x)
  else if PrimFloat.is_nan x then Success x
  else Failure ValueError.

Definition getReceivePower : M float :=
  let cirPwrBytes := Register.new (RX_FQUAL C) (CIR_PWR_SUB C) 2 in
  let rxFrameInfo := Register.new (RX_FINFO C) (NO_SUB C) 4 in
  cirPwrBytes <- readRegister cirPwrBytes ;;
  rxFrameInfo <- readRegister rxFrameInfo ;;
  c0 <- lift (Register.get cirPwrBytes 0) ;;
  c1 <- lift (Register.get cirPwrBytes 1) ;;
  let cir := Z.lor c0 (Z.shiftl c1 8) in
  r2 <- lift (Register.get rxFrameInfo 2) ;;
  r3 <- lift (Register.get rxFrameInfo 3) ;;
  let N := Z.lor (Z.land (Z.shiftr r2 4) (MASK_LS_BYTE C)) (Z.shiftl r3 4) in
  self <- get_self ;;
  let '(A, corrFac) :=
    if is_code (pulseFrequency (operationMode self)) (TX_PULSE_FREQ_16MHZ C)
    then (A_16MHZ C, CORRFAC_16MHZ C)
    else (A_64MHZ C, CORRFAC_64MHZ C) in
  let estRXPower := 0%float in
  q <- lift (py_truediv (py_float cir * py_float (TWOPOWER17 C))
                        (py_float N * py_float N)) ;;
  estRXPower <-
    (if (0 <? q)%float then
       q <- lift (py_truediv (py_float cir * py_float (TWOPOWER17 C))
                             (py_float N * py_float N)) ;;
       l <- lift (math_log10 q) ;;
       ret (PWR_COEFF2 C * l - A)%float
     else ret estRXPower) ;;
  if (estRXPower <=? - PWR_COEFF C)%float then ret estRXPower
  else ret (estRXPower + (estRXPower + PWR_COEFF C) * corrFac)%float.

(** The bracket of [correctTimestamp]: [rxPowerBaseLow] and
    [rxPowerBaseHigh] after the two clamps. *)
Definition bracket (rxPowerBase : float) : res (Z * Z) :=
  (fl <-- math_floor rxPowerBase;
   let rxPowerBaseLow := fl in
   let rxPowerBaseHigh := rxPowerBaseLow + 1 in
   if rxPowerBaseLow <? 0 then Success (0, 0)
   else if rxPowerBaseHigh >? 17 then Success (17, 17)
   else Success (rxPowerBaseLow, rxPowerBaseHigh))%res.

(** One table entry with its sign restored, shifted left by one. *)
Definition bias_entry (table : list Z) (zero : Z) (i : Z) : res Z :=
  (if i <? zero then
     v <-- getitem table i; Success (Z.shiftl (- v) 1)
   else
     v <-- getitem table i; Success (Z.shiftl v 1))%res.

(** [rangeBiasHigh] and [rangeBiasLow] from one table. *)
Definition bias_pair (table : list Z) (zero : Z) (low high : Z) : res (Z * Z) :=
  (rangeBiasHigh <-- bias_entry table zero high;
   rangeBiasLow <-- bias_entry table zero low;
   Success (rangeBiasHigh, rangeBiasLow))%res.

(** The interpolated bias of [correctTimestamp]. *)
Definition rangeBias_of (self : DW1000) (rxPowerBase : float)
    (rxPowerBaseLow rxPowerBaseHigh : Z) : res float :=
  let channel := channel (operationMode self) in
  let pulseFrequency := pulseFrequency (operationMode self) in
  (p <-- (if is_code channel (CHANNEL_4 C) || is_code channel (CHANNEL_7 C) then
            if is_code pulseFrequency (TX_PULSE_FREQ_16MHZ C) then
              bias_pair (BIAS_900_16 C) (BIAS_900_16_ZERO C) rxPowerBaseLow rxPowerBaseHigh
            else if is_code pulseFrequency (TX_PULSE_FREQ_64MHZ C) then
              bias_pair (BIAS_900_64 C) (BIAS_900_64_ZERO C) rxPowerBaseLow rxPowerBaseHigh
            else Failure UnboundLocalError
          else
            if is_code pulseFrequency (TX_PULSE_FREQ_16MHZ C) then
              bias_pair (BIAS_500_16 C) (BIAS_500_16_ZERO C) rxPowerBaseLow rxPowerBaseHigh
            else if is_code pulseFrequency (TX_PULSE_FREQ_64MHZ C) then
              bias_pair (BIAS_500_64 C) (BIAS_500_64_ZERO C) rxPowerBaseLow rxPowerBaseHigh
            else Failure UnboundLocalError);
   let '(rangeBiasHigh, rangeBiasLow) := p in
   Success (py_float rangeBiasLow
            + (rxPowerBase - py_float rxPowerBaseLow)
              * py_float (rangeBiasHigh - rangeBiasLow))%float)%res.

Definition correctTimestamp (timestamp : Z) : M float :=
  power <- getReceivePower ;;
  let rxPowerBase := (PrimFloat.opp (power + 61) * 0.5)%float in
  b <- lift (bracket rxPowerBase) ;;
  self <- get_self ;;
  rangeBias <- lift (rangeBias_of self rxPowerBase (fst b) (snd b)) ;;
  let adjustmentTimeTS :=
    (rangeBias * DISTANCE_OF_RADIO_INV C * ADJUSTMENT_TIME_FACTOR C)%float in
  ret (py_float timestamp + adjustmentTimeTS)%float.

Definition wrapTimestamp (timestamp : Z) : Z :=
  if timestamp <? 0 then timestamp + TIME_OVERFLOW C else timestamp.

(** *** Frame input and output *)

Definition clearTransmitStatus : M unit :=
  clearStatus [TXFRB_BIT C; TXPRS_BIT C; TXPHS_BIT C; TXFRS_BIT C].

Definition newTransmit : M unit :=
  idle ;;
  call self_sysctrl (fun r => Success (clear r)) ;;
  clearTransmitStatus.

Definition startTransmit (wait4resp : bool) : M unit :=
  writeRegister_self self_txfctrl ;;
  call self_sysctrl (fun r => setBit r (WAIT4RESP_BIT C) wait4resp) ;;
  call self_sysctrl (fun r => setBit r (TXSTRT_BIT C) true) ;;
  writeRegister_self self_sysctrl.

(** [setData(data, dataLength)]; [readBytes] fills [data] in place, the
    filled array is the result. *)
Definition setData (data : list Z) (dataLength : nat) : M (list Z) :=
  writeBytes (TX_BUFFER C) (NO_SUB C) data dataLength ;;
  data <- readBytes (TX_BUFFER C) (NO_SUB C) data dataLength ;;
  let dataLength := Z.of_nat dataLength + 2 in
  call self_txfctrl (fun r =>
    Register.set r 0 (Z.land dataLength (MASK_LS_BYTE C))) ;;
  call self_txfctrl (fun r =>
    (v <-- Register.get r 1; Register.set r 1 (Z.land v (SET_DATA_MASK1 C)))%res) ;;
  call self_txfctrl (fun r =>
    (v <-- Register.get r 1;
     Register.set r 1
       (Z.lor v (Z.land (Z.shiftr dataLength 8) (SET_DATA_MASK2 C))))%res) ;;
  ret data.

(** [for i in range(0, 5): acc |= reg[i] << (i * 8)] *)
Fixpoint gather (r : DW1000Register) (i : Z) (k : nat) (acc : Z) : res Z :=
  match k with
  | O => Success acc
  | S k' =>
      (b <-- Register.get r i;
       gather r (i + 1) k' (Z.lor acc (Z.shiftl b (i * 8))))%res
  end.

(** [for i in range(0, 5): reg[i] = int(v >> (i * 8)) & C.MASK_LS_BYTE] *)
Fixpoint scatter (r : DW1000Register) (v : Z) (i : Z) (k : nat) : res DW1000Register :=
  match k with
  | O => Success r
  | S k' =>
      (r' <-- Register.set r i (Z.land (Z.shiftr v (i * 8)) (MASK_LS_BYTE C));
       scatter r' v (i + 1) k')%res
  end.

Definition setDelay (delay unit : float) (mode : string) : M Z :=
  (if String.eqb (lower mode) "tx"%string then
     call self_sysctrl (fun r => setBit r (TXDLYS_BIT C) true)
   else if String.eqb (lower mode) "rx"%string then
     call self_sysctrl (fun r => setBit r (RXDLYE_BIT C) true)
   else ret tt) ;;
  let delayReg := Register.new (DX_TIME C) (NO_SUB C) 5 in
  let sysTimeReg := Register.new (SYS_TIME C) (NO_SUB C) 5 in
  sysTimeReg <- readRegister sysTimeReg ;;
  futureTimeTS <- lift (gather sysTimeReg 0 5 0) ;;
  ticks <- lift (py_int (delay * unit * TIME_RES_INV C)%float) ;;
  let futureTimeTS := futureTimeTS + ticks in
  let delayReg := clear delayReg in
  delayReg <- lift (scatter delayReg futureTimeTS 0 5) ;;
  delayReg <- lift (Register.set delayReg 0 0) ;;
  delayReg <- lift (v <-- Register.get delayReg 1;
                    Register.set delayReg 1 (Z.land v (SET_DELAY_MASK C)))%res ;;
  writeRegister delayReg ;;
  futureTimeTS <- lift (gather delayReg 0 5 0) ;;
  ret (futureTimeTS + ANTENNA_DELAY C).

(** The header [sendMessage] fills before it asks for the encoding. *)
Definition message_header (self : DW1000) (dstAddr dstPAN : Z) (ackReq : bool) : MACHeader :=
  {| frameControl :=
       {| frameType := FT_DATA MAC;
          secEnable := 0;
          framePending := 0;
          ackRequest := ackReq;
          panCompression := 1;
          destAddrMode := AD_SAD MAC;
          frameVersion := IEEE802_15_4_2003 MAC;
          srcAddrMode := AD_SAD MAC |};
     seqNumber := seqNum self;
     destPAN := dstPAN;
     destAddr := dstAddr;
     srcAddr := firstn 2 (data (panadr self)) |}.

Definition sendMessage (dstAddr dstPAN : Z) (payload : list Z)
    (ackReq wait4resp : bool) (delay : option float) : M unit :=
  self <- get_self ;;
  let header := message_header self dstAddr dstPAN ackReq in
  let headerEnc := encode MAC header in
  message <- lift (bytearray_of (headerEnc ++ payload)) ;;
  newTransmit ;;
  setData message (Datatypes.length message) ;;
  (* if delay: *)
  match delay with
  | Some d =>
      if (d =? 0)%float then ret tt
      else (setDelay d (MICROSECONDS C) "tx"%string ;; ret tt)
  | None => ret tt
  end ;;
  startTransmit wait4resp ;;
  n <- the seqNum ;;
  modify (fun s => set_seqNum s ((n + 1) mod 256)).

(** *** The constructor *)

(** [randrange(start, stop)] returns an element of [range(start, stop)]
    that the generator of the [random] module chooses.  The generator is
    outside the program: [entropy] stands for what it supplies, and
    every element of the range is returned for some [entropy].  The one
    call of the program has the range [range(0, 256)], which is not
    empty. *)
Definition randrange (start stop : Z) (entropy : Z) : Z :=
  start + entropy mod (stop - start).

Definition __init__ (cs rst irq : Z) (entropy : Z) : DW1000 :=
  {| cs := cs; rst := rst; irq := irq;
     dblbuffon := false;
     sysctrl := Register.new (SYS_CTRL C) (NO_SUB C) 4;
     chanctrl := Register.new (CHAN_CTRL C) (NO_SUB C) 4;
     syscfg := Register.new (SYS_CFG C) (NO_SUB C) 4;
     sysmask := Register.new (SYS_MASK C) (NO_SUB C) 4;
     txfctrl := Register.new (TX_FCTRL C) (NO_SUB C) 5;
     sysstatus := Register.new (SYS_STATUS C) (NO_SUB C) 5;
     gpiomode := Register.new (GPIO_CTRL C) (GPIO_MODE_SUB C) 4;
     pmscctrl0 := Register.new (PMSC C) (PMSC_CTRL0_SUB C) 4;
     pmscledc := Register.new (PMSC C) (PMSC_LEDC_SUB C) 4;
     otpctrl := Register.new (OTP_IF C) (OTP_CTRL_SUB C) 2;
     panadr := Register.new (PANADR C) (NO_SUB C) 4;
     eui := Register.new (EUI C) (NO_SUB C) 8;
     ackrespt := Register.new (ACK_RESP_T C) (NO_SUB C) 4;
     rxfinfo := Register.new (RX_FINFO C) (NO_SUB C) 4;
     seqNum := randrange 0 256 entropy;
     operationMode := {| dataRate := None; pulseFrequency := None;
                         pacSize := None; preambleLength := None;
                         channel := None; preacode := None |};
     permanentReceive := false;
     log := [] |}.

(** *** Describing logs and states *)

Definition add_log (s : DW1000) (evs : list event) : DW1000 :=
  set_log s (log s ++ evs).

(** The header bytes of a read and of a write at [(cmd, offset)]. *)
Definition rd_hdr (cmd offset : Z) : list Z :=
  match on_wire (readHeader cmd offset) with
  | Success h => h
  | Failure _ => []
  end.

Definition wr_hdr (cmd offset : Z) : list Z :=
  match on_wire (writeHeader cmd offset) with
  | Success h => h
  | Failure _ => []
  end.

(** Both headers of [(cmd, offset)] can be built. *)
Definition addressable (cmd offset : Z) : bool :=
  match readHeader cmd offset, writeHeader cmd offset with
  | Success _, Success _ => true
  | _, _ => false
  end.

Definition read_frame (pin cmd offset : Z) (n : nat) : list event :=
  frame pin (rd_hdr cmd offset ++ repeat (JUNK C) n).

Definition write_frame (pin cmd offset : Z) (bytes : list Z) : list event :=
  frame pin (wr_hdr cmd offset ++ bytes).

(** What a read of [n] bytes at [(cmd, offset)] returns after the log
    [h]. *)
Definition read_answer (h : list event) (pin cmd offset : Z) (n : nat) : list Z :=
  read_result h pin (rd_hdr cmd offset) n.

(** Bits of a byte buffer. *)
Definition bit_of (d : list Z) (i : Z) : bool :=
  Z.testbit (nth (Z.to_nat (i / 8)) d 0) (i mod 8).

Definition set_bit_in (d : list Z) (i : Z) (v : bool) : list Z :=
  replace_nth d (Z.to_nat (i / 8))
    (write_bit (nth (Z.to_nat (i / 8)) d 0) (i mod 8) v).

Definition set_bits_in (d : list Z) (l : list Z) (v : bool) : list Z :=
  fold_left (fun d i => set_bit_in d i v) l d.

Definition in_range (n : Z) (i : Z) : bool := (0 <=? i) && (i <? n).

(** A register attribute as the constructor made it: its place on the
    chip, its size, and a buffer of that size. *)
Definition shaped (r : DW1000Register) (addr sub : Z) (n : nat) : Prop :=
  address r = addr /\ subaddress r = sub /\ size r = n /\
  Datatypes.length (data r) = n.

Definition wf_self (s : DW1000) : Prop :=
  shaped (sysctrl s) (SYS_CTRL C) (NO_SUB C) 4 /\
  shaped (sysmask s) (SYS_MASK C) (NO_SUB C) 4 /\
  shaped (sysstatus s) (SYS_STATUS C) (NO_SUB C) 5 /\
  shaped (txfctrl s) (TX_FCTRL C) (NO_SUB C) 5.

(** The constants the device controller relies on: the three registers
    can be addressed and the bit positions lie inside them. *)
Definition controller_ok : bool :=
  addressable (SYS_CTRL C) (NO_SUB C) &&
  addressable (SYS_MASK C) (NO_SUB C) &&
  addressable (SYS_STATUS C) (NO_SUB C) &&
  forallb (in_range 32)
    [MRXFCE_BIT C; MRXFCG_BIT C; MRXDFR_BIT C; MLDEDONE_BIT C;
     HRBPT_BIT C; TRXOFF_BIT C; WAIT4RESP_BIT C] &&
  forallb (in_range 40)
    ([HSRBP_BIT C; ICRBP_BIT C] ++
     SYS_STATUS_ALL_TX C ++ SYS_STATUS_ALL_RX_ERR C ++
     SYS_STATUS_ALL_RX_TO C ++ SYS_STATUS_ALL_RX_GOOD C).

(** The three frames of a buffer-pointer toggle, from the contents of
    the mask and control attributes when it starts. *)
Definition toggle_frames (s : DW1000) : list event :=
  write_frame (cs s) (SYS_MASK C) (NO_SUB C)
    (set_bits_in (data (sysmask s))
       [MRXFCE_BIT C; MRXFCG_BIT C; MRXDFR_BIT C; MLDEDONE_BIT C] false)
  ++ write_frame (cs s) (SYS_CTRL C) (NO_SUB C)
       (set_bit_in (data (sysctrl s)) (HRBPT_BIT C) true)
  ++ write_frame (cs s) (SYS_MASK C) (NO_SUB C) (data (sysmask s)).

(** *** The wire format *)

(** The flag values of the wire format: bit 7 marks a write, bit 6 a
    sub-address, bit 7 of the first sub-address byte its extension. *)
Definition wire_format_ok : bool :=
  (READ C =? 0x00) && (READ_SUB C =? 0x40) &&
  (WRITE C =? 0x80) && (WRITE_SUB C =? 0xC0) &&
  (RW_SUB_EXT C =? 0x80) && (MASK_LS_BYTE C =? 0xFF).

(** How the receiving side reads the start of a frame, following the
    wire format of the spec (4.2): is it a write, which register, which
    sub-address if any, and the bytes after the header.  This side is
    the chip's; it is defined here to state the round trip. *)
Definition spec_decode (bytes : list Z) : option (bool * Z * option Z * list Z) :=
  match bytes with
  | [] => None
  | b0 :: rest =>
      let is_write := Z.testbit b0 7 in
      let reg := Z.land b0 0x3F in
      if Z.testbit b0 6 then
        match rest with
        | [] => None
        | b1 :: rest1 =>
            if Z.testbit b1 7 then
              match rest1 with
              | [] => None
              | b2 :: rest2 =>
                  Some (is_write, reg,
                        Some (Z.lor (Z.land b1 0x7F) (Z.shiftl b2 7)), rest2)
              end
            else Some (is_write, reg, Some b1, rest1)
        end
      else Some (is_write, reg, None, rest)
  end.

(** The facts about the first header byte, for one register id. *)
Definition head_check (cmd : Z) : bool :=
  forallb (fun flag =>
             let b := Z.lor flag cmd in
             (0 <=? b) && (b <? 256) && (Z.land b 0x3F =? cmd) &&
             Bool.eqb (Z.testbit b 7) (Z.testbit flag 7) &&
             Bool.eqb (Z.testbit b 6) (Z.testbit flag 6))
          [0x00; 0x40; 0x80; 0xC0].

(** The facts about the sub-address bytes, for one sub-address. *)
Definition offset_check (o : Z) : bool :=
  if o <? 128 then negb (Z.testbit o 7)
  else
    let b1 := Z.land (Z.lor 0x80 o) 0xFF in
    let b2 := Z.shiftr o 7 in
    (0 <=? b1) && (b1 <? 256) && (0 <=? b2) && (b2 <? 256) &&
    (b1 =? Z.lor (Z.land o 0x7F) 0x80) && Z.testbit b1 7 &&
    (Z.lor (Z.land b1 0x7F) (Z.shiftl b2 7) =? o).

(** The state a buffer-pointer toggle leaves: the toggle bit set in
    the control attribute, three frames more in the log. *)
Definition toggled (s : DW1000) : DW1000 :=
  add_log
    (set_sysctrl s
       (with_data (sysctrl s) (set_bit_in (data (sysctrl s)) (HRBPT_BIT C) true)))
    (toggle_frames s).

(** The five status bytes [syncHSRBP] reads when it starts in [s], and
    whether the two buffer-pointer bits among them are equal. *)
Definition status_answer (s : DW1000) : list Z :=
  read_answer (log s) (cs s) (SYS_STATUS C) (NO_SUB C) 5.

Definition pointers_equal (s : DW1000) : bool :=
  Bool.eqb (bit_of (status_answer s) (HSRBP_BIT C))
           (bit_of (status_answer s) (ICRBP_BIT C)).

(** The state after the status read of [syncHSRBP]. *)
Definition status_read (s : DW1000) : DW1000 :=
  set_sysstatus
    (add_log s (read_frame (cs s) (SYS_STATUS C) (NO_SUB C) 5))
    (with_data (sysstatus s) (status_answer s)).

(** The bit positions [forceTRxOff] clears in the status register. *)
Definition abort_bits : list Z :=
  SYS_STATUS_ALL_TX C ++ SYS_STATUS_ALL_RX_ERR C ++
  SYS_STATUS_ALL_RX_TO C ++ SYS_STATUS_ALL_RX_GOOD C.

(** The mask [forceTRxOff] saves: what the chip answers to the read of
    the mask register the method starts with. *)
Definition saved_mask (s : DW1000) : list Z :=
  read_answer (log s) (cs s) (SYS_MASK C) (NO_SUB C) 4.

(** The state of [forceTRxOff] when it reaches [syncHSRBP]: the mask
    attribute zeroed, the control attribute holding the transceiver-off
    bit alone, the status attribute holding the bits to clear, and five
    entries more in the log. *)
Definition before_sync (s : DW1000) : DW1000 :=
  let off := set_bit_in (repeat 0 4) (TRXOFF_BIT C) true in
  let cleared := set_bits_in (repeat 0 5) abort_bits true in
  add_log
    (set_sysstatus
       (set_sysctrl
          (set_sysmask s (with_data (sysmask s) (repeat 0 4)))
          (with_data (sysctrl s) off))
       (with_data (sysstatus s) cleared))
    (read_frame (cs s) (SYS_MASK C) (NO_SUB C) 4
     ++ [GPIO_remove_event_detect (irq s)]
     ++ write_frame (cs s) (SYS_MASK C) (NO_SUB C) (repeat 0 4)
     ++ write_frame (cs s) (SYS_CTRL C) (NO_SUB C) off
     ++ write_frame (cs s) (SYS_STATUS C) (NO_SUB C) cleared).

(** The state [forceTRxOff] leaves when its last three statements start
    in [x]: the saved mask back in the attribute and written to the
    chip, the wait-for-response bit of the control attribute off. *)
Definition restored (x : DW1000) (mask : list Z) : DW1000 :=
  set_sysctrl
    (add_log (set_sysmask x (with_data (sysmask x) mask))
       (write_frame (cs x) (SYS_MASK C) (NO_SUB C) mask))
    (with_data (sysctrl x)
       (set_bit_in (data (sysctrl x)) (WAIT4RESP_BIT C) false)).

(** The state [clearStatus] leaves. *)
Definition status_cleared (x : DW1000) (bits : list Z) : DW1000 :=
  add_log
    (set_sysstatus x
       (with_data (sysstatus x) (set_bits_in (repeat 0 5) bits true)))
    (write_frame (cs x) (SYS_STATUS C) (NO_SUB C)
       (set_bits_in (repeat 0 5) bits true)).

(** The state [idle] leaves. *)
Definition idled (x : DW1000) : DW1000 :=
  add_log
    (set_sysctrl x
       (with_data (sysctrl x) (set_bit_in (repeat 0 4) (TRXOFF_BIT C) true)))
    (write_frame (cs x) (SYS_CTRL C) (NO_SUB C)
       (set_bit_in (repeat 0 4) (TRXOFF_BIT C) true)).

(** *** Describing a tuning run *)

(** The frame that commits a register. *)
Definition commit (pin : Z) (r : DW1000Register) : list event :=
  write_frame pin (address r) (subaddress r) (data r).

(** A register that can be committed. *)
Definition tunable (r : DW1000Register) : Prop :=
  addressable (address r) (subaddress r) = true /\ Register.wf r.

(** A well-formed register at a given place of the register file. *)
Definition placed (r : DW1000Register) (addr sub : Z) : Prop :=
  address r = addr /\ subaddress r = sub /\ Register.wf r.

(** The frames of [readBytesOTP]: three writes that request the word,
    the read, and the closing write. *)
Definition otp_request (pin address : Z) : list event :=
  write_frame pin (OTP_IF C) (OTP_ADDR_SUB C)
    [Z.land address (MASK_LS_BYTE C);
     Z.land (Z.shiftr address 8) (MASK_LS_BYTE C)]
  ++ write_frame pin (OTP_IF C) (OTP_CTRL_SUB C) [OTP_STEP2 C]
  ++ write_frame pin (OTP_IF C) (OTP_CTRL_SUB C) [OTP_STEP3 C].

Definition otp_frames (pin address : Z) : list event :=
  otp_request pin address
  ++ read_frame pin (OTP_IF C) (OTP_RDAT_SUB C) 4
  ++ write_frame pin (OTP_IF C) (OTP_CTRL_SUB C) [OTP_STEP5 C].

(** The four bytes the chip answers for the word at [address] when the
    request starts in [s]. *)
Definition otp_answer (s : DW1000) (address : Z) : list Z :=
  read_answer (log s ++ otp_request (cs s) address) (cs s)
    (OTP_IF C) (OTP_RDAT_SUB C) 4.

(** The crystal-trim byte stored in the chip, as [tune] reads it. *)
Definition otp_xtal_byte (s : DW1000) : Z :=
  nth 0 (otp_answer s (OTP_XTAL_ADDRESS C)) 0.

(** The constants the one-time-programmable memory access relies on. *)
Definition otp_ok (address : Z) : bool :=
  addressable (OTP_IF C) (OTP_ADDR_SUB C) &&
  addressable (OTP_IF C) (OTP_CTRL_SUB C) &&
  addressable (OTP_IF C) (OTP_RDAT_SUB C) &&
  forallb (in_range 256)
    [Z.land address (MASK_LS_BYTE C);
     Z.land (Z.shiftr address 8) (MASK_LS_BYTE C);
     OTP_STEP2 C; OTP_STEP3 C; OTP_STEP5 C].

(** The places of the eighteen tuning registers. *)
Definition tuning_places : list (Z * Z) :=
  [(AGC_CTRL C, AGC_TUNE1_SUB C); (AGC_CTRL C, AGC_TUNE2_SUB C);
   (AGC_CTRL C, AGC_TUNE3_SUB C); (DRX_CONF C, DRX_TUNE0b_SUB C);
   (DRX_CONF C, DRX_TUNE1a_SUB C); (DRX_CONF C, DRX_TUNE1b_SUB C);
   (DRX_CONF C, DRX_TUNE2_SUB C); (DRX_CONF C, DRX_TUNE4H_SUB C);
   (LDE_CTRL C, LDE_CFG1_SUB C); (LDE_CTRL C, LDE_CFG2_SUB C);
   (LDE_CTRL C, LDE_REPC_SUB C); (TX_POWER C, NO_SUB C);
   (RF_CONF C, RF_RXCTRLH_SUB C); (RF_CONF C, RF_TXCTRL_SUB C);
   (TX_CAL C, TC_PGDELAY_SUB C); (FS_CTRL C, FS_PLLTUNE_SUB C);
   (FS_CTRL C, FS_PLLCFG_SUB C); (FS_CTRL C, FS_XTALT_SUB C)].

(** The constants [tune] relies on: every tuning register can be
    addressed, and so can the one-time-programmable memory. *)
Definition tuner_ok : bool :=
  forallb (fun p => addressable (fst p) (snd p)) tuning_places &&
  otp_ok (OTP_XTAL_ADDRESS C).

(** The seventeen registers [tune] fills from the tables, in the order
    it commits them; [drxtune1b] is the one [tuneDrxtune1b] returned. *)
Definition tune_table (self : DW1000) (drxtune1b : DW1000Register) : list DW1000Register :=
  let ch := tuneAccToChan self
              (Build_chan_registers
                 (Register.new (RF_CONF C) (RF_TXCTRL_SUB C) 4)
                 (Register.new (TX_CAL C) (TC_PGDELAY_SUB C) 1)
                 (Register.new (FS_CTRL C) (FS_PLLCFG_SUB C) 4)
                 (Register.new (FS_CTRL C) (FS_PLLTUNE_SUB C) 1)
                 (Register.new (TX_POWER C) (NO_SUB C) 4)) in
  [tuneAgcTune1 self (Register.new (AGC_CTRL C) (AGC_TUNE1_SUB C) 2);
   writeValue (writeValue (Register.new (AGC_CTRL C) (AGC_TUNE2_SUB C) 4)
                 (AGC_TUNE2_OP C)) (AGC_TUNE3_OP C);
   Register.new (AGC_CTRL C) (AGC_TUNE3_SUB C) 2;
   tuneDrxTune0b self (Register.new (DRX_CONF C) (DRX_TUNE0b_SUB C) 2);
   fst (tuneDrxTune1aAndldecfg2 self
          (Register.new (DRX_CONF C) (DRX_TUNE1a_SUB C) 2)
          (Register.new (LDE_CTRL C) (LDE_CFG2_SUB C) 2));
   drxtune1b;
   tuneDrxTune2 self (Register.new (DRX_CONF C) (DRX_TUNE2_SUB C) 4);
   (if is_code (preambleLength (operationMode self)) (TX_PREAMBLE_LEN_64 C)
    then writeValue (Register.new (DRX_CONF C) (DRX_TUNE4H_SUB C) 2)
           (DRX_TUNE4H_64 C)
    else writeValue (Register.new (DRX_CONF C) (DRX_TUNE4H_SUB C) 2)
           (DRX_TUNE4H_128 C));
   writeValue (Register.new (LDE_CTRL C) (LDE_CFG1_SUB C) 1) (LDE_CFG1_OP C);
   snd (tuneDrxTune1aAndldecfg2 self
          (Register.new (DRX_CONF C) (DRX_TUNE1a_SUB C) 2)
          (Register.new (LDE_CTRL C) (LDE_CFG2_SUB C) 2));
   tunelderepc self (Register.new (LDE_CTRL C) (LDE_REPC_SUB C) 2);
   the_txpower ch;
   (if negb (is_code (channel (operationMode self)) (CHANNEL_4 C))
       && negb (is_code (channel (operationMode self)) (CHANNEL_7 C))
    then writeValue (Register.new (RF_CONF C) (RF_RXCTRLH_SUB C) 1)
           (RF_RXCTRLH_1235 C)
    else writeValue (Register.new (RF_CONF C) (RF_RXCTRLH_SUB C) 1)
           (RF_RXCTRLH_147 C));
   the_rftxctrl ch;
   the_tcpgdelay ch;
   the_fsplltune ch;
   the_fspllcfg ch].

(** The crystal-trim register as [tune] commits it, from the byte read
    in the one-time-programmable memory. *)
Definition crystal_trim (otp0 : Z) : DW1000Register :=
  writeValue (Register.new (FS_CTRL C) (FS_XTALT_SUB C) 1) (xtalt_value otp0).

(** [tune], started in [s], completes and commits the registers of
    [table] and then the crystal-trim register. *)
Definition tune_commits (s : DW1000) (table : list DW1000Register) : Prop :=
  exists s',
    tune s = Ok tt s' /\
    log s' = log s
             ++ otp_frames (cs s) (OTP_XTAL_ADDRESS C)
             ++ List.concat (map (commit (cs s)) table)
             ++ commit (cs s) (crystal_trim (otp_xtal_byte s)).

(** The mode sends [tuneDrxtune1b] into the branch that calls the
    register: preamble length 64 at 6800 kbps. *)
Definition short_preamble_at_6800 (m : OperationMode) : bool :=
  is_code (preambleLength m) (TX_PREAMBLE_LEN_64 C) &&
  is_code (dataRate m) (TRX_RATE_6800KBPS C).

(** The code of preamble length 64 differs from the codes of the three
    longest preambles. *)
Definition preamble_codes_ok : bool :=
  negb (TX_PREAMBLE_LEN_64 C =? TX_PREAMBLE_LEN_1536 C) &&
  negb (TX_PREAMBLE_LEN_64 C =? TX_PREAMBLE_LEN_2048 C) &&
  negb (TX_PREAMBLE_LEN_64 C =? TX_PREAMBLE_LEN_4096 C).

(** *** Describing a power reading *)

(** The bytes [getReceivePower] reads in [s]: the two of the CIR-power
    field, then the four of the frame-information register. *)
Definition cir_read (s : DW1000) : list Z :=
  read_answer (log s) (cs s) (RX_FQUAL C) (CIR_PWR_SUB C) 2.

Definition finfo_read (s : DW1000) : list Z :=
  read_answer (log s ++ read_frame (cs s) (RX_FQUAL C) (CIR_PWR_SUB C) 2)
    (cs s) (RX_FINFO C) (NO_SUB C) 4.

(** [cir] and [N] of [getReceivePower]. *)
Definition cir_value (s : DW1000) : Z :=
  Z.lor (nth 0 (cir_read s) 0) (Z.shiftl (nth 1 (cir_read s) 0) 8).

Definition accumulator_count (s : DW1000) : Z :=
  Z.lor (Z.land (Z.shiftr (nth 2 (finfo_read s) 0) 4) (MASK_LS_BYTE C))
        (Z.shiftl (nth 3 (finfo_read s) 0) 4).

(** The state [getReceivePower] leaves: two read frames in the log. *)
Definition power_read (s : DW1000) : DW1000 :=
  add_log s (read_frame (cs s) (RX_FQUAL C) (CIR_PWR_SUB C) 2
             ++ read_frame (cs s) (RX_FINFO C) (NO_SUB C) 4).

(** The correction factor of the mode. *)
Definition corrFac_of (s : DW1000) : float :=
  if is_code (pulseFrequency (operationMode s)) (TX_PULSE_FREQ_16MHZ C)
  then CORRFAC_16MHZ C else CORRFAC_64MHZ C.

(** The constants [getReceivePower] relies on: the two registers can be
    addressed, and the two constants named after their values have
    them. *)
Definition ranging_ok : bool :=
  addressable (RX_FQUAL C) (CIR_PWR_SUB C) &&
  addressable (RX_FINFO C) (NO_SUB C) &&
  (TWOPOWER17 C =? 131072) && (MASK_LS_BYTE C =? 255).

(** For the two frame-information bytes packed in [z]: the count [N]
    they give is zero, or the logarithm argument for a zero CIR power
    is computed and is not positive. *)
Definition zero_power_check (z : Z) : bool :=
  let r2 := z mod 256 in
  let r3 := z / 256 in
  let N := Z.lor (Z.land (Z.shiftr r2 4) 255) (Z.shiftl r3 4) in
  (N =? 0) ||
  match py_truediv (py_float 0 * py_float 131072) (py_float N * py_float N) with
  | Success q => negb (0 <? q)%float
  | Failure _ => false
  end.

(** *** Describing the bias correction *)

(** [rxPowerBase] of [correctTimestamp], from the receive power. *)
Definition rxPowerBase_of (power : float) : float :=
  (PrimFloat.opp (power + 61) * 0.5)%float.

(** The bias table [correctTimestamp] consults in the mode of [self],
    with its negative-below marker; none when the pulse frequency is
    neither of the two. *)
Definition bias_table (self : DW1000) : option (list Z * Z) :=
  let channel := channel (operationMode self) in
  let pulseFrequency := pulseFrequency (operationMode self) in
  if is_code channel (CHANNEL_4 C) || is_code channel (CHANNEL_7 C) then
    if is_code pulseFrequency (TX_PULSE_FREQ_16MHZ C) then
      Some (BIAS_900_16 C, BIAS_900_16_ZERO C)
    else if is_code pulseFrequency (TX_PULSE_FREQ_64MHZ C) then
      Some (BIAS_900_64 C, BIAS_900_64_ZERO C)
    else None
  else
    if is_code pulseFrequency (TX_PULSE_FREQ_16MHZ C) then
      Some (BIAS_500_16 C, BIAS_500_16_ZERO C)
    else if is_code pulseFrequency (TX_PULSE_FREQ_64MHZ C) then
      Some (BIAS_500_64 C, BIAS_500_64_ZERO C)
    else None.

(** The table entry at [i] with its sign restored, shifted left by
    one. *)
Definition restored_bias (table : list Z) (zero i : Z) : Z :=
  Z.shiftl (if i <? zero then - nth (Z.to_nat i) table 0
            else nth (Z.to_nat i) table 0) 1.

(** For two table entries and two signs packed in [z]: interpolating
    with fractional part zero, of either sign, gives the low bias. *)
Definition interpolation_check (z : Z) : bool :=
  let eL := z mod 256 in
  let eH := (z / 256) mod 256 in
  let sL := (z / 65536) mod 2 =? 1 in
  let sH := z / 131072 =? 1 in
  let L := Z.shiftl (if sL then - eL else eL) 1 in
  let H := Z.shiftl (if sH then - eH else eH) 1 in
  (py_float L + 0 * py_float (H - L) =? py_float L)%float &&
  (py_float L + (-0) * py_float (H - L) =? py_float L)%float.

(** *** Describing the sequence number *)

Definition seqNum_ok (s : DW1000) : Prop := 0 <= seqNum s < 256.

(** A method that leaves the sequence number alone and only adds to
    the log, whether it returns or raises. *)
Definition keeps {A} (m : M A) : Prop :=
  forall s,
    seqNum (final (m s)) = seqNum s /\
    exists evs, log (final (m s)) = log s ++ evs.

(** The constants the transmit path relies on, besides those of the
    device controller. *)
Definition transmit_ok : bool :=
  addressable (TX_BUFFER C) (NO_SUB C) &&
  addressable (TX_FCTRL C) (NO_SUB C) &&
  forallb (in_range 40) [TXFRB_BIT C; TXPRS_BIT C; TXPHS_BIT C; TXFRS_BIT C] &&
  in_range 32 (TXSTRT_BIT C).

(** The frame [sendMessage] is about to stage when it starts in [s]:
    the encoded header, then the payload. *)
Definition message_of (s : DW1000) (dstAddr dstPAN : Z) (payload : list Z)
    (ackReq : bool) : list Z :=
  encode MAC (message_header s dstAddr dstPAN ackReq) ++ payload.

(** The attributes of the object that hold a register. *)
Definition register_attribute (a : attribute) : Prop :=
  forall s r, seqNum (store a s r) = seqNum s /\ log (store a s r) = log s.

(** A method that, when it returns, has replaced the sequence number
    by its successor modulo 256, and that leaves it alone when it
    raises. *)
Definition bumps (m : M unit) : Prop :=
  forall s,
    match m s with
    | Ok _ s' => seqNum s' = (seqNum s + 1) mod 256
    | Raise _ s' => seqNum s' = seqNum s
    end.

(** A method that returns, and keeps the register attributes as the
    constructor shaped them, whenever it starts with them so. *)
Definition safe {A} (m : M A) : Prop :=
  forall s, wf_self s -> exists a s', m s = Ok a s' /\ wf_self s'.

(** The status bits [clearTransmitStatus] clears. *)
Definition transmit_bits : list Z :=
  [TXFRB_BIT C; TXPRS_BIT C; TXPHS_BIT C; TXFRS_BIT C].

(** The state [newTransmit] leaves. *)
Definition transmit_ready (s : DW1000) : DW1000 :=
  status_cleared
    (set_sysctrl (idled s) (Register.clear (sysctrl (idled s))))
    transmit_bits.

(** A method that only adds to the log. *)
Definition extends {A} (m : M A) : Prop :=
  forall s, exists evs, log (final (m s)) = log s ++ evs.

(** *** Further methods *)

Variable C' : MoreConstants.

(** [setTimeStamp(data, timeStamp, index)] stores into the caller's
    array; the array as the call leaves it is the result, with the
    exception if the call raised one. *)
Fixpoint setTimeStamp_loop (data : list Z) (timeStamp index i : Z) (k : nat)
    : list Z * option exn :=
  match k with
  | O => (data, None)
  | S k' =>
      match py_setitem data (i + index)
              (Z.land (Z.shiftr timeStamp (i * 8)) (MASK_LS_BYTE C)) with
      | Success data' => setTimeStamp_loop data' timeStamp index (i + 1) k'
      | Failure e => (data, Some e)
      end
  end.

Definition setTimeStamp (data : list Z) (timeStamp index : Z) : list Z * option exn :=
  setTimeStamp_loop data timeStamp index 0 5.

Fixpoint getTimeStamp_loop (data : list Z) (index i : Z) (k : nat) (timestamp : Z)
    : res Z :=
  match k with
  | O => Success timestamp
  | S k' =>
      (b <-- py_getitem data (i + index);
       getTimeStamp_loop data index (i + 1) k'
         (Z.lor timestamp (Z.shiftl b (i * 8))))%res
  end.

Definition getTimeStamp (data : list Z) (index : Z) : res Z :=
  getTimeStamp_loop data index 0 5 0.

Definition getTransmitTimestamp : M Z :=
  let txTimeRegister := Register.new (TX_TIME C') (TX_STAMP_SUB C') 5 in
  txTimeRegister <- readRegister txTimeRegister ;;
  lift (gather txTimeRegister 0 5 0).

(** [getFirstPathPower()]; the quotient under the logarithm is a
    quotient of integers. *)
Definition getFirstPathPower : M float :=
  let fpAmpl1Bytes := Register.new (RX_TIME C') (FP_AMPL1_SUB C') 2 in
  let fpAmpl2Bytes := Register.new (RX_FQUAL C) (FP_AMPL2_SUB C') 2 in
  let fpAmpl3Bytes := Register.new (RX_FQUAL C) (PP_AMPL3_SUB C') 2 in
  let rxFrameInfo := Register.new (RX_FINFO C) (NO_SUB C) 4 in
  fpAmpl1Bytes <- readRegister fpAmpl1Bytes ;;
  fpAmpl2Bytes <- readRegister fpAmpl2Bytes ;;
  fpAmpl3Bytes <- readRegister fpAmpl3Bytes ;;
  rxFrameInfo <- readRegister rxFrameInfo ;;
  a0 <- lift (Register.get fpAmpl1Bytes 0) ;;
  a1 <- lift (Register.get fpAmpl1Bytes 1) ;;
  let f1 := Z.lor a0 (Z.shiftl a1 8) in
  b0 <- lift (Register.get fpAmpl2Bytes 0) ;;
  b1 <- lift (Register.get fpAmpl2Bytes 1) ;;
  let f2 := Z.lor b0 (Z.shiftl b1 8) in
  c0 <- lift (Register.get fpAmpl3Bytes 0) ;;
  c1 <- lift (Register.get fpAmpl3Bytes 1) ;;
  let f3 := Z.lor c0 (Z.shiftl c1 8) in
  r2 <- lift (Register.get rxFrameInfo 2) ;;
  r3 <- lift (Register.get rxFrameInfo 3) ;;
  let N := Z.lor (Z.land (Z.shiftr r2 4) (MASK_LS_BYTE C)) (Z.shiftl r3 4) in
  self <- get_self ;;
  let '(A, corrFac) :=
    if is_code (pulseFrequency (operationMode self)) (TX_PULSE_FREQ_16MHZ C)
    then (A_16MHZ C, CORRFAC_16MHZ C)
    else (A_64MHZ C, CORRFAC_64MHZ C) in
  q <- lift (int_truediv (f1 * f1 + f2 * f2 + f3 * f3) (N * N)) ;;
  l <- lift (math_log10 q) ;;
  let estFPPower := (PWR_COEFF2 C * l - A)%float in
  if (estFPPower <=? - PWR_COEFF C)%float then ret estFPPower
  else ret (estFPPower + (estFPPower + PWR_COEFF C) * corrFac)%float.

Definition getReceiveQuality : M float :=
  let noiseBytes := Register.new (RX_FQUAL C) (STD_NOISE_SUB C') 2 in
  let fpAmpl2Bytes := Register.new (RX_FQUAL C) (FP_AMPL2_SUB C') 2 in
  noiseBytes <- readRegister noiseBytes ;;
  fpAmpl2Bytes <- readRegister fpAmpl2Bytes ;;
  n0 <- lift (Register.get noiseBytes 0) ;;
  n1 <- lift (Register.get noiseBytes 1) ;;
  let noise := py_float (Z.lor n0 (Z.shiftl n1 8)) in
  b0 <- lift (Register.get fpAmpl2Bytes 0) ;;
  b1 <- lift (Register.get fpAmpl2Bytes 1) ;;
  let f2 := py_float (Z.lor b0 (Z.shiftl b1 8)) in
  lift (py_truediv f2 noise).

Definition self_rxfinfo : attribute := Build_attribute rxfinfo set_rxfinfo.
Definition self_pmscctrl0 : attribute := Build_attribute pmscctrl0 set_pmscctrl0.
Definition self_panadr : attribute := Build_attribute panadr set_panadr.
Definition self_eui : attribute := Build_attribute eui set_eui.

Definition getReceiveFrameLength : M Z :=
  readRegister_self self_rxfinfo ;;
  rxfinfo <- the rxfinfo ;;
  r1 <- lift (Register.get rxfinfo 1) ;;
  r0 <- lift (Register.get rxfinfo 0) ;;
  ret (Z.lor (Z.shiftl (Z.land r1 0x3) 8) r0).

Definition getData (dataLength : Z) : M (list Z) :=
  data <- lift (bytearray_new dataLength) ;;
  readBytes (RX_BUFFER C') (NO_SUB C) data (Z.to_nat dataLength).

Definition getMessage : M (list Z) :=
  messageLen <- getReceiveFrameLength ;;
  data <- getData messageLen ;;
  lift (bytearray_of data).

Definition getDataStr : M string :=
  let rxFrameInfoReg := Register.new (RX_FINFO C) (NO_SUB C) 4 in
  rxFrameInfoReg <- readRegister rxFrameInfoReg ;;
  r1 <- lift (Register.get rxFrameInfoReg 1) ;;
  r0 <- lift (Register.get rxFrameInfoReg 0) ;;
  let len := Z.land (Z.lor (Z.shiftl r1 8) r0) (GET_DATA_MASK C') in
  let len := len - 2 in
  dataBytes <- getData len ;;
  ret (string_of_list_ascii (map chr dataBytes)).

(** [for i in range(0, len(data)): testData[i] = ord(data[i])]; the
    string is the list of its code points. *)
Fixpoint setDataStr_loop (testData data : list Z) (i : Z) (k : nat) : res (list Z) :=
  match k with
  | O => Success testData
  | S k' =>
      (c <-- getitem data i;
       testData <-- bytearray_setitem testData i c;
       setDataStr_loop testData data (i + 1) k')%res
  end.

Definition setDataStr (data : list Z) : M unit :=
  let dataLength := Z.of_nat (Datatypes.length data) + 1 in
  testData <- lift (bytearray_new dataLength) ;;
  testData <- lift (setDataStr_loop testData data 0 (Datatypes.length data)) ;;
  setData testData (Z.to_nat dataLength) ;;
  ret tt.

Definition enableClock (clock : Z) : M unit :=
  readRegister_self self_pmscctrl0 ;;
  (if clock =? AUTO_CLOCK C' then
     call self_pmscctrl0 (fun r => Register.set r 0 (AUTO_CLOCK C')) ;;
     call self_pmscctrl0 (fun r =>
       (v <-- Register.get r 1;
        Register.set r 1 (Z.land v (ENABLE_CLOCK_MASK1 C')))%res)
   else if clock =? XTI_CLOCK C' then
     call self_pmscctrl0 (fun r =>
       (v <-- Register.get r 0;
        Register.set r 0 (Z.land v (ENABLE_CLOCK_MASK2 C')))%res) ;;
     call self_pmscctrl0 (fun r =>
       (v <-- Register.get r 0; Register.set r 0 (Z.lor v 1))%res)
   else ret tt) ;;
  writeRegister_self self_pmscctrl0.

Definition setDeviceAddress (value : Z) : M unit :=
  call self_panadr (fun r =>
    Register.set r 0 (Z.land value (MASK_LS_BYTE C))) ;;
  call self_panadr (fun r =>
    Register.set r 1 (Z.land (Z.shiftr value 8) (MASK_LS_BYTE C))).

Definition setNetworkId (value : Z) : M unit :=
  call self_panadr (fun r =>
    Register.set r 2 (Z.land value (MASK_LS_BYTE C))) ;;
  call self_panadr (fun r =>
    Register.set r 3 (Z.land (Z.shiftr value 8) (MASK_LS_BYTE C))).

(** [for i in range(0, 8): self.eui[i] = currentAddress[8 - i - 1]] *)
Fixpoint setEUI_loop (currentAddress : list Z) (i : Z) (k : nat) : M unit :=
  match k with
  | O => ret tt
  | S k' =>
      v <- lift (getitem currentAddress (8 - i - 1)) ;;
      call self_eui (fun r => Register.set r i v) ;;
      setEUI_loop currentAddress (i + 1) k'
  end.

Definition setEUI (currentAddress : list Z) : M unit :=
  setEUI_loop currentAddress 0 8 ;;
  writeRegister_self self_eui.

Definition self_syscfg : attribute := Build_attribute syscfg set_syscfg.

Definition enableDoubleBuffer : M unit :=
  modify (fun s => set_dblbuffon s true) ;;
  syncHSRBP ;;
  call self_syscfg (fun r => setBit r (HSRBP_BIT C) true) ;;
  writeRegister_self self_syscfg.

Definition disableDoubleBuffer : M unit :=
  modify (fun s => set_dblbuffon s false) ;;
  syncHSRBP ;;
  call self_syscfg (fun r => setBit r (HSRBP_BIT C) false) ;;
  writeRegister_self self_syscfg.

(** The five bytes [getTransmitTimestamp] reads in [s]. *)
Definition tx_time_read (s : DW1000) : list Z :=
  read_answer (log s) (cs s) (TX_TIME C') (TX_STAMP_SUB C') 5.

(** The five bytes [setDelay] reads from the system time counter in [s]. *)
Definition sys_time_read (s : DW1000) : list Z :=
  read_answer (log s) (cs s) (SYS_TIME C) (NO_SUB C) 5.

(** The time [setDelay] programs: [ticks] after [now] on the 40-bit
    counter, with the nine low bits cleared. *)
Definition delayed_time (now ticks : Z) : Z :=
  (now + ticks) mod 2 ^ 40 - ((now + ticks) mod 2 ^ 40) mod 512.

(** The bit of the control attribute a mode string selects. *)
Definition delay_bit (mode : string) : option Z :=
  if String.eqb (lower mode) "tx"%string then Some (TXDLYS_BIT C)
  else if String.eqb (lower mode) "rx"%string then Some (RXDLYE_BIT C)
  else None.

Definition even_mask_check (x : Z) : bool := Z.land x 254 =? x - x mod 2.

(** The constants [setDelay] relies on: the two masks have the values
    their use supposes, the two registers can be addressed and the two
    delay bits lie in the control register. *)
Definition delay_ok : bool :=
  (MASK_LS_BYTE C =? 255) && (SET_DELAY_MASK C =? 254) &&
  addressable (SYS_TIME C) (NO_SUB C) &&
  addressable (DX_TIME C) (NO_SUB C) &&
  in_range 32 (TXDLYS_BIT C) && in_range 32 (RXDLYE_BIT C).

(** *** Describing the diagnostic readings *)

(** A sixteen-bit field from its two bytes, [b[0] | b[1] << 8]. *)
Definition field16 (l : list Z) : Z :=
  Z.lor (nth 0 l 0) (Z.shiftl (nth 1 l 0) 8).

(** The frames of the four reads of [getFirstPathPower], and what each
    read returns in [s]. *)
Definition ampl1_frame (s : DW1000) : list event :=
  read_frame (cs s) (RX_TIME C') (FP_AMPL1_SUB C') 2.
Definition ampl2_frame (s : DW1000) : list event :=
  read_frame (cs s) (RX_FQUAL C) (FP_AMPL2_SUB C') 2.
Definition ampl3_frame (s : DW1000) : list event :=
  read_frame (cs s) (RX_FQUAL C) (PP_AMPL3_SUB C') 2.
Definition finfo_frame (s : DW1000) : list event :=
  read_frame (cs s) (RX_FINFO C) (NO_SUB C) 4.

Definition ampl1_read (s : DW1000) : list Z :=
  read_answer (log s) (cs s) (RX_TIME C') (FP_AMPL1_SUB C') 2.
Definition ampl2_read (s : DW1000) : list Z :=
  read_answer (log s ++ ampl1_frame s) (cs s) (RX_FQUAL C) (FP_AMPL2_SUB C') 2.
Definition ampl3_read (s : DW1000) : list Z :=
  read_answer (log s ++ ampl1_frame s ++ ampl2_frame s)
    (cs s) (RX_FQUAL C) (PP_AMPL3_SUB C') 2.
Definition first_path_finfo_read (s : DW1000) : list Z :=
  read_answer (log s ++ ampl1_frame s ++ ampl2_frame s ++ ampl3_frame s)
    (cs s) (RX_FINFO C) (NO_SUB C) 4.

(** [N] of [getFirstPathPower]. *)
Definition first_path_count (s : DW1000) : Z :=
  Z.lor (Z.land (Z.shiftr (nth 2 (first_path_finfo_read s) 0) 4) (MASK_LS_BYTE C))
        (Z.shiftl (nth 3 (first_path_finfo_read s) 0) 4).

(** The state [getFirstPathPower] leaves: four read frames in the log. *)
Definition first_path_read (s : DW1000) : DW1000 :=
  add_log s (ampl1_frame s ++ ampl2_frame s ++ ampl3_frame s ++ finfo_frame s).

Definition first_path_ok : bool :=
  addressable (RX_TIME C') (FP_AMPL1_SUB C') &&
  addressable (RX_FQUAL C) (FP_AMPL2_SUB C') &&
  addressable (RX_FQUAL C) (PP_AMPL3_SUB C') &&
  addressable (RX_FINFO C) (NO_SUB C) &&
  (MASK_LS_BYTE C =? 255).

(** For the two frame-information bytes packed in [z]: the count they
    give is zero, or zero divided by its square is a float that is
    neither positive nor a NaN. *)
Definition first_path_zero_check (z : Z) : bool :=
  let r2 := z mod 256 in
  let r3 := z / 256 in
  let N := Z.lor (Z.land (Z.shiftr r2 4) 255) (Z.shiftl r3 4) in
  (N =? 0) ||
  (let q := (py_float 0 / py_float (N * N))%float in
   negb (0 <? q)%float && negb (PrimFloat.is_nan q)).

(** The two reads of [getReceiveQuality] in [s]. *)
Definition noise_frame (s : DW1000) : list event :=
  read_frame (cs s) (RX_FQUAL C) (STD_NOISE_SUB C') 2.
Definition noise_read (s : DW1000) : list Z :=
  read_answer (log s) (cs s) (RX_FQUAL C) (STD_NOISE_SUB C') 2.
Definition quality_ampl_read (s : DW1000) : list Z :=
  read_answer (log s ++ noise_frame s) (cs s) (RX_FQUAL C) (FP_AMPL2_SUB C') 2.
Definition quality_read (s : DW1000) : DW1000 :=
  add_log s (noise_frame s ++ ampl2_frame s).

Definition nonzero_float_check (n : Z) : bool := negb (py_float n =? 0)%float.

(** *** Describing a received frame *)

(** The four bytes of the frame-information register as a read in [s]
    returns them. *)
Definition frame_info_read (s : DW1000) : list Z :=
  read_answer (log s) (cs s) (RX_FINFO C) (NO_SUB C) 4.

(** The frame length [getReceiveFrameLength] makes of them. *)
Definition frame_length (s : DW1000) : Z :=
  Z.lor (Z.shiftl (Z.land (nth 1 (frame_info_read s) 0) 0x3) 8)
        (nth 0 (frame_info_read s) 0).

(** The length [getDataStr] asks [getData] for. *)
Definition text_length (s : DW1000) : Z :=
  Z.land (Z.lor (Z.shiftl (nth 1 (frame_info_read s) 0) 8)
                (nth 0 (frame_info_read s) 0))
         (GET_DATA_MASK C') - 2.

(** What a read of [n] bytes of the receive buffer returns after the
    frame information has been read in [s]. *)
Definition buffer_read (s : DW1000) (n : nat) : list Z :=
  read_answer (log s ++ read_frame (cs s) (RX_FINFO C) (NO_SUB C) 4)
    (cs s) (RX_BUFFER C') (NO_SUB C) n.

Definition length_check (z : Z) : bool :=
  let r0 := z mod 256 in
  let r1 := z / 256 in
  let n := Z.lor (Z.shiftl (Z.land r1 3) 8) r0 in
  (0 <=? n) && (n <? 1024).

(** *** Describing configuration writes *)

(** The four bytes of the power-management control register as a read
    in [s] returns them. *)
Definition pmsc_read (s : DW1000) : list Z :=
  read_answer (log s) (cs s) (PMSC C) (PMSC_CTRL0_SUB C) 4.

(** What [enableClock] writes back for the bytes [d] it read. *)
Definition clock_bytes (clock : Z) (d : list Z) : list Z :=
  if clock =? AUTO_CLOCK C' then
    [AUTO_CLOCK C'; Z.land (nth 1 d 0) (ENABLE_CLOCK_MASK1 C'); nth 2 d 0; nth 3 d 0]
  else if clock =? XTI_CLOCK C' then
    [Z.lor (Z.land (nth 0 d 0) (ENABLE_CLOCK_MASK2 C')) 1; nth 1 d 0; nth 2 d 0; nth 3 d 0]
  else d.

(** *** Describing a tuning run without a mode *)

(** The seventeen table registers as [tune] commits them on an object
    whose mode slots are unset: zeros wherever the value is looked up by
    the mode. *)
Definition unset_mode_table : list DW1000Register :=
  [Register.new (AGC_CTRL C) (AGC_TUNE1_SUB C) 2;
   with_data (Register.new (AGC_CTRL C) (AGC_TUNE2_SUB C) 4)
     (le_bytes 4 (AGC_TUNE3_OP C));
   Register.new (AGC_CTRL C) (AGC_TUNE3_SUB C) 2;
   Register.new (DRX_CONF C) (DRX_TUNE0b_SUB C) 2;
   Register.new (DRX_CONF C) (DRX_TUNE1a_SUB C) 2;
   Register.new (DRX_CONF C) (DRX_TUNE1b_SUB C) 2;
   Register.new (DRX_CONF C) (DRX_TUNE2_SUB C) 4;
   with_data (Register.new (DRX_CONF C) (DRX_TUNE4H_SUB C) 2)
     (le_bytes 2 (DRX_TUNE4H_128 C));
   with_data (Register.new (LDE_CTRL C) (LDE_CFG1_SUB C) 1)
     (le_bytes 1 (LDE_CFG1_OP C));
   Register.new (LDE_CTRL C) (LDE_CFG2_SUB C) 2;
   Register.new (LDE_CTRL C) (LDE_REPC_SUB C) 2;
   Register.new (TX_POWER C) (NO_SUB C) 4;
   with_data (Register.new (RF_CONF C) (RF_RXCTRLH_SUB C) 1)
     (le_bytes 1 (RF_RXCTRLH_1235 C));
   Register.new (RF_CONF C) (RF_TXCTRL_SUB C) 4;
   Register.new (TX_CAL C) (TC_PGDELAY_SUB C) 1;
   Register.new (FS_CTRL C) (FS_PLLTUNE_SUB C) 1;
   Register.new (FS_CTRL C) (FS_PLLCFG_SUB C) 4].

(** *** Every method as an operation *)

(** The methods embedded in the monad, each with its arguments: all
    the methods that can change the object or use the bus.  The other
    embedded methods ([wrapTimestamp], [setTimeStamp], [getTimeStamp]
    and the tuners of single registers) are functions that return no
    object, so they cannot change one. *)
Inductive operation : Type :=
| op_readBytes (cmd offset : Z) (data : list Z) (n : nat)
| op_writeBytes (cmd offset : Z) (data : list Z) (dataSize : nat)
| op_readRegister (reg : DW1000Register)
| op_writeRegister (reg : DW1000Register)
| op_disableInterrupt
| op_toggleHSRBP
| op_syncHSRBP
| op_forceTRxOff
| op_idle
| op_enableDoubleBuffer
| op_disableDoubleBuffer
| op_enableClock (clock : Z)
| op_readBytesOTP (address : Z) (data : list Z)
| op_tune
| op_setEUI (currentAddress : list Z)
| op_setDeviceAddress (value : Z)
| op_setNetworkId (value : Z)
| op_getFirstPathPower
| op_getReceivePower
| op_getReceiveQuality
| op_getReceiveFrameLength
| op_correctTimestamp (timestamp : Z)
| op_getMessage
| op_getTransmitTimestamp
| op_clearStatus (bits : list Z)
| op_clearTransmitStatus
| op_newTransmit
| op_startTransmit (wait4resp : bool)
| op_getDataStr
| op_getData (dataLength : Z)
| op_setDataStr (data : list Z)
| op_setData (data : list Z) (dataLength : nat)
| op_setDelay (delay unit : float) (mode : string)
| op_sendMessage (dstAddr dstPAN : Z) (payload : list Z)
    (ackReq wait4resp : bool) (delay : option float).

Definition discard {A} (m : M A) : M unit := bind m (fun _ => ret tt).

Definition run (o : operation) : M unit :=
  match o with
  | op_readBytes cmd offset d n => discard (readBytes cmd offset d n)
  | op_writeBytes cmd offset d n => writeBytes cmd offset d n
  | op_readRegister r => discard (readRegister r)
  | op_writeRegister r => writeRegister r
  | op_disableInterrupt => disableInterrupt
  | op_toggleHSRBP => toggleHSRBP
  | op_syncHSRBP => syncHSRBP
  | op_forceTRxOff => forceTRxOff
  | op_idle => idle
  | op_enableDoubleBuffer => enableDoubleBuffer
  | op_disableDoubleBuffer => disableDoubleBuffer
  | op_enableClock clock => enableClock clock
  | op_readBytesOTP address d => discard (readBytesOTP address d)
  | op_tune => tune
  | op_setEUI a => setEUI a
  | op_setDeviceAddress v => setDeviceAddress v
  | op_setNetworkId v => setNetworkId v
  | op_getFirstPathPower => discard getFirstPathPower
  | op_getReceivePower => discard getReceivePower
  | op_getReceiveQuality => discard getReceiveQuality
  | op_getReceiveFrameLength => discard getReceiveFrameLength
  | op_correctTimestamp t => discard (correctTimestamp t)
  | op_getMessage => discard getMessage
  | op_getTransmitTimestamp => discard getTransmitTimestamp
  | op_clearStatus bits => clearStatus bits
  | op_clearTransmitStatus => clearTransmitStatus
  | op_newTransmit => newTransmit
  | op_startTransmit w => startTransmit w
  | op_getDataStr => discard getDataStr
  | op_getData n => discard (getData n)
  | op_setDataStr d => setDataStr d
  | op_setData d n => discard (setData d n)
  | op_setDelay d u m => discard (setDelay d u m)
  | op_sendMessage a p payload ack w d => sendMessage a p payload ack w d
  end.

(** The object after an operation, completed or not. *)
Definition perform (o : operation) (s : DW1000) : DW1000 := final (run o s).

(** *** The monad *)

Lemma bind_Ok {A B} (m : M A) (k : A -> M B) s a s' :
  m s = Ok a s' -> bind m k s = k a s'.
Proof. intros H. unfold bind. now rewrite H. Qed.

Lemma bind_Raise {A B} (m : M A) (k : A -> M B) s e s' :
  m s = Raise e s' -> bind m k s = Raise e s'.
Proof. intros H. unfold bind. now rewrite H. Qed.

Lemma lift_Success {A} (r : res A) a s : r = Success a -> lift r s = Ok a s.
Proof. intros ->. reflexivity. Qed.

Lemma add_log_add_log s a b : add_log (add_log s a) b = add_log s (a ++ b).
Proof. unfold add_log, set_log. cbn. now rewrite app_assoc. Qed.

Lemma add_log_nil s : log (add_log s []) = log s.
Proof. unfold add_log. cbn. apply app_nil_r. Qed.

(** Computing without unfolding the operations on integers. *)
Ltac calc :=
  cbn -[Z.shiftr Z.shiftl Z.land Z.lor Z.lxor Z.testbit Z.ltb Z.leb Z.eqb
        Z.add Z.mul Z.div Z.modulo Z.of_nat Z.to_nat].

Ltac fold_add_log :=
  repeat match goal with
         | |- context [set_log ?a (log ?a ++ ?y)] =>
             change (set_log a (log a ++ y)) with (add_log a y)
         end.

(** *** Checked indexing *)

Lemma getitem_nth {A} (l : list A) (i : nat) (d : A) :
  (i < Datatypes.length l)%nat -> getitem l (Z.of_nat i) = Success (nth i l d).
Proof.
  intros H. unfold getitem.
  destruct (Z.ltb_spec (Z.of_nat i) 0); [lia|].
  rewrite Nat2Z.id.
  destruct (nth_error l i) eqn:E.
  - now rewrite (nth_error_nth _ _ d E).
  - apply nth_error_None in E. lia.
Qed.

Lemma getitem_Z {A} (l : list A) (i : Z) (d : A) :
  0 <= i < Z.of_nat (Datatypes.length l) ->
  getitem l i = Success (nth (Z.to_nat i) l d).
Proof.
  intros H. rewrite <- (Z2Nat.id i) at 1 by lia.
  apply getitem_nth. lia.
Qed.

Lemma setitem_Z {A} (l : list A) (i : Z) (v : A) :
  0 <= i < Z.of_nat (Datatypes.length l) ->
  setitem l i v = Success (replace_nth l (Z.to_nat i) v).
Proof.
  intros H. unfold setitem.
  destruct (Z.leb_spec 0 i); [|lia].
  destruct (Z.ltb_spec i (Z.of_nat (Datatypes.length l))); [|lia].
  reflexivity.
Qed.

Lemma replace_nth_length {A} (l : list A) n v :
  Datatypes.length (replace_nth l n v) = Datatypes.length l.
Proof.
  revert n. induction l as [|h t IH]; intros [|n]; cbn; auto.
Qed.

Lemma replace_nth_split {A} (l : list A) n v :
  (n < Datatypes.length l)%nat ->
  replace_nth l n v = firstn n l ++ v :: skipn (S n) l.
Proof.
  revert n. induction l as [|h t IH]; intros [|n] H; cbn in *; try lia; auto.
  rewrite IH by lia. reflexivity.
Qed.

(** *** Transactions *)

Lemma xfer_header_log (l : list Z) : forall (k i : nat) s,
  (i + k <= Datatypes.length l)%nat ->
  xfer_header l (Z.of_nat i) k s
  = Ok tt (add_log s (map SPI_xfer (firstn k (skipn i l)))).
Proof.
  induction k as [|k IH]; intros i s H.
  - cbn. unfold ret, add_log, set_log. rewrite app_nil_r. now destruct s.
  - cbn [xfer_header].
    rewrite (bind_Ok _ _ _ _ _ (lift_Success _ _ _ (getitem_nth l i 0 ltac:(lia)))).
    unfold bind at 1. unfold spi_xfer at 1.
    replace (Z.of_nat i + 1) with (Z.of_nat (S i)) by lia.
    rewrite IH by lia.
    fold (add_log s [SPI_xfer (nth i l 0)]).
    rewrite add_log_add_log.
    do 2 f_equal.
    assert (E : skipn i l = nth i l 0 :: skipn (S i) l).
    { clear -H. revert i H. induction l as [|h t IHl]; intros [|i] H; cbn in *; try lia; auto.
      apply IHl. lia. }
    rewrite E. reflexivity.
Qed.

Lemma write_loop_log (l : list Z) (k : nat) s :
  (k <= Datatypes.length l)%nat ->
  write_loop l 0 k s = Ok tt (add_log s (map SPI_xfer (firstn k l))).
Proof.
  intros H. exact (xfer_header_log l k 0 s H).
Qed.

Lemma answers_length h k : Datatypes.length (answers h k) = k.
Proof.
  revert h. induction k as [|k IH]; intros h; cbn; auto.
Qed.

Lemma read_loop_log : forall (k i : nat) (d : list Z) s,
  (i + k <= Datatypes.length d)%nat ->
  read_loop d (Z.of_nat i) k s
  = Ok (firstn i d ++ answers (log s) k ++ skipn (i + k) d)
       (add_log s (repeat (SPI_xfer (JUNK C)) k)).
Proof.
  induction k as [|k IH]; intros i d s H.
  - cbn. unfold ret, add_log, set_log. rewrite app_nil_r, Nat.add_0_r.
    rewrite firstn_skipn. now destruct s.
  - cbn [read_loop].
    unfold bind at 1. unfold spi_xfer at 1.
    rewrite (bind_Ok _ _ _ _ _ (lift_Success _ _ _ (setitem_Z d (Z.of_nat i) _ ltac:(lia)))).
    rewrite Nat2Z.id.
    replace (Z.of_nat i + 1) with (Z.of_nat (S i)) by lia.
    rewrite IH by (rewrite replace_nth_length; lia).
    fold (add_log s [SPI_xfer (JUNK C)]).
    rewrite add_log_add_log.
    f_equal.
    cbn [answers log add_log set_log].
    rewrite replace_nth_split by lia.
    rewrite firstn_app, firstn_firstn, Nat.min_r by lia.
    rewrite firstn_length_le by lia.
    replace (S i - i)%nat with 1%nat by lia.
    cbn [firstn].
    rewrite <- app_assoc. cbn [app]. do 3 f_equal.
    rewrite skipn_app, firstn_length_le by lia.
    rewrite (skipn_all2 (firstn i d)) by (rewrite firstn_length_le; lia).
    replace (S i + k - i)%nat with (S k) by lia.
    cbn [app]. rewrite skipn_cons, skipn_skipn. f_equal. lia.
Qed.

Lemma buildHeader_shape flag flag_sub cmd offset h n :
  buildHeader flag flag_sub cmd offset = Success (h, n) ->
  Datatypes.length h = 3%nat /\ (n <= 3)%nat.
Proof.
  unfold buildHeader, bytearray_setitem, byte_value, setitem, res_bind.
  repeat match goal with
         | |- context [if ?b then _ else _] => destruct b
         end; cbn; intros E; inversion E; subst; cbn; split; lia.
Qed.

Lemma addressable_read cmd offset :
  addressable cmd offset = true ->
  exists h n, readHeader cmd offset = Success (h, n) /\
              rd_hdr cmd offset = firstn n h /\
              (n <= Datatypes.length h)%nat.
Proof.
  unfold addressable, rd_hdr, on_wire.
  destruct (readHeader cmd offset) as [[h n]|] eqn:E; [|discriminate].
  intros _. exists h, n. repeat split.
  apply buildHeader_shape in E. lia.
Qed.

Lemma addressable_write cmd offset :
  addressable cmd offset = true ->
  exists h n, writeHeader cmd offset = Success (h, n) /\
              wr_hdr cmd offset = firstn n h /\
              (n <= Datatypes.length h)%nat.
Proof.
  unfold addressable, wr_hdr, on_wire.
  destruct (readHeader cmd offset); [|discriminate].
  destruct (writeHeader cmd offset) as [[h n]|] eqn:E; [|discriminate].
  intros _. exists h, n. repeat split.
  apply buildHeader_shape in E. lia.
Qed.

Lemma frame_app pin a b :
  frame pin (a ++ b)
  = [GPIO_output pin false] ++ map SPI_xfer a ++ map SPI_xfer b
    ++ [GPIO_output pin true].
Proof. unfold frame. rewrite map_app, <- app_assoc. reflexivity. Qed.

Lemma readBytes_spec cmd offset d n s :
  addressable cmd offset = true ->
  (n <= Datatypes.length d)%nat ->
  readBytes cmd offset d n s
  = Ok (read_answer (log s) (cs s) cmd offset n ++ skipn n d)
       (add_log s (read_frame (cs s) cmd offset n)).
Proof.
  intros Ha Hn.
  destruct (addressable_read _ _ Ha) as (h & k & Eh & Ew & Hk).
  unfold readBytes.
  rewrite (bind_Ok _ _ _ _ _ (lift_Success _ _ _ Eh)).
  unfold bind at 1, get_self at 1.
  unfold bind at 1, GPIO_set at 1.
  fold (add_log s [GPIO_output (cs s) false]).
  cbn [fst snd].
  assert (Hk' : (0 + k <= Datatypes.length h)%nat) by lia.
  assert (Hn' : (0 + n <= Datatypes.length d)%nat) by lia.
  rewrite (bind_Ok _ _ _ _ _ (xfer_header_log h k 0 _ Hk')).
  rewrite add_log_add_log.
  rewrite (bind_Ok _ _ _ _ _ (read_loop_log n 0 d _ Hn')).
  rewrite add_log_add_log.
  unfold bind, GPIO_set, ret.
  f_equal.
  - cbn [firstn skipn app Nat.add].
    unfold read_answer, read_result. rewrite Ew. reflexivity.
  - unfold read_frame. rewrite frame_app, Ew, map_repeat.
    fold_add_log. rewrite add_log_add_log. cbn [skipn].
    rewrite <- !app_assoc. reflexivity.
Qed.

Lemma writeBytes_spec cmd offset d n s :
  addressable cmd offset = true ->
  (n <= Datatypes.length d)%nat ->
  writeBytes cmd offset d n s
  = Ok tt (add_log s (write_frame (cs s) cmd offset (firstn n d))).
Proof.
  intros Ha Hn.
  destruct (addressable_write _ _ Ha) as (h & k & Eh & Ew & Hk).
  unfold writeBytes.
  rewrite (bind_Ok _ _ _ _ _ (lift_Success _ _ _ Eh)).
  unfold bind at 1, get_self at 1.
  unfold bind at 1, GPIO_set at 1.
  fold (add_log s [GPIO_output (cs s) false]).
  cbn [fst snd].
  assert (Hk' : (0 + k <= Datatypes.length h)%nat) by lia.
  rewrite (bind_Ok _ _ _ _ _ (xfer_header_log h k 0 _ Hk')).
  rewrite add_log_add_log.
  rewrite (bind_Ok _ _ _ _ _ (write_loop_log d n _ Hn)).
  rewrite add_log_add_log.
  unfold GPIO_set.
  f_equal.
  unfold write_frame. rewrite frame_app, Ew.
  fold_add_log. rewrite add_log_add_log. cbn [skipn].
  rewrite <- !app_assoc. reflexivity.
Qed.

Lemma readRegister_spec r s :
  addressable (address r) (subaddress r) = true ->
  Register.wf r ->
  readRegister r s
  = Ok (with_data r (read_answer (log s) (cs s) (address r) (subaddress r) (size r)))
       (add_log s (read_frame (cs s) (address r) (subaddress r) (size r))).
Proof.
  intros Ha Hw. unfold readRegister.
  assert (Hn : (size r <= Datatypes.length (data r))%nat) by (rewrite Hw; lia).
  rewrite (bind_Ok _ _ _ _ _ (readBytes_spec _ _ _ _ s Ha Hn)).
  unfold ret. rewrite skipn_all2 by (rewrite Hw; lia).
  rewrite app_nil_r. reflexivity.
Qed.

Lemma writeRegister_spec r s :
  addressable (address r) (subaddress r) = true ->
  Register.wf r ->
  writeRegister r s
  = Ok tt (add_log s (write_frame (cs s) (address r) (subaddress r) (data r))).
Proof.
  intros Ha Hw. unfold writeRegister.
  assert (Hn : (size r <= Datatypes.length (data r))%nat) by (rewrite Hw; lia).
  rewrite (writeBytes_spec _ _ _ _ s Ha Hn).
  rewrite <- Hw, firstn_all. reflexivity.
Qed.

(** *** Checks on ranges *)

Lemma check_from_sound (P : Z -> bool) (start : Z) (n : positive) :
  check_from P start n = true ->
  forall z, start <= z < start + Z.pos n -> P z = true.
Proof.
  unfold check_from.
  assert (G : forall k,
            fst (Pos.iter (check_step P) (start, true) k) = start + Z.pos k /\
            (snd (Pos.iter (check_step P) (start, true) k) = true ->
             forall z, start <= z < start + Z.pos k -> P z = true)).
  { induction k as [|k [IH1 IH2]] using Pos.peano_ind.
    - cbn. split; [lia|].
      intros H z Hz. replace z with start by lia. exact H.
    - rewrite Pos.iter_succ. unfold check_step at 1. cbn [fst snd].
      rewrite IH1. split; [lia|].
      intros H z Hz. apply andb_prop in H. destruct H as [H1 H2].
      destruct (Z.eq_dec z (start + Z.pos k)) as [->|Hne].
      + rewrite IH1 in H2. exact H2.
      + apply IH2; [exact H1|lia]. }
  intros H. apply (proj2 (G n) H).
Qed.

(** *** The transaction header *)

Lemma head_check_all : check_from head_check 0 64 = true.
Proof. vm_compute. reflexivity. Qed.

Lemma offset_check_all : check_from offset_check 0 32768 = true.
Proof. vm_compute. reflexivity. Qed.

Lemma head_byte cmd flag :
  0 <= cmd < 64 -> In flag [0x00; 0x40; 0x80; 0xC0] ->
  byte_value (Z.lor flag cmd) = Success (Z.lor flag cmd) /\
  Z.land (Z.lor flag cmd) 0x3F = cmd /\
  Z.testbit (Z.lor flag cmd) 7 = Z.testbit flag 7 /\
  Z.testbit (Z.lor flag cmd) 6 = Z.testbit flag 6.
Proof.
  intros Hc Hf.
  pose proof (check_from_sound _ _ _ head_check_all cmd ltac:(lia)) as H.
  unfold head_check in H. rewrite forallb_forall in H.
  specialize (H flag Hf). cbv zeta in H.
  rewrite !andb_true_iff in H.
  destruct H as ((((H1 & H2) & H3) & H4) & H5).
  unfold byte_value. rewrite H1, H2. cbn [andb].
  repeat split.
  - now apply Z.eqb_eq.
  - now apply Bool.eqb_prop.
  - now apply Bool.eqb_prop.
Qed.

Lemma wire_format_values :
  wire_format_ok = true ->
  READ C = 0x00 /\ READ_SUB C = 0x40 /\ WRITE C = 0x80 /\
  WRITE_SUB C = 0xC0 /\ RW_SUB_EXT C = 0x80 /\ MASK_LS_BYTE C = 0xFF.
Proof.
  unfold wire_format_ok. intros H.
  repeat (apply andb_prop in H; destruct H as [H ?]).
  repeat split; now apply Z.eqb_eq.
Qed.

(** The header of either direction, for the flags [flag] (no
    sub-address) and [flag_sub] (with one). *)
Lemma buildHeader_cases flag flag_sub cmd offset :
  wire_format_ok = true ->
  0 <= cmd < 64 ->
  In flag [0x00; 0x40; 0x80; 0xC0] ->
  In flag_sub [0x00; 0x40; 0x80; 0xC0] ->
  (offset = NO_SUB C ->
   on_wire (buildHeader flag flag_sub cmd offset) = Success [Z.lor flag cmd]) /\
  (offset <> NO_SUB C -> 0 <= offset < 128 ->
   on_wire (buildHeader flag flag_sub cmd offset)
   = Success [Z.lor flag_sub cmd; offset]) /\
  (offset <> NO_SUB C -> 128 <= offset < 32768 ->
   on_wire (buildHeader flag flag_sub cmd offset)
   = Success [Z.lor flag_sub cmd;
              Z.lor (Z.land offset 0x7F) (RW_SUB_EXT C);
              Z.shiftr offset 7]).
Proof.
  intros Hw Hc Hf Hfs.
  destruct (wire_format_values Hw) as (_ & _ & _ & _ & Hext & Hmask).
  destruct (head_byte cmd flag Hc Hf) as (Hb & _).
  destruct (head_byte cmd flag_sub Hc Hfs) as (Hbs & _).
  unfold buildHeader, bytearray_setitem, on_wire.
  repeat split.
  - intros ->. rewrite Z.eqb_refl, Hb. reflexivity.
  - intros Hne Ho.
    destruct (Z.eqb_spec offset (NO_SUB C)); [contradiction|].
    rewrite Hbs. calc.
    destruct (Z.ltb_spec offset 128); [|lia].
    unfold byte_value.
    destruct (Z.leb_spec 0 offset); [|lia].
    destruct (Z.ltb_spec offset 256); [|lia].
    reflexivity.
  - intros Hne Ho.
    destruct (Z.eqb_spec offset (NO_SUB C)); [contradiction|].
    rewrite Hbs. calc.
    destruct (Z.ltb_spec offset 128); [lia|].
    pose proof (check_from_sound _ _ _ offset_check_all offset ltac:(lia)) as K.
    unfold offset_check in K.
    destruct (Z.ltb_spec offset 128); [lia|]. cbv zeta in K.
    rewrite !andb_true_iff in K.
    destruct K as ((((((H1 & H2) & H3) & H4) & H5) & H6) & H7).
    rewrite Hext, Hmask. unfold byte_value.
    rewrite H1, H2, H3, H4. calc.
    apply Z.eqb_eq in H5. rewrite H5. reflexivity.
Qed.

Lemma land_255_byte x : byte_value (Z.land x 255) = Success (Z.land x 255).
Proof.
  unfold byte_value.
  change 255 with (Z.ones 8). rewrite Z.land_ones by lia.
  pose proof (Z.mod_pos_bound x (2 ^ 8) ltac:(lia)) as H.
  destruct (Z.leb_spec 0 (x mod 2 ^ 8)); [|lia].
  destruct (Z.ltb_spec (x mod 2 ^ 8) 256); [|lia].
  reflexivity.
Qed.

Lemma buildHeader_rejects flag flag_sub cmd offset :
  wire_format_ok = true ->
  0 <= cmd < 64 ->
  In flag_sub [0x00; 0x40; 0x80; 0xC0] ->
  offset <> NO_SUB C ->
  offset < 0 \/ 32768 <= offset ->
  buildHeader flag flag_sub cmd offset = Failure ValueError.
Proof.
  intros Hw Hc Hfs Hne Ho.
  destruct (wire_format_values Hw) as (_ & _ & _ & _ & Hext & Hmask).
  destruct (head_byte cmd flag_sub Hc Hfs) as (Hbs & _).
  unfold buildHeader, bytearray_setitem.
  destruct (Z.eqb_spec offset (NO_SUB C)); [contradiction|].
  rewrite Hbs. calc.
  destruct (Z.ltb_spec offset 128) as [Hlt|Hge].
  - unfold byte_value at 1.
    destruct (Z.leb_spec 0 offset); [lia|]. reflexivity.
  - rewrite Hmask, land_255_byte. calc.
    unfold byte_value.
    assert (256 <= Z.shiftr offset 7).
    { rewrite Z.shiftr_div_pow2 by lia.
      apply Z.div_le_lower_bound; lia. }
    destruct (Z.ltb_spec (Z.shiftr offset 7) 256); [lia|].
    now rewrite andb_false_r.
Qed.

(** C3. For every register id the header that [readBytes] and
    [writeBytes] put on the wire is one byte, the flag or-ed with the
    id, when the offset is [NO_SUB]; two bytes, the second being the
    sub-address, when it is below 128; three bytes, the second being the
    low seven bits with the extension flag and the third the sub-address
    shifted right by seven, from 128 up to 2^15.  The receiving side
    reads the direction, the id and the sub-address back from a header
    with a sub-address.  The number [NO_SUB] itself is never sent as a
    sub-address: its header is the one-byte one, which the receiving
    side reads as a transaction without sub-address.  A sub-address
    that is negative or 2^15 or more has no header: building it raises
    [ValueError]. *)
Theorem header_encoding cmd offset :
  wire_format_ok = true ->
  0 <= cmd < 64 ->
  (offset = NO_SUB C ->
   on_wire (readHeader cmd offset) = Success [Z.lor (READ C) cmd] /\
   on_wire (writeHeader cmd offset) = Success [Z.lor (WRITE C) cmd] /\
   forall payload,
     spec_decode (rd_hdr cmd offset ++ payload)
     = Some (false, cmd, None, payload) /\
     spec_decode (wr_hdr cmd offset ++ payload)
     = Some (true, cmd, None, payload)) /\
  (offset <> NO_SUB C -> 0 <= offset < 128 ->
   on_wire (readHeader cmd offset) = Success [Z.lor (READ_SUB C) cmd; offset] /\
   on_wire (writeHeader cmd offset) = Success [Z.lor (WRITE_SUB C) cmd; offset]) /\
  (offset <> NO_SUB C -> 128 <= offset < 32768 ->
   on_wire (readHeader cmd offset)
   = Success [Z.lor (READ_SUB C) cmd;
              Z.lor (Z.land offset 0x7F) (RW_SUB_EXT C);
              Z.shiftr offset 7] /\
   on_wire (writeHeader cmd offset)
   = Success [Z.lor (WRITE_SUB C) cmd;
              Z.lor (Z.land offset 0x7F) (RW_SUB_EXT C);
              Z.shiftr offset 7]) /\
  (offset <> NO_SUB C -> 0 <= offset < 32768 ->
   forall payload,
     spec_decode (rd_hdr cmd offset ++ payload)
     = Some (false, cmd, Some offset, payload) /\
     spec_decode (wr_hdr cmd offset ++ payload)
     = Some (true, cmd, Some offset, payload)) /\
  (offset <> NO_SUB C -> offset < 0 \/ 32768 <= offset ->
   readHeader cmd offset = Failure ValueError /\
   writeHeader cmd offset = Failure ValueError).
Proof.
  intros Hw Hc.
  destruct (wire_format_values Hw) as (Hr & Hrs & Hwr & Hws & Hext & Hmask).
  assert (Fr : In (READ C) [0x00; 0x40; 0x80; 0xC0]) by (rewrite Hr; cbn; auto).
  assert (Frs : In (READ_SUB C) [0x00; 0x40; 0x80; 0xC0]) by (rewrite Hrs; cbn; auto).
  assert (Fw : In (WRITE C) [0x00; 0x40; 0x80; 0xC0]) by (rewrite Hwr; cbn; auto).
  assert (Fws : In (WRITE_SUB C) [0x00; 0x40; 0x80; 0xC0]) by (rewrite Hws; cbn; auto).
  destruct (buildHeader_cases (READ C) (READ_SUB C) cmd offset Hw Hc Fr Frs)
    as (R1 & R2 & R3).
  destruct (buildHeader_cases (WRITE C) (WRITE_SUB C) cmd offset Hw Hc Fw Fws)
    as (W1 & W2 & W3).
  fold (readHeader cmd offset) in R1, R2, R3.
  fold (writeHeader cmd offset) in W1, W2, W3.
  destruct (head_byte cmd _ Hc Fr) as (_ & Lr & T7r & T6r).
  destruct (head_byte cmd _ Hc Frs) as (_ & Lrs & T7rs & T6rs).
  destruct (head_byte cmd _ Hc Fw) as (_ & Lw & T7w & T6w).
  destruct (head_byte cmd _ Hc Fws) as (_ & Lws & T7ws & T6ws).
  replace (Z.testbit (READ C) 7) with false in T7r by now rewrite Hr.
  replace (Z.testbit (READ C) 6) with false in T6r by now rewrite Hr.
  replace (Z.testbit (READ_SUB C) 7) with false in T7rs by now rewrite Hrs.
  replace (Z.testbit (READ_SUB C) 6) with true in T6rs by now rewrite Hrs.
  replace (Z.testbit (WRITE C) 7) with true in T7w by now rewrite Hwr.
  replace (Z.testbit (WRITE C) 6) with false in T6w by now rewrite Hwr.
  replace (Z.testbit (WRITE_SUB C) 7) with true in T7ws by now rewrite Hws.
  replace (Z.testbit (WRITE_SUB C) 6) with true in T6ws by now rewrite Hws.
  split; [|split; [auto|split; [auto|split]]].
  - intros E. split; [auto|]. split; [auto|]. intros payload.
    unfold rd_hdr, wr_hdr. rewrite (R1 E), (W1 E). cbn [app spec_decode].
    rewrite T6r, T7r, T6w, T7w, Lr, Lw. cbn. auto.
  - intros E Ho payload.
    pose proof (check_from_sound _ _ _ offset_check_all offset ltac:(lia)) as H.
    unfold offset_check in H. unfold rd_hdr, wr_hdr.
    destruct (Z.ltb_spec offset 128) as [Hlt|Hge].
    + rewrite (R2 E ltac:(lia)), (W2 E ltac:(lia)). cbn [app spec_decode].
      apply negb_true_iff in H.
      rewrite T6rs, T7rs, T6ws, T7ws, Lrs, Lws, H. cbn. auto.
    + cbv zeta in H.
      rewrite !andb_true_iff in H.
      destruct H as ((((((H1 & H2) & H3) & H4) & H5) & H6) & H7).
      rewrite (R3 E ltac:(lia)), (W3 E ltac:(lia)). cbn [app spec_decode].
      apply Z.eqb_eq in H5, H7. rewrite Hext, <- H5.
      rewrite T6rs, T7rs, T6ws, T7ws, Lrs, Lws, H6, H7. cbn. auto.
  - intros E Ho. split.
    + exact (buildHeader_rejects (READ C) (READ_SUB C) cmd offset Hw Hc Frs E Ho).
    + exact (buildHeader_rejects (WRITE C) (WRITE_SUB C) cmd offset Hw Hc Fws E Ho).
Qed.

(** *** Registers *)

Lemma set_bit_in_length d i v :
  Datatypes.length (set_bit_in d i v) = Datatypes.length d.
Proof. unfold set_bit_in. apply replace_nth_length. Qed.

Lemma set_bits_in_length l : forall d v,
  Datatypes.length (set_bits_in d l v) = Datatypes.length d.
Proof.
  induction l as [|i l IH]; intros d v; cbn; auto.
  unfold set_bits_in in IH. rewrite IH. apply set_bit_in_length.
Qed.

Lemma in_bits_byte r i :
  Register.wf r -> in_bits r i = true ->
  0 <= i / 8 < Z.of_nat (Datatypes.length (data r)).
Proof.
  unfold Register.wf, in_bits. intros Hw H. rewrite Hw.
  apply andb_prop in H. destruct H as [H1 H2].
  apply Z.leb_le in H1. apply Z.ltb_lt in H2.
  split.
  - apply Z.div_pos; lia.
  - apply Z.div_lt_upper_bound; lia.
Qed.

Lemma getBit_ok r i :
  Register.wf r -> in_bits r i = true ->
  getBit r i = Success (bit_of (data r) i).
Proof.
  intros Hw H. unfold getBit. rewrite H.
  rewrite (getitem_Z _ _ 0 (in_bits_byte r i Hw H)). reflexivity.
Qed.

Lemma setBit_ok r i v :
  Register.wf r -> in_bits r i = true ->
  setBit r i v = Success (with_data r (set_bit_in (data r) i v)).
Proof.
  intros Hw H. unfold setBit. rewrite H.
  rewrite (getitem_Z _ _ 0 (in_bits_byte r i Hw H)).
  cbn [res_bind].
  rewrite (setitem_Z _ _ _ (in_bits_byte r i Hw H)). reflexivity.
Qed.

Lemma setBits_ok l : forall r v,
  Register.wf r -> forallb (in_bits r) l = true ->
  setBits r l v = Success (with_data r (set_bits_in (data r) l v)).
Proof.
  induction l as [|i l IH]; intros r v Hw H.
  - cbn. now destruct r.
  - cbn [forallb] in H. apply andb_prop in H. destruct H as [Hi Hl].
    cbn [setBits]. rewrite (setBit_ok r i v Hw Hi). cbn [res_bind].
    rewrite IH.
    + reflexivity.
    + unfold Register.wf in *. cbn. now rewrite set_bit_in_length.
    + exact Hl.
Qed.

Lemma shaped_wf r addr sub n : shaped r addr sub n -> Register.wf r.
Proof. unfold shaped, Register.wf. intros (_ & _ & -> & ->). reflexivity. Qed.

Lemma shaped_with_data r addr sub n d :
  shaped r addr sub n -> Datatypes.length d = n ->
  shaped (with_data r d) addr sub n.
Proof. unfold shaped. cbn. intuition. Qed.

Lemma shaped_in_bits r addr sub n i :
  shaped r addr sub n -> in_range (8 * Z.of_nat n) i = true ->
  in_bits r i = true.
Proof. unfold shaped, in_bits, in_range. intros (_ & _ & -> & _). auto. Qed.

Lemma forallb_in_bits r addr sub n l :
  shaped r addr sub n -> forallb (in_range (8 * Z.of_nat n)) l = true ->
  forallb (in_bits r) l = true.
Proof.
  intros Hs. rewrite !forallb_forall. intros H i Hi.
  eapply shaped_in_bits; eauto.
Qed.

Lemma data_with_data r d : data (with_data r d) = d.
Proof. reflexivity. Qed.

Lemma with_data_same r : with_data r (data r) = r.
Proof. now destruct r. Qed.

(** *** Attributes *)

Lemma call_ok a f s r :
  f (fetch a s) = Success r -> call a f s = Ok tt (store a s r).
Proof. unfold call. now intros ->. Qed.

Lemma writeRegister_self_spec a s :
  addressable (address (fetch a s)) (subaddress (fetch a s)) = true ->
  Register.wf (fetch a s) ->
  writeRegister_self a s
  = Ok tt (add_log s (write_frame (cs s) (address (fetch a s))
                        (subaddress (fetch a s)) (data (fetch a s)))).
Proof.
  intros Ha Hw. unfold writeRegister_self, bind, the.
  apply writeRegister_spec; assumption.
Qed.

Lemma readRegister_self_spec a s :
  addressable (address (fetch a s)) (subaddress (fetch a s)) = true ->
  Register.wf (fetch a s) ->
  (forall x r, cs (store a x r) = cs x) ->
  readRegister_self a s
  = Ok tt (store a
             (add_log s (read_frame (cs s) (address (fetch a s))
                           (subaddress (fetch a s)) (size (fetch a s))))
             (with_data (fetch a s)
                (read_answer (log s) (cs s) (address (fetch a s))
                   (subaddress (fetch a s)) (size (fetch a s))))).
Proof.
  intros Ha Hw _. unfold readRegister_self, bind, the.
  rewrite (readRegister_spec _ s Ha Hw). reflexivity.
Qed.

Lemma controller_ok_parts :
  controller_ok = true ->
  addressable (SYS_CTRL C) (NO_SUB C) = true /\
  addressable (SYS_MASK C) (NO_SUB C) = true /\
  addressable (SYS_STATUS C) (NO_SUB C) = true /\
  forallb (in_range 32)
    [MRXFCE_BIT C; MRXFCG_BIT C; MRXDFR_BIT C; MLDEDONE_BIT C] = true /\
  in_range 32 (HRBPT_BIT C) = true /\
  in_range 32 (TRXOFF_BIT C) = true /\
  in_range 32 (WAIT4RESP_BIT C) = true /\
  in_range 40 (HSRBP_BIT C) = true /\
  in_range 40 (ICRBP_BIT C) = true /\
  forallb (in_range 40)
    (SYS_STATUS_ALL_TX C ++ SYS_STATUS_ALL_RX_ERR C ++
     SYS_STATUS_ALL_RX_TO C ++ SYS_STATUS_ALL_RX_GOOD C) = true.
Proof.
  unfold controller_ok. cbn [forallb app].
  rewrite !andb_true_iff. intuition.
Qed.

(** *** Device controller *)

Ltac fields :=
  cbv [fetch store self_sysctrl self_sysmask self_sysstatus self_txfctrl
       set_sysctrl set_sysmask set_sysstatus set_txfctrl set_seqNum set_log
       add_log with_data Register.clear Register.setAll] in *;
  cbn [cs rst irq dblbuffon sysctrl chanctrl syscfg sysmask txfctrl
       sysstatus gpiomode pmscctrl0 pmscledc otpctrl panadr eui ackrespt
       rxfinfo seqNum operationMode permanentReceive log
       address subaddress size data] in *.

Lemma repeat_answer_length h pin cmd offset n :
  Datatypes.length (read_answer h pin cmd offset n) = n.
Proof. unfold read_answer, read_result. apply answers_length. Qed.

Ltac lengths :=
  rewrite ?set_bits_in_length, ?set_bit_in_length, ?repeat_length,
    ?repeat_answer_length, ?length_map, ?length_seq.

Lemma toggleHSRBP_off s : dblbuffon s = false -> toggleHSRBP s = Ok tt s.
Proof.
  intros H. unfold toggleHSRBP, bind, the. rewrite H. reflexivity.
Qed.

Lemma toggleHSRBP_on s :
  wf_self s -> controller_ok = true -> dblbuffon s = true ->
  toggleHSRBP s = Ok tt (toggled s).
Proof.
  intros ((Ca & Cs & Cz & Cl) & (Ma & Ms & Mz & Ml) & _) Hok Hon.
  destruct (controller_ok_parts Hok) as (Ac & Am & _ & Bm & Bh & _).
  unfold toggleHSRBP.
  unfold bind at 1, the at 1. rewrite Hon.
  unfold bind at 1, the at 1.
  assert (B1 : forallb (in_bits (sysmask s))
                 [MRXFCE_BIT C; MRXFCG_BIT C; MRXDFR_BIT C; MLDEDONE_BIT C] = true).
  { apply (forallb_in_bits _ (SYS_MASK C) (NO_SUB C) 4);
      [repeat split; assumption|exact Bm]. }
  assert (W1 : Register.wf (sysmask s)) by (unfold Register.wf; congruence).
  rewrite (bind_Ok _ _ _ _ _
             (call_ok self_sysmask _ s _ (setBits_ok _ _ false W1 B1))).
  erewrite bind_Ok; cycle 1.
  { apply writeRegister_self_spec; fields.
    - now rewrite Ma, Ms.
    - unfold Register.wf; fields; lengths; congruence. }
  fields.
  assert (B2 : in_bits (sysctrl s) (HRBPT_BIT C) = true).
  { apply (shaped_in_bits _ (SYS_CTRL C) (NO_SUB C) 4);
      [repeat split; assumption|exact Bh]. }
  assert (W2 : Register.wf (sysctrl s)) by (unfold Register.wf; congruence).
  erewrite bind_Ok; cycle 1.
  { apply call_ok. fields. apply (setBit_ok _ _ true W2 B2). }
  erewrite bind_Ok; cycle 1.
  { apply writeRegister_self_spec; fields.
    - now rewrite Ca, Cs.
    - unfold Register.wf; fields; lengths; congruence. }
  fields.
  erewrite bind_Ok; cycle 1.
  { apply call_ok. fields. reflexivity. }
  rewrite writeRegister_self_spec; fields.
  - unfold toggled, toggle_frames.
    destruct s; fields. destruct sysmask0, sysctrl0; fields. subst.
    rewrite <- !app_assoc. reflexivity.
  - now rewrite Ma, Ms.
  - unfold Register.wf; fields; congruence.
Qed.

Lemma wf_self_status_read s : wf_self s -> wf_self (status_read s).
Proof.
  intros (Hc & Hm & (Sa & Ss & Sz & Sl) & Ht).
  unfold wf_self, status_read, status_answer, shaped in *. fields. lengths.
  intuition.
Qed.

(** [syncHSRBP] reads the status register, then calls [toggleHSRBP]
    when the two pointer bits it read are equal and does nothing more
    when they differ. *)
Lemma syncHSRBP_spec s :
  wf_self s -> controller_ok = true ->
  syncHSRBP s
  = if pointers_equal s then toggleHSRBP (status_read s)
    else Ok tt (status_read s).
Proof.
  intros Hwf Hok.
  destruct Hwf as (Hc & Hm & (Sa & Ss & Sz & Sl) & Ht).
  destruct (controller_ok_parts Hok) as (_ & _ & As & _ & _ & _ & _ & Bh & Bi & _).
  unfold syncHSRBP.
  erewrite bind_Ok; cycle 1.
  { apply readRegister_self_spec; fields.
    - now rewrite Sa, Ss.
    - unfold Register.wf; congruence.
    - reflexivity. }
  fields. rewrite Sa, Ss, Sz.
  unfold bind at 1, the at 1. fields.
  fold (status_answer s).
  set (st := {| address := SYS_STATUS C; subaddress := NO_SUB C;
                size := 5; data := status_answer s |}).
  assert (Wst : Register.wf st).
  { unfold Register.wf, st, status_answer. fields. now lengths. }
  assert (Gh : getBit st (HSRBP_BIT C) = Success (bit_of (status_answer s) (HSRBP_BIT C))).
  { apply (getBit_ok st _ Wst). exact Bh. }
  assert (Gi : getBit st (ICRBP_BIT C) = Success (bit_of (status_answer s) (ICRBP_BIT C))).
  { apply (getBit_ok st _ Wst). exact Bi. }
  rewrite (bind_Ok _ _ _ _ _ (lift_Success _ _ _ Gh)).
  rewrite (bind_Ok _ _ _ _ _ (lift_Success _ _ _ Gi)).
  fold (pointers_equal s).
  assert (E : {| cs := cs s; rst := rst s; irq := irq s;
                 dblbuffon := dblbuffon s; sysctrl := sysctrl s;
                 chanctrl := chanctrl s; syscfg := syscfg s;
                 sysmask := sysmask s; txfctrl := txfctrl s; sysstatus := st;
                 gpiomode := gpiomode s; pmscctrl0 := pmscctrl0 s;
                 pmscledc := pmscledc s; otpctrl := otpctrl s;
                 panadr := panadr s; eui := eui s; ackrespt := ackrespt s;
                 rxfinfo := rxfinfo s; seqNum := seqNum s;
                 operationMode := operationMode s;
                 permanentReceive := permanentReceive s;
                 log := log s ++ read_frame (cs s) (SYS_STATUS C) (NO_SUB C) 5 |}
              = status_read s).
  { unfold status_read, st. fields. rewrite Sa, Ss, Sz. reflexivity. }
  rewrite E. now destruct (pointers_equal s).
Qed.

Lemma toggle_frames_status_read s :
  toggle_frames (status_read s) = toggle_frames s.
Proof. reflexivity. Qed.

Lemma wf_self_toggled s : wf_self s -> wf_self (toggled s).
Proof.
  intros ((Ca & Cs & Cz & Cl) & Hm & Hs & Ht).
  unfold wf_self, toggled, shaped in *. fields. lengths. intuition.
Qed.

(** Where [syncHSRBP] ends: a well-formed state on the same
    chip-select pin, with the read and, if any, the toggle in the log. *)
Lemma syncHSRBP_toggles_when_equal_aux s :
  wf_self s -> controller_ok = true ->
  exists s',
    syncHSRBP s = Ok tt s' /\ wf_self s' /\
    log s' = log s ++ read_frame (cs s) (SYS_STATUS C) (NO_SUB C) 5
             ++ (if dblbuffon s && pointers_equal s
                 then toggle_frames s else []) /\
    cs s' = cs s.
Proof.
  intros Hwf Hok.
  rewrite (syncHSRBP_spec s Hwf Hok).
  pose proof (wf_self_status_read s Hwf) as Hr.
  destruct (pointers_equal s).
  - destruct (dblbuffon s) eqn:Hd.
    + exists (toggled (status_read s)). split; [|split; [|split]].
      * apply toggleHSRBP_on; [exact Hr|exact Hok|exact Hd].
      * now apply wf_self_toggled.
      * unfold toggled. rewrite toggle_frames_status_read.
        unfold status_read. fields. cbn [andb].
        now rewrite <- app_assoc.
      * reflexivity.
    + exists (status_read s). split; [|split; [|split]].
      * apply toggleHSRBP_off. exact Hd.
      * exact Hr.
      * unfold status_read. fields. cbn [andb]. now rewrite app_nil_r.
      * reflexivity.
  - exists (status_read s). split; [|split; [|split]].
    + reflexivity.
    + exact Hr.
    + unfold status_read. fields. now rewrite andb_false_r, app_nil_r.
    + reflexivity.
Qed.

(** C9. [syncHSRBP] reads the status register and calls [toggleHSRBP]
    exactly when the host-side and the chip-side buffer-pointer bits it
    read are equal.  When they differ, or when double buffering is off,
    the read is the only frame it adds to the log and the mask and
    control attributes are unchanged; with double buffering on and the
    bits equal it adds the three frames of the toggle.  [toggleHSRBP]
    with double buffering off changes nothing at all. *)
Theorem syncHSRBP_toggles_when_equal s :
  wf_self s -> controller_ok = true ->
  syncHSRBP s
  = (if pointers_equal s then toggleHSRBP (status_read s)
     else Ok tt (status_read s)) /\
  (exists s',
      syncHSRBP s = Ok tt s' /\
      log s' = log s ++ read_frame (cs s) (SYS_STATUS C) (NO_SUB C) 5
               ++ (if dblbuffon s && pointers_equal s
                   then toggle_frames s else []) /\
      (dblbuffon s && pointers_equal s = false ->
       sysctrl s' = sysctrl s /\ sysmask s' = sysmask s)) /\
  (dblbuffon s = false -> toggleHSRBP s = Ok tt s).
Proof.
  intros Hwf Hok.
  split; [apply syncHSRBP_spec; assumption|].
  split; [|apply toggleHSRBP_off].
  rewrite (syncHSRBP_spec s Hwf Hok).
  destruct (pointers_equal s).
  - destruct (dblbuffon s) eqn:Hd.
    + exists (toggled (status_read s)). split.
      * apply toggleHSRBP_on; [now apply wf_self_status_read|exact Hok|exact Hd].
      * split; [|discriminate].
        unfold toggled. rewrite toggle_frames_status_read.
        unfold status_read. fields. cbn [andb].
        now rewrite <- app_assoc.
    + exists (status_read s). split.
      * apply toggleHSRBP_off. exact Hd.
      * unfold status_read. fields. cbn [andb]. rewrite app_nil_r. auto.
  - exists (status_read s). split; [reflexivity|].
    unfold status_read. fields. rewrite andb_false_r, app_nil_r. auto.
Qed.

Lemma clearStatus_spec x bits :
  wf_self x -> addressable (SYS_STATUS C) (NO_SUB C) = true ->
  forallb (in_range 40) bits = true ->
  clearStatus bits x = Ok tt (status_cleared x bits).
Proof.
  intros (_ & _ & (Sa & Ss & Sz & Sl) & _) As Hb.
  unfold clearStatus.
  erewrite bind_Ok; cycle 1.
  { apply call_ok. reflexivity. }
  erewrite bind_Ok; cycle 1.
  { apply call_ok. fields. apply setBits_ok.
    - unfold Register.wf. fields. now lengths.
    - apply (forallb_in_bits _ (SYS_STATUS C) (NO_SUB C) 5);
        [unfold shaped; fields; lengths; auto|exact Hb]. }
  rewrite writeRegister_self_spec; fields.
  - unfold status_cleared. rewrite Sz, Sa, Ss.
    destruct x; fields. destruct sysstatus0; fields. subst. reflexivity.
  - now rewrite Sa, Ss.
  - unfold Register.wf. fields. now lengths.
Qed.

Lemma idle_spec x :
  wf_self x -> controller_ok = true -> idle x = Ok tt (idled x).
Proof.
  intros ((Ca & Cs & Cz & Cl) & _) Hok.
  destruct (controller_ok_parts Hok) as (Ac & _ & _ & _ & _ & Bt & _).
  unfold idle.
  erewrite bind_Ok; cycle 1.
  { apply call_ok. reflexivity. }
  erewrite bind_Ok; cycle 1.
  { apply call_ok. fields. apply setBit_ok.
    - unfold Register.wf. fields. now lengths.
    - apply (shaped_in_bits _ (SYS_CTRL C) (NO_SUB C) 4);
        [unfold shaped; fields; lengths; auto|exact Bt]. }
  rewrite writeRegister_self_spec; fields.
  - unfold idled. rewrite Cz, Ca, Cs.
    destruct x; fields. destruct sysctrl0; fields. subst. reflexivity.
  - now rewrite Ca, Cs.
  - unfold Register.wf. fields. now lengths.
Qed.

Lemma forceTRxOff_tail x mask :
  wf_self x -> controller_ok = true -> Datatypes.length mask = 4%nat ->
  (call self_sysmask (fun r => Success (with_data r mask)) ;;
   writeRegister_self self_sysmask ;;
   call self_sysctrl (fun r => setBit r (WAIT4RESP_BIT C) false)) x
  = Ok tt (restored x mask).
Proof.
  intros ((Ca & Cs & Cz & Cl) & (Ma & Ms & Mz & Ml) & _) Hok Hl.
  destruct (controller_ok_parts Hok) as (_ & Am & _ & _ & _ & _ & Bw & _).
  erewrite bind_Ok; cycle 1.
  { apply call_ok. reflexivity. }
  erewrite bind_Ok; cycle 1.
  { apply writeRegister_self_spec; fields.
    - now rewrite Ma, Ms.
    - unfold Register.wf. fields. congruence. }
  fields.
  erewrite call_ok; cycle 1.
  { fields. apply setBit_ok.
    - unfold Register.wf. congruence.
    - apply (shaped_in_bits _ (SYS_CTRL C) (NO_SUB C) 4);
        [unfold shaped; auto|exact Bw]. }
  unfold restored. fields. rewrite Ma, Ms. reflexivity.
Qed.

Lemma wf_self_before_sync s : wf_self s -> wf_self (before_sync s).
Proof.
  intros ((Ca & Cs & Cz & Cl) & (Ma & Ms & Mz & Ml) & (Sa & Ss & Sz & Sl) & Ht).
  unfold wf_self, before_sync, shaped in *. fields. lengths. intuition.
Qed.

Lemma forceTRxOff_head s :
  wf_self s -> controller_ok = true ->
  forceTRxOff s
  = (syncHSRBP ;;
     call self_sysmask (fun r => Success (with_data r (saved_mask s))) ;;
     writeRegister_self self_sysmask ;;
     call self_sysctrl (fun r => setBit r (WAIT4RESP_BIT C) false))
      (before_sync s).
Proof.
  intros Hwf Hok.
  pose proof Hwf as ((Ca & Cs & Cz & Cl) & (Ma & Ms & Mz & Ml) & (Sa & Ss & Sz & Sl) & Ht).
  destruct (controller_ok_parts Hok) as (Ac & Am & As & _ & _ & Bt & _ & _ & _ & Ba).
  unfold forceTRxOff.
  erewrite bind_Ok; cycle 1.
  { apply readRegister_self_spec; fields.
    - now rewrite Ma, Ms.
    - unfold Register.wf; congruence.
    - reflexivity. }
  fields. rewrite Ma, Ms, Mz. fold (saved_mask s).
  unfold bind at 1, the at 1. fields.
  unfold bind at 1, disableInterrupt at 1. fields.
  erewrite bind_Ok; cycle 1.
  { apply call_ok. reflexivity. }
  erewrite bind_Ok; cycle 1.
  { apply writeRegister_self_spec; fields.
    - assumption.
    - unfold Register.wf. fields. now lengths. }
  fields.
  erewrite bind_Ok; cycle 1.
  { apply call_ok. reflexivity. }
  erewrite bind_Ok; cycle 1.
  { apply call_ok. fields. apply setBit_ok.
    - unfold Register.wf. fields. now lengths.
    - apply (shaped_in_bits _ (SYS_CTRL C) (NO_SUB C) 4);
        [unfold shaped; fields; lengths; auto|exact Bt]. }
  erewrite bind_Ok; cycle 1.
  { apply writeRegister_self_spec; fields.
    - now rewrite Ca, Cs.
    - unfold Register.wf. fields. now lengths. }
  fields.
  erewrite bind_Ok; cycle 1.
  { apply clearStatus_spec.
    - unfold wf_self, shaped in *. fields. lengths. intuition.
    - exact As.
    - exact Ba. }
  unfold status_cleared. fields. fold abort_bits.
  match goal with
  | |- bind _ _ ?x = _ => replace x with (before_sync s)
  end.
  - reflexivity.
  - unfold before_sync. rewrite Cz, Ca, Cs.
    destruct s; fields. destruct sysctrl0, sysmask0, sysstatus0; fields. subst.
    rewrite <- !app_assoc. reflexivity.
Qed.

Lemma saved_mask_length s : Datatypes.length (saved_mask s) = 4%nat.
Proof. apply repeat_answer_length. Qed.

(** C4. [forceTRxOff] performs, in this order: the read of the mask
    register (the saved mask is what the chip answers), the removal of
    the interrupt detection, the write of a zero mask, the write of the
    control register with the transceiver-off bit alone, the write of
    the status register with the bits to clear, the resynchronisation
    of the buffer pointer (the status read and, with double buffering on
    and equal pointer bits, the three frames of the toggle), and last
    the write of the saved mask to the mask register; the mask
    attribute then holds the saved mask. *)
Theorem forceTRxOff_sequence s :
  wf_self s -> controller_ok = true ->
  exists s',
    forceTRxOff s = Ok tt s' /\
    log s' =
      log s
      ++ read_frame (cs s) (SYS_MASK C) (NO_SUB C) 4
      ++ [GPIO_remove_event_detect (irq s)]
      ++ write_frame (cs s) (SYS_MASK C) (NO_SUB C) (repeat 0 4)
      ++ write_frame (cs s) (SYS_CTRL C) (NO_SUB C)
           (set_bit_in (repeat 0 4) (TRXOFF_BIT C) true)
      ++ write_frame (cs s) (SYS_STATUS C) (NO_SUB C)
           (set_bits_in (repeat 0 5) abort_bits true)
      ++ (read_frame (cs s) (SYS_STATUS C) (NO_SUB C) 5
          ++ (if dblbuffon s && pointers_equal (before_sync s)
              then toggle_frames (before_sync s) else []))
      ++ write_frame (cs s) (SYS_MASK C) (NO_SUB C) (saved_mask s) /\
    data (sysmask s') = saved_mask s.
Proof.
  intros Hwf Hok.
  pose proof (wf_self_before_sync s Hwf) as Hb.
  rewrite (forceTRxOff_head s Hwf Hok).
  destruct (syncHSRBP_toggles_when_equal_aux (before_sync s) Hb Hok)
    as (x & Ex & Hx & Lx & Cx).
  rewrite (bind_Ok _ _ _ _ _ Ex).
  rewrite (forceTRxOff_tail x (saved_mask s) Hx Hok (saved_mask_length s)).
  eexists. split; [reflexivity|].
  split.
  - unfold restored. fields. rewrite Lx, Cx.
    unfold before_sync. fields.
    rewrite <- !app_assoc. reflexivity.
  - reflexivity.
Qed.

(** *** Mode tuner *)

Lemma placed_new addr sub n : placed (Register.new addr sub n) addr sub.
Proof.
  unfold placed, Register.wf, Register.new. cbn.
  now rewrite repeat_length.
Qed.

Lemma placed_writeValue r addr sub v :
  placed r addr sub -> placed (writeValue r v) addr sub.
Proof.
  unfold placed, Register.wf, writeValue. cbn.
  intros (-> & -> & _). now rewrite length_map, length_seq.
Qed.

Create HintDb tuning.
#[local] Hint Resolve placed_new placed_writeValue : tuning.

Ltac branches :=
  repeat match goal with
         | |- context [if ?b then _ else _] => destruct b
         end;
  cbn [fst snd the_rftxctrl the_tcpgdelay the_fspllcfg the_fsplltune the_txpower];
  auto with tuning.

Lemma placed_tuneAgcTune1 self r addr sub :
  placed r addr sub -> placed (tuneAgcTune1 self r) addr sub.
Proof. intros H. unfold tuneAgcTune1. branches. Qed.

Lemma placed_tuneDrxTune0b self r addr sub :
  placed r addr sub -> placed (tuneDrxTune0b self r) addr sub.
Proof. intros H. unfold tuneDrxTune0b. branches. Qed.

Lemma placed_tuneDrxTune1a self r r' addr sub :
  placed r addr sub ->
  placed (fst (tuneDrxTune1aAndldecfg2 self r r')) addr sub.
Proof. intros H. unfold tuneDrxTune1aAndldecfg2. branches. Qed.

Lemma placed_ldecfg2 self r r' addr sub :
  placed r' addr sub ->
  placed (snd (tuneDrxTune1aAndldecfg2 self r r')) addr sub.
Proof. intros H. unfold tuneDrxTune1aAndldecfg2. branches. Qed.

Lemma placed_tuneDrxtune1b self r r' addr sub :
  placed r addr sub -> tuneDrxtune1b self r = Success r' ->
  placed r' addr sub.
Proof.
  intros H. unfold tuneDrxtune1b, call_register.
  repeat match goal with
         | |- context [if ?b then _ else _] => destruct b
         end;
    intros E; inversion E; subst; auto with tuning.
Qed.

Lemma placed_tuneDrxTune2 self r addr sub :
  placed r addr sub -> placed (tuneDrxTune2 self r) addr sub.
Proof. intros H. unfold tuneDrxTune2. branches. Qed.

Lemma placed_tunelderepc self r addr sub :
  placed r addr sub -> placed (tunelderepc self r) addr sub.
Proof. intros H. unfold tunelderepc, lderepc_branch. branches. Qed.

Lemma placed_tuneAccToChan self r a1 s1 a2 s2 a3 s3 a4 s4 a5 s5 :
  placed (the_rftxctrl r) a1 s1 -> placed (the_tcpgdelay r) a2 s2 ->
  placed (the_fspllcfg r) a3 s3 -> placed (the_fsplltune r) a4 s4 ->
  placed (the_txpower r) a5 s5 ->
  placed (the_rftxctrl (tuneAccToChan self r)) a1 s1 /\
  placed (the_tcpgdelay (tuneAccToChan self r)) a2 s2 /\
  placed (the_fspllcfg (tuneAccToChan self r)) a3 s3 /\
  placed (the_fsplltune (tuneAccToChan self r)) a4 s4 /\
  placed (the_txpower (tuneAccToChan self r)) a5 s5.
Proof.
  intros H1 H2 H3 H4 H5. unfold tuneAccToChan, chan_branch.
  repeat match goal with
         | |- context [if ?b then _ else _] => destruct b
         end;
    cbn [the_rftxctrl the_tcpgdelay the_fspllcfg the_fsplltune the_txpower];
    (split; [|split; [|split; [|split]]]); auto with tuning.
Qed.

Lemma placed_tunable r addr sub :
  placed r addr sub -> addressable addr sub = true -> tunable r.
Proof. intros (Ea & Es & Hw) Ha. split; [now rewrite Ea, Es|assumption]. Qed.

Lemma commit_last r s evs :
  tunable r ->
  writeRegister r (add_log s evs)
  = Ok tt (add_log s (evs ++ commit (cs s) r)).
Proof.
  intros (Ha & Hw).
  pose proof (writeRegister_spec r (add_log s evs) Ha Hw) as W.
  rewrite add_log_add_log in W. exact W.
Qed.

Lemma commit_step {B} r (k : unit -> M B) s evs :
  tunable r ->
  bind (writeRegister r) k (add_log s evs)
  = k tt (add_log s (evs ++ commit (cs s) r)).
Proof.
  intros H. apply bind_Ok. now apply commit_last.
Qed.

Lemma cs_add_log s evs : cs (add_log s evs) = cs s.
Proof. reflexivity. Qed.

Lemma log_add_log s evs : log (add_log s evs) = log s ++ evs.
Proof. reflexivity. Qed.

Lemma byte_value_ok v : in_range 256 v = true -> byte_value v = Success v.
Proof. unfold in_range, byte_value. now intros ->. Qed.

Lemma setitem2_0 {A} (a b v : A) : setitem [a; b] 0 v = Success [v; b].
Proof. reflexivity. Qed.

Lemma setitem2_1 {A} (a b v : A) : setitem [a; b] 1 v = Success [a; v].
Proof. reflexivity. Qed.

Lemma readBytesOTP_spec address d s :
  otp_ok address = true -> (4 <= Datatypes.length d)%nat ->
  readBytesOTP address d s
  = Ok (otp_answer s address ++ skipn 4 d)
       (add_log s (otp_frames (cs s) address)).
Proof.
  unfold otp_ok. cbn [forallb]. rewrite !andb_true_iff.
  intros (((Aa & Ac) & Ar) & B0 & B1 & B2 & B3 & B5 & _) Hd.
  unfold readBytesOTP, bytearray_setitem, bytearray1.
  rewrite (byte_value_ok _ B0), (byte_value_ok _ B1), (byte_value_ok _ B2),
    (byte_value_ok _ B3), (byte_value_ok _ B5).
  cbn [res_bind].
  rewrite setitem2_0. unfold bind at 1, lift at 1.
  rewrite setitem2_1. unfold bind at 1, lift at 1.
  erewrite bind_Ok; cycle 1.
  { apply writeBytes_spec; [exact Aa|cbn; lia]. }
  unfold bind at 1, lift at 1.
  erewrite bind_Ok; cycle 1.
  { apply writeBytes_spec; [exact Ac|cbn; lia]. }
  unfold bind at 1, lift at 1.
  erewrite bind_Ok; cycle 1.
  { apply writeBytes_spec; [exact Ac|cbn; lia]. }
  rewrite !add_log_add_log, !cs_add_log.
  erewrite bind_Ok; cycle 1.
  { apply readBytes_spec; [exact Ar|exact Hd]. }
  unfold bind at 1, lift at 1.
  erewrite bind_Ok; cycle 1.
  { apply writeBytes_spec; [exact Ac|cbn; lia]. }
  rewrite !add_log_add_log, !cs_add_log, log_add_log.
  unfold ret, otp_answer, otp_frames, otp_request.
  cbn [firstn]. rewrite <- !app_assoc. reflexivity.
Qed.

#[local] Hint Resolve placed_tuneAgcTune1 placed_tuneDrxTune0b
  placed_tuneDrxTune1a placed_ldecfg2 placed_tuneDrxTune2
  placed_tunelderepc : tuning.

Lemma tuning_place a sub :
  tuner_ok = true -> In (a, sub) tuning_places -> addressable a sub = true.
Proof.
  unfold tuner_ok. rewrite andb_true_iff, forallb_forall.
  intros (H & _) Hin. exact (H (a, sub) Hin).
Qed.

Ltac place :=
  unfold tuning_places; cbn [In];
  repeat first [left; reflexivity | right].

Lemma tune_spec s r1b :
  tuner_ok = true ->
  tuneDrxtune1b s (Register.new (DRX_CONF C) (DRX_TUNE1b_SUB C) 2) = Success r1b ->
  tune_commits s (tune_table s r1b).
Proof.
  intros Hok H1b.
  assert (Hotp : otp_ok (OTP_XTAL_ADDRESS C) = true).
  { unfold tuner_ok in Hok. now apply andb_true_iff in Hok. }
  pose proof (placed_tuneDrxtune1b s _ _ _ _ (placed_new _ _ _) H1b) as P1b.
  destruct (placed_tuneAccToChan s
              (Build_chan_registers
                 (Register.new (RF_CONF C) (RF_TXCTRL_SUB C) 4)
                 (Register.new (TX_CAL C) (TC_PGDELAY_SUB C) 1)
                 (Register.new (FS_CTRL C) (FS_PLLCFG_SUB C) 4)
                 (Register.new (FS_CTRL C) (FS_PLLTUNE_SUB C) 1)
                 (Register.new (TX_POWER C) (NO_SUB C) 4))
              _ _ _ _ _ _ _ _ _ _
              (placed_new _ _ _) (placed_new _ _ _) (placed_new _ _ _)
              (placed_new _ _ _) (placed_new _ _ _))
    as (Q1 & Q2 & Q3 & Q4 & Q5).
  cbn [the_rftxctrl the_tcpgdelay the_fspllcfg the_fsplltune the_txpower] in Q1, Q2, Q3, Q4, Q5.
  unfold tune_commits, tune, tune_table.
  unfold bind at 1, get_self at 1. cbv zeta.
  rewrite (surjective_pairing
             (tuneDrxTune1aAndldecfg2 s
                (Register.new (DRX_CONF C) (DRX_TUNE1a_SUB C) 2)
                (Register.new (LDE_CTRL C) (LDE_CFG2_SUB C) 2))).
  cbn [fst snd].
  rewrite (bind_Ok _ _ _ _ _ (lift_Success _ _ _ H1b)).
  erewrite bind_Ok; cycle 1.
  { apply readBytesOTP_spec; [exact Hotp|cbn; lia]. }
  cbn [skipn]. rewrite app_nil_r.
  erewrite bind_Ok; cycle 1.
  { apply lift_Success. apply (getitem_Z _ 0 0).
    unfold otp_answer. rewrite repeat_answer_length. lia. }
  change (nth (Z.to_nat 0) (otp_answer s (OTP_XTAL_ADDRESS C)) 0)
    with (otp_xtal_byte s).
  fold (crystal_trim (otp_xtal_byte s)).
  do 17 (rewrite commit_step;
         [|eapply placed_tunable;
           [solve [eauto with tuning
                  | apply placed_writeValue; eauto with tuning
                  | destruct (is_code _ _); eauto with tuning
                  | destruct (negb _ && negb _); eauto with tuning]
           |apply (tuning_place _ _ Hok); place]]).
  match goal with
  | |- exists s', writeRegister ?r (add_log s ?evs) = _ /\ _ =>
      exists (add_log s (evs ++ commit (cs s) r)); split
  end.
  - apply commit_last.
    apply (placed_tunable _ (FS_CTRL C) (FS_XTALT_SUB C)).
    + apply (placed_writeValue _ _ _ _ (placed_new _ _ _)).
    + apply (tuning_place _ _ Hok). place.
  - rewrite log_add_log. f_equal.
    cbn [map List.concat]. rewrite app_nil_r.
    rewrite <- !app_assoc. reflexivity.
Qed.

Lemma tune_raises s e :
  tuneDrxtune1b s (Register.new (DRX_CONF C) (DRX_TUNE1b_SUB C) 2) = Failure e ->
  tune s = Raise e s.
Proof.
  intros H. unfold tune. unfold bind at 1, get_self at 1. cbv zeta.
  destruct (tuneDrxTune1aAndldecfg2 s _ _).
  unfold bind at 1, lift at 1. rewrite H. reflexivity.
Qed.

Lemma tuneDrxtune1b_outcome s r :
  (short_preamble_at_6800 (operationMode s) = false ->
   exists r', tuneDrxtune1b s r = Success r') /\
  (forall e, tuneDrxtune1b s r = Failure e -> e = TypeError).
Proof.
  unfold short_preamble_at_6800, tuneDrxtune1b, call_register.
  destruct (is_code (preambleLength (operationMode s)) (TX_PREAMBLE_LEN_64 C));
    destruct (is_code (dataRate (operationMode s)) (TRX_RATE_6800KBPS C));
    cbn [andb negb];
    repeat match goal with
           | |- context [if ?b then _ else _] => destruct b
           end;
    split; intros; try discriminate; try congruence; eauto.
Qed.

Lemma is_code_other slot a b :
  is_code slot a = true -> (a =? b) = false -> is_code slot b = false.
Proof.
  destruct slot as [v|]; cbn; [|discriminate].
  intros H1 H2. apply Z.eqb_eq in H1. subst. exact H2.
Qed.

(** C2. With preamble length 64 at 6800 kbps [tune] does not complete:
    [tuneDrxtune1b] calls the register instead of its [writeValue], and
    the [TypeError] leaves [tune] before any byte is sent; the state is
    unchanged. *)
Theorem tune_raises_on_short_preamble_at_6800 s :
  preamble_codes_ok = true ->
  short_preamble_at_6800 (operationMode s) = true ->
  tune s = Raise TypeError s.
Proof.
  unfold preamble_codes_ok, short_preamble_at_6800.
  rewrite !andb_true_iff, !negb_true_iff.
  intros ((N1 & N2) & N3) (H64 & H68).
  apply tune_raises. unfold tuneDrxtune1b, call_register.
  rewrite (is_code_other _ _ _ H64 N1), (is_code_other _ _ _ H64 N2),
    (is_code_other _ _ _ H64 N3), H64, H68.
  reflexivity.
Qed.

Lemma crystal_trim_data v : data (crystal_trim v) = [Z.land (xtalt_value v) 255].
Proof.
  unfold crystal_trim, writeValue, Register.new. cbn [data size seq map].
  now rewrite Z.shiftr_0_r.
Qed.

(** C6. When [tune] runs to its end (every mode but preamble length 64
    at 6800 kbps), the last frame it sends writes the crystal-trim
    register, after the frames that read the one-time-programmable
    memory and the frames of the table registers.  The byte written
    comes from the first byte read in that memory: when that byte is
    zero, the nominal constant, masked and or-ed with the fixed mask;
    for every other byte, that byte, masked and or-ed the same way.
    No error of the read is involved: the choice is by the value. *)
Theorem tune_crystal_trim s :
  tuner_ok = true ->
  short_preamble_at_6800 (operationMode s) = false ->
  exists s' table,
    tune s = Ok tt s' /\
    (otp_xtal_byte s = 0 ->
     log s' = log s
              ++ otp_frames (cs s) (OTP_XTAL_ADDRESS C)
              ++ table
              ++ write_frame (cs s) (FS_CTRL C) (FS_XTALT_SUB C)
                   [Z.land (Z.lor (Z.land (TUNE_OPERATION C) (TUNE_MASK1 C))
                                  (TUNE_MASK2 C)) 255]) /\
    (otp_xtal_byte s <> 0 ->
     log s' = log s
              ++ otp_frames (cs s) (OTP_XTAL_ADDRESS C)
              ++ table
              ++ write_frame (cs s) (FS_CTRL C) (FS_XTALT_SUB C)
                   [Z.land (Z.lor (Z.land (otp_xtal_byte s) (TUNE_MASK1 C))
                                  (TUNE_MASK2 C)) 255]).
Proof.
  intros Hok Hmode.
  destruct (tuneDrxtune1b_outcome s (Register.new (DRX_CONF C) (DRX_TUNE1b_SUB C) 2))
    as (Hs & _).
  destruct (Hs Hmode) as (r1b & H1b).
  destruct (tune_spec s r1b Hok H1b) as (s' & Ht & Hl).
  exists s', (List.concat (map (commit (cs s)) (tune_table s r1b))).
  split; [exact Ht|].
  unfold commit in Hl at 2. rewrite crystal_trim_data in Hl.
  unfold crystal_trim, xtalt_value in Hl. cbn [address subaddress writeValue with_data Register.new] in Hl.
  split; intros H0; rewrite Hl.
  - rewrite H0. reflexivity.
  - destruct (Z.eqb_spec (otp_xtal_byte s) 0); [contradiction|reflexivity].
Qed.

Lemma tune_table_mode s1 s2 r :
  operationMode s1 = operationMode s2 -> tune_table s1 r = tune_table s2 r.
Proof.
  intros H.
  unfold tune_table, tuneAgcTune1, tuneDrxTune0b, tuneDrxTune1aAndldecfg2,
    tuneDrxTune2, tunelderepc, lderepc_branch, tuneAccToChan, chan_branch.
  rewrite H. reflexivity.
Qed.

Lemma tuneDrxtune1b_mode s1 s2 r :
  operationMode s1 = operationMode s2 ->
  tuneDrxtune1b s1 r = tuneDrxtune1b s2 r.
Proof. intros H. unfold tuneDrxtune1b. rewrite H. reflexivity. Qed.

Lemma tune_table_length s r : Datatypes.length (tune_table s r) = 17%nat.
Proof. reflexivity. Qed.

(** C7, as amended. Two runs of [tune] with the same six mode fields,
    whatever else differs (the other attributes, the log so far, the
    answers of the chip), either both raise [TypeError] before sending
    anything, or both complete and commit the same seventeen table
    registers with the same contents in the same order, followed by the
    crystal-trim register; the contents of that last register are a
    function of the byte read in the one-time-programmable memory. *)
Theorem tune_deterministic_in_mode s1 s2 :
  tuner_ok = true ->
  operationMode s1 = operationMode s2 ->
  (tune s1 = Raise TypeError s1 /\ tune s2 = Raise TypeError s2) \/
  (exists table,
      Datatypes.length table = 17%nat /\
      tune_commits s1 table /\ tune_commits s2 table).
Proof.
  intros Hok Hm.
  pose proof (tuneDrxtune1b_mode s1 s2
                (Register.new (DRX_CONF C) (DRX_TUNE1b_SUB C) 2) Hm) as E.
  destruct (tuneDrxtune1b s1 (Register.new (DRX_CONF C) (DRX_TUNE1b_SUB C) 2))
    as [r1b|e] eqn:H1.
  - right. exists (tune_table s1 r1b). split; [apply tune_table_length|].
    split.
    + apply tune_spec; assumption.
    + rewrite (tune_table_mode s1 s2 r1b Hm). apply tune_spec; [assumption|].
      now rewrite <- E.
  - left.
    assert (e = TypeError) as ->.
    { apply (proj2 (tuneDrxtune1b_outcome s1 _) e H1). }
    split; apply tune_raises; [exact H1|now rewrite <- E].
Qed.

(** *** Ranging math *)

(** C5. With the modulus at 2^40: for all 40-bit timestamps [a < b],
    [wrapTimestamp (a - b)] is [(a - b) + 2^40], which is non-negative
    and below 2^40; and every non-negative input comes back
    unchanged. *)
Theorem wrapTimestamp_wraps :
  TIME_OVERFLOW C = 2 ^ 40 ->
  (forall a b,
      0 <= a < 2 ^ 40 -> 0 <= b < 2 ^ 40 -> a < b ->
      wrapTimestamp (a - b) = (a - b) + 2 ^ 40 /\
      0 <= wrapTimestamp (a - b) < 2 ^ 40) /\
  (forall t, 0 <= t -> wrapTimestamp t = t).
Proof.
  intros Hm. unfold wrapTimestamp. rewrite Hm. split.
  - intros a b Ha Hb Hab.
    destruct (Z.ltb_spec (a - b) 0); lia.
  - intros t Ht. destruct (Z.ltb_spec t 0); lia.
Qed.

Lemma answers_bytes k : forall h, Forall (fun b => 0 <= b < 256) (answers h k).
Proof.
  induction k as [|k IH]; intros h; cbn [answers]; constructor.
  - pose proof (Byte.to_N_bounded (chip h (JUNK C))). lia.
  - apply IH.
Qed.

Lemma read_answer_byte h pin cmd offset n i :
  (i < n)%nat -> 0 <= nth i (read_answer h pin cmd offset n) 0 < 256.
Proof.
  intros Hi. unfold read_answer, read_result.
  pose proof (answers_bytes n (h ++ GPIO_output pin false :: map SPI_xfer (rd_hdr cmd offset))) as F.
  rewrite Forall_forall in F. apply F. apply nth_In.
  now rewrite answers_length.
Qed.

Lemma zero_power_check_all : check_from zero_power_check 0 65536 = true.
Proof. vm_compute. reflexivity. Qed.

Lemma zero_power_guard r2 r3 :
  0 <= r2 < 256 -> 0 <= r3 < 256 ->
  Z.lor (Z.land (Z.shiftr r2 4) 255) (Z.shiftl r3 4) <> 0 ->
  exists q,
    py_truediv (py_float 0 * py_float 131072)
      (py_float (Z.lor (Z.land (Z.shiftr r2 4) 255) (Z.shiftl r3 4))
       * py_float (Z.lor (Z.land (Z.shiftr r2 4) 255) (Z.shiftl r3 4)))
    = Success q /\ (0 <? q)%float = false.
Proof.
  intros H2 H3 HN.
  pose proof (check_from_sound _ _ _ zero_power_check_all (r2 + 256 * r3) ltac:(lia)) as H.
  unfold zero_power_check in H.
  replace ((r2 + 256 * r3) mod 256) with r2 in H
    by (apply (Z.mod_unique_pos _ 256 r3); lia).
  replace ((r2 + 256 * r3) / 256) with r3 in H
    by (apply (Z.div_unique_pos _ 256 r3 r2); lia).
  cbv zeta in H.
  apply orb_true_iff in H. destruct H as [H|H].
  - apply Z.eqb_eq in H. contradiction.
  - destruct (py_truediv _ _) as [q|]; [|discriminate].
    exists q. split; [reflexivity|]. now apply negb_true_iff.
Qed.

Lemma ranging_ok_parts :
  ranging_ok = true ->
  addressable (RX_FQUAL C) (CIR_PWR_SUB C) = true /\
  addressable (RX_FINFO C) (NO_SUB C) = true /\
  TWOPOWER17 C = 131072 /\ MASK_LS_BYTE C = 255.
Proof.
  unfold ranging_ok. rewrite !andb_true_iff, !Z.eqb_eq. intuition.
Qed.

(** What [getReceivePower] computes after its two reads, from [cir],
    [N] and the mode. *)
Lemma getReceivePower_reads s :
  ranging_ok = true ->
  getReceivePower s
  = (let cir := cir_value s in
     let N := accumulator_count s in
     self <- get_self ;;
     let '(A, corrFac) :=
       if is_code (pulseFrequency (operationMode self)) (TX_PULSE_FREQ_16MHZ C)
       then (A_16MHZ C, CORRFAC_16MHZ C)
       else (A_64MHZ C, CORRFAC_64MHZ C) in
     let estRXPower := 0%float in
     q <- lift (py_truediv (py_float cir * py_float (TWOPOWER17 C))
                           (py_float N * py_float N)) ;;
     estRXPower <-
       (if (0 <? q)%float then
          q <- lift (py_truediv (py_float cir * py_float (TWOPOWER17 C))
                                (py_float N * py_float N)) ;;
          l <- lift (math_log10 q) ;;
          ret (PWR_COEFF2 C * l - A)%float
        else ret estRXPower) ;;
     if (estRXPower <=? - PWR_COEFF C)%float then ret estRXPower
     else ret (estRXPower + (estRXPower + PWR_COEFF C) * corrFac)%float)
      (power_read s).
Proof.
  intros Hok. destruct (ranging_ok_parts Hok) as (Ac & Af & _ & _).
  unfold getReceivePower.
  erewrite bind_Ok; cycle 1.
  { apply readRegister_spec; [exact Ac|].
    unfold Register.wf, Register.new. cbn. reflexivity. }
  erewrite bind_Ok; cycle 1.
  { apply readRegister_spec; [exact Af|].
    unfold Register.wf, Register.new. cbn. reflexivity. }
  rewrite add_log_add_log, cs_add_log, log_add_log.
  cbn [address subaddress size data Register.new with_data].
  fold (cir_read s). fold (finfo_read s). fold (power_read s).
  unfold Register.get. rewrite !data_with_data.
  erewrite bind_Ok; cycle 1.
  { apply lift_Success. apply (getitem_Z _ 0 0).
    unfold cir_read. rewrite repeat_answer_length. lia. }
  erewrite bind_Ok; cycle 1.
  { apply lift_Success. apply (getitem_Z _ 1 0).
    unfold cir_read. rewrite repeat_answer_length. lia. }
  erewrite bind_Ok; cycle 1.
  { apply lift_Success. apply (getitem_Z _ 2 0).
    unfold finfo_read. rewrite repeat_answer_length. lia. }
  erewrite bind_Ok; cycle 1.
  { apply lift_Success. apply (getitem_Z _ 3 0).
    unfold finfo_read. rewrite repeat_answer_length. lia. }
  reflexivity.
Qed.

(** C1, as amended. In every register state in which the CIR-power
    field reads zero while the count [N] is not zero, the estimate
    before correction is 0 and [getReceivePower] returns the value the
    correction makes of it: 0 itself when 0 <= -PWR_COEFF, and
    otherwise 0 + (0 + PWR_COEFF) * corrFac, for the correction factor
    of the pulse frequency. *)
Theorem getReceivePower_zero_cir s :
  ranging_ok = true ->
  cir_value s = 0 ->
  accumulator_count s <> 0 ->
  getReceivePower s
  = Ok (if (0 <=? - PWR_COEFF C)%float then 0%float
        else (0 + (0 + PWR_COEFF C) * corrFac_of s)%float)
       (power_read s).
Proof.
  intros Hok Hcir HN.
  destruct (ranging_ok_parts Hok) as (_ & _ & H17 & Hmask).
  rewrite (getReceivePower_reads s Hok). cbv zeta.
  rewrite Hcir, H17.
  unfold accumulator_count in *. rewrite Hmask in *.
  destruct (zero_power_guard (nth 2 (finfo_read s) 0) (nth 3 (finfo_read s) 0))
    as (q & Eq & Hq).
  - apply read_answer_byte. lia.
  - apply read_answer_byte. lia.
  - exact HN.
  - unfold bind at 1, get_self at 1.
    unfold corrFac_of. unfold power_read at 1 3. cbn [operationMode add_log set_log].
    destruct (is_code (pulseFrequency (operationMode s)) (TX_PULSE_FREQ_16MHZ C));
      rewrite (bind_Ok _ _ _ _ _ (lift_Success _ _ _ Eq)), Hq;
      unfold bind, ret;
      destruct (0 <=? - PWR_COEFF C)%float; reflexivity.
Qed.

Lemma interpolation_check_all : check_from interpolation_check 0 262144 = true.
Proof. vm_compute. reflexivity. Qed.

(** Interpolating between two restored entries with fractional part
    zero, of either sign, gives the low one. *)
Lemma interpolation_at_zero eL eH (sL sH : bool) :
  0 <= eL < 256 -> 0 <= eH < 256 ->
  let L := Z.shiftl (if sL then - eL else eL) 1 in
  let H := Z.shiftl (if sH then - eH else eH) 1 in
  (py_float L + 0 * py_float (H - L) =? py_float L)%float = true /\
  (py_float L + (-0) * py_float (H - L) =? py_float L)%float = true.
Proof.
  intros HL HH.
  pose (z := eL + 256 * eH + 65536 * (if sL then 1 else 0)
             + 131072 * (if sH then 1 else 0)).
  assert (Hz : 0 <= z < 0 + 262144) by (unfold z; destruct sL, sH; lia).
  pose proof (check_from_sound _ _ _ interpolation_check_all z Hz) as K.
  unfold interpolation_check in K.
  assert (E1 : z mod 256 = eL).
  { unfold z. destruct sL, sH; Z.div_mod_to_equations; lia. }
  assert (E2 : (z / 256) mod 256 = eH).
  { unfold z. destruct sL, sH; Z.div_mod_to_equations; lia. }
  assert (E3 : ((z / 65536) mod 2 =? 1) = sL).
  { unfold z. destruct sL, sH;
      (apply Z.eqb_eq || apply Z.eqb_neq); Z.div_mod_to_equations; lia. }
  assert (E4 : (z / 131072 =? 1) = sH).
  { unfold z. destruct sL, sH;
      (apply Z.eqb_eq || apply Z.eqb_neq); Z.div_mod_to_equations; lia. }
  rewrite E1, E2, E3, E4 in K. apply andb_prop in K. exact K.
Qed.

Lemma bracket_clamped x f :
  math_floor x = Success f ->
  exists low high,
    bracket x = Success (low, high) /\
    0 <= low <= 17 /\ 0 <= high <= 17 /\
    (0 <= f <= 16 -> low = f /\ high = f + 1) /\
    (f < 0 -> low = 0 /\ high = 0) /\
    (17 <= f -> low = 17 /\ high = 17).
Proof.
  intros H. unfold bracket. rewrite H. cbn [res_bind].
  destruct (Z.ltb_spec f 0).
  - exists 0, 0. repeat split; lia.
  - destruct (Z.gtb_spec (f + 1) 17).
    + exists 17, 17. repeat split; lia.
    + exists f, (f + 1). repeat split; lia.
Qed.

Lemma boundary_cases k :
  0 <= k <= 17 ->
  In k [0; 1; 2; 3; 4; 5; 6; 7; 8; 9; 10; 11; 12; 13; 14; 15; 16; 17].
Proof. intros H. cbn [In]. lia. Qed.

Lemma bracket_at_integer k :
  0 <= k <= 17 ->
  bracket (py_float k) = Success (k, Z.min (k + 1) 17) /\
  (py_float k - py_float k)%float = 0%float.
Proof.
  intros H. apply boundary_cases in H. cbn [In] in H.
  repeat (destruct H as [<-|H]; [split; vm_compute; reflexivity|]).
  contradiction.
Qed.

(** Equality of floats, Python's [==], with a finite number other than
    zero is identity, and all zeros are equal to zero. *)
Lemma SFeqb_finite f sg m e :
  SFeqb f (S754_finite sg m e) = true -> f = S754_finite sg m e.
Proof.
  unfold SFeqb, SFcompare.
  destruct f as [s'|s'| |s' m' e']; try discriminate.
  - destruct sg; discriminate.
  - destruct s'; discriminate.
  - destruct s', sg; try discriminate.
    + destruct (Z.compare_spec e' e) as [->|?|?]; try discriminate.
      destruct (Pos.compare_cont Eq m' m) eqn:E; cbn; try discriminate.
      apply Pos.compare_eq in E. now subst.
    + destruct (Z.compare_spec e' e) as [->|?|?]; try discriminate.
      destruct (Pos.compare_cont Eq m' m) eqn:E; try discriminate.
      apply Pos.compare_eq in E. now subst.
Qed.

Lemma SFeqb_zero f sg :
  SFeqb f (S754_zero sg) = true -> exists s', f = S754_zero s'.
Proof.
  unfold SFeqb, SFcompare.
  destruct f as [s'|s'| |s' m' e']; try discriminate.
  - now exists s'.
  - destruct s'; discriminate.
  - destruct s'; discriminate.
Qed.

(** An index that equals an integer of the range is that integer as a
    float, or the negative zero. *)
Lemma index_at_integer x k :
  0 <= k <= 17 -> (x =? py_float k)%float = true ->
  x = py_float k \/ (k = 0 /\ x = (-0)%float).
Proof.
  intros Hk H. rewrite FloatAxioms.eqb_spec in H.
  apply boundary_cases in Hk. cbn [In] in Hk.
  destruct Hk as [<-|Hk].
  - apply SFeqb_zero in H. destruct H as ([|] & E).
    + right. split; [reflexivity|]. apply Prim2SF_inj. rewrite E. reflexivity.
    + left. apply Prim2SF_inj. rewrite E. reflexivity.
  - left. apply Prim2SF_inj.
    repeat (destruct Hk as [<-|Hk]; [exact (SFeqb_finite _ _ _ _ H)|]).
    contradiction.
Qed.

Lemma rangeBias_of_table self x low high table zero :
  bias_table self = Some (table, zero) ->
  rangeBias_of self x low high
  = (p <-- bias_pair table zero low high;
     Success (py_float (snd p)
              + (x - py_float low) * py_float (fst p - snd p))%float)%res.
Proof.
  unfold bias_table, rangeBias_of.
  repeat match goal with
         | |- context [if ?b then _ else _] => destruct b
         end;
    intros E; inversion E; subst;
    destruct (bias_pair _ _ low high) as [[? ?]|]; reflexivity.
Qed.

Lemma bias_entry_restored table zero i :
  0 <= i < Z.of_nat (Datatypes.length table) ->
  bias_entry table zero i = Success (restored_bias table zero i).
Proof.
  intros H. unfold bias_entry, restored_bias.
  rewrite (getitem_Z _ _ 0 H). now destruct (i <? zero).
Qed.

Lemma restored_bias_shape table zero i :
  Forall (fun e => 0 <= e < 256) table ->
  0 <= i < Z.of_nat (Datatypes.length table) ->
  exists e (sg : bool),
    0 <= e < 256 /\
    restored_bias table zero i = Z.shiftl (if sg then - e else e) 1.
Proof.
  intros F H. unfold restored_bias.
  assert (B : 0 <= nth (Z.to_nat i) table 0 < 256).
  { rewrite Forall_forall in F. apply F. apply nth_In. lia. }
  exists (nth (Z.to_nat i) table 0), (i <? zero). split; [exact B|reflexivity].
Qed.

(** C8. In [correctTimestamp] the bracket bounds, the floor of the
    index and its successor, are always clamped into [0, 17]: both
    become 0 below, both 17 above, and they are the floor and the
    floor plus one in between.  And for every receive power whose index
    [rxPowerBase] equals an integer [k] of [0, 17] (as floats: the
    power -61 gives the negative zero, which equals 0), the lower bound
    is [k] and the interpolated range bias equals the entry [k] of the
    table of the mode, sign restored and shifted left by one; a call in
    which [getReceivePower] returns that power returns the raw
    timestamp plus that bias times the two constants. *)
Theorem correctTimestamp_at_bracket_boundary s1 t power k table zero :
  (rxPowerBase_of power =? py_float k)%float = true ->
  0 <= k <= 17 ->
  bias_table s1 = Some (table, zero) ->
  Datatypes.length table = 18%nat ->
  Forall (fun e => 0 <= e < 256) table ->
  (forall x f,
      math_floor x = Success f ->
      exists low high,
        bracket x = Success (low, high) /\
        0 <= low <= 17 /\ 0 <= high <= 17 /\
        (0 <= f <= 16 -> low = f /\ high = f + 1) /\
        (f < 0 -> low = 0 /\ high = 0) /\
        (17 <= f -> low = 17 /\ high = 17)) /\
  (exists high rangeBias,
      bracket (rxPowerBase_of power) = Success (k, high) /\
      rangeBias_of s1 (rxPowerBase_of power) k high = Success rangeBias /\
      (rangeBias =? py_float (restored_bias table zero k))%float = true /\
      forall s,
        getReceivePower s = Ok power s1 ->
        correctTimestamp t s
        = Ok (py_float t
              + rangeBias * DISTANCE_OF_RADIO_INV C * ADJUSTMENT_TIME_FACTOR C)%float
             s1).
Proof.
  intros Hx Hk Ht Hlen Hent.
  split; [exact bracket_clamped|].
  destruct (bracket_at_integer k Hk) as (Hb & Hsub).
  assert (Hhigh : 0 <= Z.min (k + 1) 17 < Z.of_nat (Datatypes.length table))
    by (rewrite Hlen; lia).
  assert (Hlow : 0 <= k < Z.of_nat (Datatypes.length table))
    by (rewrite Hlen; lia).
  destruct (restored_bias_shape table zero k Hent Hlow) as (eL & sL & BL & EL).
  destruct (restored_bias_shape table zero _ Hent Hhigh) as (eH & sH & BH & EH).
  pose proof (interpolation_at_zero eL eH sL sH BL BH) as Hi. cbv zeta in Hi.
  rewrite <- EL, <- EH in Hi. destruct Hi as (Hi & Hi').
  assert (Hd : exists d,
             bracket (rxPowerBase_of power) = Success (k, Z.min (k + 1) 17) /\
             (rxPowerBase_of power - py_float k)%float = d /\
             (d = 0%float \/ d = (-0)%float)).
  { destruct (index_at_integer _ _ Hk Hx) as [E|(-> & E)]; rewrite E.
    - exists 0%float. rewrite Hsub. auto.
    - exists (-0)%float.
      split; [vm_compute; reflexivity|split; [vm_compute; reflexivity|auto]]. }
  destruct Hd as (d & Hbr & Hfrac & Hd).
  assert (Hr : rangeBias_of s1 (rxPowerBase_of power) k (Z.min (k + 1) 17)
               = Success (py_float (restored_bias table zero k)
                          + d * py_float (restored_bias table zero (Z.min (k + 1) 17)
                                          - restored_bias table zero k))%float).
  { rewrite (rangeBias_of_table _ _ _ _ _ _ Ht). unfold bias_pair.
    rewrite (bias_entry_restored _ _ _ Hhigh), (bias_entry_restored _ _ _ Hlow).
    cbn [res_bind fst snd]. rewrite Hfrac. reflexivity. }
  eexists. eexists. split; [|split; [|split]].
  - exact Hbr.
  - exact Hr.
  - destruct Hd as [->| ->]; assumption.
  - intros s Hp. unfold correctTimestamp.
    rewrite (bind_Ok _ _ _ _ _ Hp).
    fold (rxPowerBase_of power).
    erewrite bind_Ok; cycle 1.
    { apply lift_Success. exact Hbr. }
    unfold bind at 1, get_self at 1. cbn [fst snd].
    rewrite (bind_Ok _ _ _ _ _ (lift_Success _ _ _ Hr)).
    reflexivity.
Qed.

(** *** The sequence number *)

Lemma keeps_ret {A} (a : A) : keeps (ret a).
Proof. intros s. cbn. split; [reflexivity|exists []; now rewrite app_nil_r]. Qed.

Lemma keeps_lift {A} (r : res A) : keeps (lift r).
Proof.
  intros s. unfold lift.
  destruct r; cbn; (split; [reflexivity|exists []; now rewrite app_nil_r]).
Qed.

Lemma keeps_the {A} (f : DW1000 -> A) : keeps (the f).
Proof. intros s. cbn. split; [reflexivity|exists []; now rewrite app_nil_r]. Qed.

Lemma keeps_get_self : keeps get_self.
Proof. intros s. cbn. split; [reflexivity|exists []; now rewrite app_nil_r]. Qed.

Lemma keeps_bind {A B} (m : M A) (k : A -> M B) :
  keeps m -> (forall a, keeps (k a)) -> keeps (bind m k).
Proof.
  intros Hm Hk s. unfold bind.
  destruct (Hm s) as (E1 & evs1 & L1).
  destruct (m s) as [a s1|e s1]; cbn [final] in *.
  - destruct (Hk a s1) as (E2 & evs2 & L2).
    split; [congruence|].
    exists (evs1 ++ evs2). rewrite L2, L1. now rewrite app_assoc.
  - split; [exact E1|]. exists evs1. exact L1.
Qed.

Lemma keeps_if {A} (b : bool) (m1 m2 : M A) :
  keeps m1 -> keeps m2 -> keeps (if b then m1 else m2).
Proof. now destruct b. Qed.

Lemma keeps_GPIO_set pin high : keeps (GPIO_set pin high).
Proof. intros s. cbn. split; [reflexivity|eauto]. Qed.

Lemma keeps_spi_xfer b : keeps (spi_xfer b).
Proof. intros s. cbn. split; [reflexivity|eauto]. Qed.

Lemma keeps_disableInterrupt : keeps disableInterrupt.
Proof. intros s. cbn. split; [reflexivity|eauto]. Qed.

Create HintDb keeping.
#[local] Hint Resolve keeps_ret keeps_lift keeps_the keeps_get_self
  keeps_GPIO_set keeps_spi_xfer keeps_disableInterrupt : keeping.

Ltac keeping :=
  repeat first
    [ progress intros
    | apply keeps_bind
    | apply keeps_if
    | solve [auto with keeping]
    | match goal with
      | |- keeps (match ?x with _ => _ end) => destruct x
      | |- keeps (let (_, _) := ?x in _) => destruct x
      end ].

Lemma keeps_xfer_header header k : forall i, keeps (xfer_header header i k).
Proof. induction k as [|k IH]; intros i; cbn [xfer_header]; keeping. Qed.

Lemma keeps_write_loop d k : forall i, keeps (write_loop d i k).
Proof. induction k as [|k IH]; intros i; cbn [write_loop]; keeping. Qed.

Lemma keeps_read_loop k : forall d i, keeps (read_loop d i k).
Proof. induction k as [|k IH]; intros d i; cbn [read_loop]; keeping. Qed.

#[local] Hint Resolve keeps_xfer_header keeps_write_loop keeps_read_loop : keeping.

Lemma keeps_readBytes cmd offset d n : keeps (readBytes cmd offset d n).
Proof. unfold readBytes. keeping. Qed.

Lemma keeps_writeBytes cmd offset d n : keeps (writeBytes cmd offset d n).
Proof. unfold writeBytes. keeping. Qed.

#[local] Hint Resolve keeps_readBytes keeps_writeBytes : keeping.

Lemma keeps_readRegister r : keeps (readRegister r).
Proof. unfold readRegister. keeping. Qed.

Lemma keeps_writeRegister r : keeps (writeRegister r).
Proof. unfold writeRegister. keeping. Qed.

#[local] Hint Resolve keeps_readRegister keeps_writeRegister : keeping.

Lemma register_attribute_sysctrl : register_attribute self_sysctrl.
Proof. intros s r. split; reflexivity. Qed.
Lemma register_attribute_sysmask : register_attribute self_sysmask.
Proof. intros s r. split; reflexivity. Qed.
Lemma register_attribute_sysstatus : register_attribute self_sysstatus.
Proof. intros s r. split; reflexivity. Qed.
Lemma register_attribute_txfctrl : register_attribute self_txfctrl.
Proof. intros s r. split; reflexivity. Qed.

#[local] Hint Resolve register_attribute_sysctrl register_attribute_sysmask
  register_attribute_sysstatus register_attribute_txfctrl : keeping.

Lemma keeps_call a f : register_attribute a -> keeps (call a f).
Proof.
  intros Ha s. unfold call.
  destruct (f (fetch a s)); cbn [final].
  - destruct (Ha s a0) as (-> & ->). split; [reflexivity|].
    exists []. now rewrite app_nil_r.
  - split; [reflexivity|]. exists []. now rewrite app_nil_r.
Qed.

Lemma keeps_store a r :
  register_attribute a -> keeps (modify (fun s => store a s r)).
Proof.
  intros Ha s. cbn. destruct (Ha s r) as (-> & ->).
  split; [reflexivity|]. exists []. now rewrite app_nil_r.
Qed.

#[local] Hint Resolve keeps_call keeps_store : keeping.

Lemma keeps_readRegister_self a :
  register_attribute a -> keeps (readRegister_self a).
Proof. intros Ha. unfold readRegister_self. keeping. Qed.

Lemma keeps_writeRegister_self a : keeps (writeRegister_self a).
Proof. unfold writeRegister_self. keeping. Qed.

#[local] Hint Resolve keeps_readRegister_self keeps_writeRegister_self : keeping.

Lemma keeps_toggleHSRBP : keeps toggleHSRBP.
Proof. unfold toggleHSRBP. keeping. Qed.
#[local] Hint Resolve keeps_toggleHSRBP : keeping.

Lemma keeps_syncHSRBP : keeps syncHSRBP.
Proof. unfold syncHSRBP. keeping. Qed.

Lemma keeps_clearStatus bits : keeps (clearStatus bits).
Proof. unfold clearStatus. keeping. Qed.
#[local] Hint Resolve keeps_syncHSRBP keeps_clearStatus : keeping.

Lemma keeps_forceTRxOff : keeps forceTRxOff.
Proof. unfold forceTRxOff. keeping. Qed.

Lemma keeps_idle : keeps idle.
Proof. unfold idle. keeping. Qed.
#[local] Hint Resolve keeps_forceTRxOff keeps_idle : keeping.

Lemma keeps_readBytesOTP address d : keeps (readBytesOTP address d).
Proof. unfold readBytesOTP. keeping. Qed.
#[local] Hint Resolve keeps_readBytesOTP : keeping.

Lemma keeps_tune : keeps tune.
Proof. unfold tune. keeping. Qed.

Lemma keeps_getReceivePower : keeps getReceivePower.
Proof. unfold getReceivePower. keeping. Qed.
#[local] Hint Resolve keeps_tune keeps_getReceivePower : keeping.

Lemma keeps_correctTimestamp t : keeps (correctTimestamp t).
Proof. unfold correctTimestamp. keeping. Qed.

Lemma keeps_clearTransmitStatus : keeps clearTransmitStatus.
Proof. unfold clearTransmitStatus. keeping. Qed.
#[local] Hint Resolve keeps_correctTimestamp keeps_clearTransmitStatus : keeping.

Lemma keeps_newTransmit : keeps newTransmit.
Proof. unfold newTransmit. keeping. Qed.

Lemma keeps_startTransmit w : keeps (startTransmit w).
Proof. unfold startTransmit. keeping. Qed.

Lemma keeps_setData d n : keeps (setData d n).
Proof. unfold setData. keeping. Qed.

Lemma keeps_setDelay d u m : keeps (setDelay d u m).
Proof. unfold setDelay. keeping. Qed.

#[local] Hint Resolve keeps_newTransmit keeps_startTransmit keeps_setData
  keeps_setDelay : keeping.

Lemma bumps_bind {A} (m : M A) (k : A -> M unit) :
  keeps m -> (forall a, bumps (k a)) -> bumps (bind m k).
Proof.
  intros Hm Hk s. unfold bind.
  destruct (Hm s) as (E1 & _).
  destruct (m s) as [a s1|e s1]; cbn [final] in E1.
  - specialize (Hk a s1). destruct (k a s1); congruence.
  - exact E1.
Qed.

Lemma extends_bind {A B} (m : M A) (k : A -> M B) :
  keeps m -> (forall a, extends (k a)) -> extends (bind m k).
Proof.
  intros Hm Hk s. unfold bind.
  destruct (Hm s) as (_ & evs1 & L1).
  destruct (m s) as [a s1|e s1]; cbn [final] in *.
  - destruct (Hk a s1) as (evs2 & L2).
    exists (evs1 ++ evs2). rewrite L2, L1. now rewrite app_assoc.
  - exists evs1. exact L1.
Qed.

Lemma bumps_sendMessage dstAddr dstPAN payload ackReq wait4resp delay :
  bumps (sendMessage dstAddr dstPAN payload ackReq wait4resp delay).
Proof.
  unfold sendMessage.
  do 6 (apply bumps_bind; [solve [keeping]|intros]).
  intros s. reflexivity.
Qed.

Lemma extends_sendMessage dstAddr dstPAN payload ackReq wait4resp delay :
  extends (sendMessage dstAddr dstPAN payload ackReq wait4resp delay).
Proof.
  unfold sendMessage.
  do 6 (apply extends_bind; [solve [keeping]|intros]).
  intros s. exists []. cbn. now rewrite app_nil_r.
Qed.

(** *** Methods that return *)

Lemma safe_ret {A} (a : A) : safe (ret a).
Proof. intros s H. exists a, s. split; [reflexivity|exact H]. Qed.

Lemma safe_the {A} (f : DW1000 -> A) : safe (the f).
Proof. intros s H. exists (f s), s. split; [reflexivity|exact H]. Qed.

Lemma safe_bind {A B} (m : M A) (k : A -> M B) :
  safe m -> (forall a, safe (k a)) -> safe (bind m k).
Proof.
  intros Hm Hk s H.
  destruct (Hm s H) as (a & s1 & E1 & H1).
  destruct (Hk a s1 H1) as (b & s2 & E2 & H2).
  exists b, s2. split; [|exact H2].
  unfold bind. now rewrite E1.
Qed.

Lemma wf_self_add_log s evs : wf_self s -> wf_self (add_log s evs).
Proof. intros H. exact H. Qed.

Lemma safe_writeBytes cmd offset d n :
  addressable cmd offset = true -> (n <= Datatypes.length d)%nat ->
  safe (writeBytes cmd offset d n).
Proof.
  intros Ha Hn s H. eexists. eexists.
  split; [apply writeBytes_spec; assumption|exact H].
Qed.

Lemma safe_readBytes cmd offset d n :
  addressable cmd offset = true -> (n <= Datatypes.length d)%nat ->
  safe (readBytes cmd offset d n).
Proof.
  intros Ha Hn s H. eexists. eexists.
  split; [apply readBytes_spec; assumption|exact H].
Qed.

Lemma safe_call_sysctrl f :
  (forall r, shaped r (SYS_CTRL C) (NO_SUB C) 4 ->
             exists r', f r = Success r' /\ shaped r' (SYS_CTRL C) (NO_SUB C) 4) ->
  safe (call self_sysctrl f).
Proof.
  intros Hf s (Hc & Hm & Hs & Ht).
  destruct (Hf _ Hc) as (r' & E & H').
  exists tt, (set_sysctrl s r'). split.
  - now apply call_ok.
  - exact (conj H' (conj Hm (conj Hs Ht))).
Qed.

Lemma safe_call_txfctrl f :
  (forall r, shaped r (TX_FCTRL C) (NO_SUB C) 5 ->
             exists r', f r = Success r' /\ shaped r' (TX_FCTRL C) (NO_SUB C) 5) ->
  safe (call self_txfctrl f).
Proof.
  intros Hf s (Hc & Hm & Hs & Ht).
  destruct (Hf _ Ht) as (r' & E & H').
  exists tt, (set_txfctrl s r'). split.
  - now apply call_ok.
  - exact (conj Hc (conj Hm (conj Hs H'))).
Qed.

Lemma setBit_shaped r addr sub n i v :
  shaped r addr sub n -> in_range (8 * Z.of_nat n) i = true ->
  exists r', setBit r i v = Success r' /\ shaped r' addr sub n.
Proof.
  intros Hr Hi. eexists. split.
  - apply setBit_ok; [eapply shaped_wf; eauto|eapply shaped_in_bits; eauto].
  - apply shaped_with_data; [exact Hr|].
    rewrite set_bit_in_length. apply Hr.
Qed.

Lemma set_shaped r addr sub n i v :
  shaped r addr sub n -> 0 <= i < Z.of_nat n ->
  exists r', Register.set r i v = Success r' /\ shaped r' addr sub n.
Proof.
  intros Hr Hi. unfold Register.set.
  assert (L : Datatypes.length (data r) = n) by apply Hr.
  rewrite setitem_Z by (rewrite L; exact Hi). cbn [res_bind].
  eexists. split; [reflexivity|].
  apply shaped_with_data; [exact Hr|]. now rewrite replace_nth_length.
Qed.

Lemma update_shaped r addr sub n i (g : Z -> Z) :
  shaped r addr sub n -> 0 <= i < Z.of_nat n ->
  exists r',
    (v <-- Register.get r i; Register.set r i (g v))%res = Success r' /\
    shaped r' addr sub n.
Proof.
  intros Hr Hi. unfold Register.get.
  assert (L : Datatypes.length (data r) = n) by apply Hr.
  rewrite (getitem_Z _ _ 0) by (rewrite L; exact Hi). cbn [res_bind].
  now apply set_shaped.
Qed.

Lemma safe_writeRegister_sysctrl :
  addressable (SYS_CTRL C) (NO_SUB C) = true ->
  safe (writeRegister_self self_sysctrl).
Proof.
  intros Ha s H. pose proof H as ((Ca & Cs & Cz & Cl) & _).
  eexists. eexists. split; [|apply wf_self_add_log; exact H].
  apply writeRegister_self_spec.
  - cbn [fetch self_sysctrl]. now rewrite Ca, Cs.
  - cbn [fetch self_sysctrl]. unfold Register.wf. congruence.
Qed.

Lemma safe_writeRegister_txfctrl :
  addressable (TX_FCTRL C) (NO_SUB C) = true ->
  safe (writeRegister_self self_txfctrl).
Proof.
  intros Ha s H. pose proof H as (_ & _ & _ & (Ta & Ts & Tz & Tl)).
  eexists. eexists. split; [|apply wf_self_add_log; exact H].
  apply writeRegister_self_spec.
  - cbn [fetch self_txfctrl]. now rewrite Ta, Ts.
  - cbn [fetch self_txfctrl]. unfold Register.wf. congruence.
Qed.

Lemma transmit_ok_parts :
  transmit_ok = true ->
  addressable (TX_BUFFER C) (NO_SUB C) = true /\
  addressable (TX_FCTRL C) (NO_SUB C) = true /\
  forallb (in_range 40) transmit_bits = true /\
  in_range 32 (TXSTRT_BIT C) = true.
Proof.
  unfold transmit_ok. rewrite !andb_true_iff. intuition.
Qed.

Lemma wf_self_idled s : wf_self s -> wf_self (idled s).
Proof.
  intros ((Ca & Cs & Cz & Cl) & Hm & Hs & Ht).
  unfold wf_self, idled, shaped in *. fields. lengths. intuition.
Qed.

Lemma wf_self_status_cleared s bits :
  wf_self s -> wf_self (status_cleared s bits).
Proof.
  intros (Hc & Hm & (Sa & Ss & Sz & Sl) & Ht).
  unfold wf_self, status_cleared, shaped in *. fields. lengths. intuition.
Qed.

Lemma wf_self_clear_sysctrl s :
  wf_self s -> wf_self (set_sysctrl s (Register.clear (sysctrl s))).
Proof.
  intros ((Ca & Cs & Cz & Cl) & Hm & Hs & Ht).
  unfold wf_self, shaped in *. fields. lengths. intuition.
Qed.

Lemma newTransmit_spec s :
  wf_self s -> controller_ok = true -> transmit_ok = true ->
  newTransmit s = Ok tt (transmit_ready s).
Proof.
  intros Hwf Hok Htx.
  destruct (controller_ok_parts Hok) as (_ & _ & As & _).
  destruct (transmit_ok_parts Htx) as (_ & _ & Bt & _).
  unfold newTransmit.
  rewrite (bind_Ok _ _ _ _ _ (idle_spec s Hwf Hok)).
  erewrite bind_Ok; cycle 1.
  { apply call_ok. reflexivity. }
  unfold clearTransmitStatus. fold transmit_bits.
  apply clearStatus_spec.
  - apply wf_self_clear_sysctrl, wf_self_idled, Hwf.
  - exact As.
  - exact Bt.
Qed.

Lemma wf_self_transmit_ready s : wf_self s -> wf_self (transmit_ready s).
Proof.
  intros H. unfold transmit_ready.
  apply wf_self_status_cleared, wf_self_clear_sysctrl, wf_self_idled, H.
Qed.

Lemma safe_startTransmit w :
  controller_ok = true -> transmit_ok = true -> safe (startTransmit w).
Proof.
  intros Hok Htx.
  destruct (controller_ok_parts Hok) as (Ac & _ & _ & _ & _ & _ & Bw & _).
  destruct (transmit_ok_parts Htx) as (_ & At & _ & Bs).
  unfold startTransmit.
  apply safe_bind; [now apply safe_writeRegister_txfctrl|intros _].
  apply safe_bind; [|intros _].
  { apply safe_call_sysctrl. intros r Hr. now apply setBit_shaped. }
  apply safe_bind; [|intros _].
  { apply safe_call_sysctrl. intros r Hr. now apply setBit_shaped. }
  now apply safe_writeRegister_sysctrl.
Qed.

Lemma safe_staging n :
  safe (call self_txfctrl (fun r =>
          Register.set r 0 (Z.land n (MASK_LS_BYTE C))) ;;
        call self_txfctrl (fun r =>
          (v <-- Register.get r 1;
           Register.set r 1 (Z.land v (SET_DATA_MASK1 C)))%res) ;;
        call self_txfctrl (fun r =>
          (v <-- Register.get r 1;
           Register.set r 1
             (Z.lor v (Z.land (Z.shiftr n 8) (SET_DATA_MASK2 C))))%res)).
Proof.
  apply safe_bind; [|intros _].
  { apply safe_call_txfctrl. intros r Hr. apply set_shaped; [exact Hr|lia]. }
  apply safe_bind; [|intros _].
  { apply safe_call_txfctrl. intros r Hr.
    apply (update_shaped r _ _ _ 1 (fun v => Z.land v (SET_DATA_MASK1 C)));
      [exact Hr|lia]. }
  apply safe_call_txfctrl. intros r Hr.
  apply (update_shaped r _ _ _ 1
           (fun v => Z.lor v (Z.land (Z.shiftr n 8) (SET_DATA_MASK2 C))));
    [exact Hr|lia].
Qed.

Lemma bind_assoc {A B D} (m : M A) (f : A -> M B) (g : B -> M D) s :
  bind (bind m f) g s = bind m (fun a => bind (f a) g) s.
Proof. unfold bind. now destruct (m s). Qed.

Lemma safe_setData d :
  transmit_ok = true -> safe (setData d (Datatypes.length d)).
Proof.
  intros Htx. destruct (transmit_ok_parts Htx) as (Ab & _).
  unfold setData.
  apply safe_bind; [now apply safe_writeBytes|intros _].
  intros s H.
  destruct (safe_readBytes (TX_BUFFER C) (NO_SUB C) d (Datatypes.length d)
              Ab (le_n _) s H) as (d' & s1 & E1 & H1).
  rewrite (bind_Ok _ _ _ _ _ E1).
  destruct (safe_staging (Z.of_nat (Datatypes.length d) + 2) s1 H1)
    as (u & s2 & E2 & H2).
  exists d', s2. split; [|exact H2].
  unfold bind in E2 |- *.
  destruct (call _ _ s1) as [? x1|]; [|discriminate].
  destruct (call _ _ x1) as [? x2|]; [|discriminate].
  destruct (call _ _ x2) as [? x3|]; [|discriminate].
  inversion E2. reflexivity.
Qed.

(** The frame [setData] sends first, whatever follows. *)
Lemma setData_frame d (g : list Z -> M unit) s :
  transmit_ok = true -> (forall a, extends (g a)) ->
  exists evs,
    log (final (bind (setData d (Datatypes.length d)) g s))
    = log s ++ write_frame (cs s) (TX_BUFFER C) (NO_SUB C) d ++ evs.
Proof.
  intros Htx Hg. destruct (transmit_ok_parts Htx) as (Ab & _).
  unfold setData. rewrite bind_assoc.
  rewrite (bind_Ok _ _ _ _ _
             (writeBytes_spec _ _ d (Datatypes.length d) s Ab (le_n _))).
  rewrite firstn_all.
  match goal with
  | |- context [final (bind ?m g ?x)] =>
      assert (E : extends (bind m g))
  end.
  { apply extends_bind; [keeping|exact Hg]. }
  destruct (E (add_log s (write_frame (cs s) (TX_BUFFER C) (NO_SUB C) d)))
    as (evs & L).
  exists evs. rewrite L, log_add_log. now rewrite <- app_assoc.
Qed.

Lemma mod_256_range n : 0 <= n mod 256 < 256.
Proof. apply Z.mod_pos_bound. lia. Qed.

Lemma register_attribute_rxfinfo : register_attribute self_rxfinfo.
Proof. intros s r. split; reflexivity. Qed.
Lemma register_attribute_pmscctrl0 : register_attribute self_pmscctrl0.
Proof. intros s r. split; reflexivity. Qed.
Lemma register_attribute_panadr : register_attribute self_panadr.
Proof. intros s r. split; reflexivity. Qed.
Lemma register_attribute_eui : register_attribute self_eui.
Proof. intros s r. split; reflexivity. Qed.
Lemma register_attribute_syscfg : register_attribute self_syscfg.
Proof. intros s r. split; reflexivity. Qed.

#[local] Hint Resolve register_attribute_rxfinfo register_attribute_pmscctrl0
  register_attribute_panadr register_attribute_eui register_attribute_syscfg
  : keeping.

Lemma keeps_set_dblbuffon b : keeps (modify (fun s => set_dblbuffon s b)).
Proof. intros s. cbn. split; [reflexivity|exists []; now rewrite app_nil_r]. Qed.
#[local] Hint Resolve keeps_set_dblbuffon : keeping.

Lemma keeps_getTransmitTimestamp : keeps getTransmitTimestamp.
Proof. unfold getTransmitTimestamp. keeping. Qed.

Lemma keeps_getFirstPathPower : keeps getFirstPathPower.
Proof. unfold getFirstPathPower. keeping. Qed.

Lemma keeps_getReceiveQuality : keeps getReceiveQuality.
Proof. unfold getReceiveQuality. keeping. Qed.

Lemma keeps_getReceiveFrameLength : keeps getReceiveFrameLength.
Proof. unfold getReceiveFrameLength. keeping. Qed.

Lemma keeps_getData n : keeps (getData n).
Proof. unfold getData. keeping. Qed.
#[local] Hint Resolve keeps_getReceiveFrameLength keeps_getData : keeping.

Lemma keeps_getMessage : keeps getMessage.
Proof. unfold getMessage. keeping. Qed.

Lemma keeps_getDataStr : keeps getDataStr.
Proof. unfold getDataStr. keeping. Qed.

Lemma keeps_setDataStr d : keeps (setDataStr d).
Proof. unfold setDataStr. keeping. Qed.

Lemma keeps_enableClock clock : keeps (enableClock clock).
Proof. unfold enableClock. keeping. Qed.

Lemma keeps_setDeviceAddress v : keeps (setDeviceAddress v).
Proof. unfold setDeviceAddress. keeping. Qed.

Lemma keeps_setNetworkId v : keeps (setNetworkId v).
Proof. unfold setNetworkId. keeping. Qed.

Lemma keeps_setEUI_loop a k : forall i, keeps (setEUI_loop a i k).
Proof. induction k as [|k IH]; intros i; cbn [setEUI_loop]; keeping. Qed.
#[local] Hint Resolve keeps_setEUI_loop : keeping.

Lemma keeps_setEUI a : keeps (setEUI a).
Proof. unfold setEUI. keeping. Qed.

Lemma keeps_enableDoubleBuffer : keeps enableDoubleBuffer.
Proof. unfold enableDoubleBuffer. keeping. Qed.

Lemma keeps_disableDoubleBuffer : keeps disableDoubleBuffer.
Proof. unfold disableDoubleBuffer. keeping. Qed.

#[local] Hint Resolve keeps_getTransmitTimestamp keeps_getFirstPathPower
  keeps_getReceiveQuality keeps_getMessage keeps_getDataStr keeps_setDataStr
  keeps_enableClock keeps_setDeviceAddress keeps_setNetworkId keeps_setEUI
  keeps_enableDoubleBuffer keeps_disableDoubleBuffer : keeping.

(** Every operation but [sendMessage] leaves the sequence number
    alone. *)
Lemma keeps_run o :
  (forall a p payload ack w d, o <> op_sendMessage a p payload ack w d) ->
  keeps (run o).
Proof.
  intros H. destruct o; cbn [run]; unfold discard;
    try solve [keeping]; try solve [auto with keeping].
  exfalso. eapply H. reflexivity.
Qed.

Lemma perform_seqNum_ok o s : seqNum_ok s -> seqNum_ok (perform o s).
Proof.
  unfold seqNum_ok, perform. intros H.
  destruct o;
    try (match goal with
         | |- context [run ?o s] =>
             rewrite (proj1 (keeps_run o ltac:(discriminate) s)); exact H
         end).
  cbn [run].
  match goal with
  | |- context [sendMessage ?a ?p ?payload ?ack ?w ?d s] =>
      pose proof (bumps_sendMessage a p payload ack w d s) as B;
      destruct (sendMessage a p payload ack w d s); cbn [final]; rewrite B
  end.
  - apply mod_256_range.
  - exact H.
Qed.

(** C10. The sequence number is always in [0, 256): the constructor
    sets it to an element of [range(0, 256)], whatever the generator
    supplies; every operation, that is every method embedded in the
    monad with any arguments, leaves the state with it in that range,
    whether it returns or raises; and [sendMessage] puts the current
    number into the header it encodes, stages the encoded header and the
    payload in the transmit buffer, and, when it returns, has replaced
    the number by its successor modulo 256 (a call that raises leaves
    it as it was).  A call without a delay returns. *)
Theorem sendMessage_seqNum dstAddr dstPAN payload ackReq wait4resp delay s :
  controller_ok = true -> transmit_ok = true ->
  wf_self s -> seqNum_ok s ->
  bytearray_of (message_of s dstAddr dstPAN payload ackReq)
  = Success (message_of s dstAddr dstPAN payload ackReq) ->
  let o := sendMessage dstAddr dstPAN payload ackReq wait4resp delay s in
  seqNumber (message_header s dstAddr dstPAN ackReq) = seqNum s /\
  (exists pre post,
      log (final o)
      = log s ++ pre
        ++ write_frame (cs s) (TX_BUFFER C) (NO_SUB C)
             (message_of s dstAddr dstPAN payload ackReq)
        ++ post) /\
  (forall s', o = Ok tt s' -> seqNum s' = (seqNum s + 1) mod 256) /\
  (forall e s', o = Raise e s' -> seqNum s' = seqNum s) /\
  (delay = None -> exists s', o = Ok tt s') /\
  seqNum_ok (final o) /\
  (forall cs rst irq entropy, seqNum_ok (__init__ cs rst irq entropy)) /\
  (forall (op : operation) x, seqNum_ok x -> seqNum_ok (perform op x)).
Proof.
  intros Hok Htx Hwf Hn Hb o.
  pose proof (bumps_sendMessage dstAddr dstPAN payload ackReq wait4resp delay s) as B.
  fold o in B.
  assert (Eo : o = (setData (message_of s dstAddr dstPAN payload ackReq)
                      (Datatypes.length (message_of s dstAddr dstPAN payload ackReq)) ;;
                    match delay with
                    | Some d =>
                        if (d =? 0)%float then ret tt
                        else (setDelay d (MICROSECONDS C) "tx"%string ;; ret tt)
                    | None => ret tt
                    end ;;
                    startTransmit wait4resp ;;
                    n <- the seqNum ;;
                    modify (fun s => set_seqNum s ((n + 1) mod 256)))
                     (transmit_ready s)).
  { unfold o, sendMessage. unfold bind at 1, get_self at 1.
    fold (message_of s dstAddr dstPAN payload ackReq).
    rewrite (bind_Ok _ _ _ _ _ (lift_Success _ _ _ Hb)).
    rewrite (bind_Ok _ _ _ _ _ (newTransmit_spec s Hwf Hok Htx)).
    reflexivity. }
  split; [reflexivity|].
  split.
  { rewrite Eo.
    destruct (setData_frame (message_of s dstAddr dstPAN payload ackReq)
                (fun _ =>
                   match delay with
                   | Some d =>
                       if (d =? 0)%float then ret tt
                       else (setDelay d (MICROSECONDS C) "tx"%string ;; ret tt)
                   | None => ret tt
                   end ;;
                   startTransmit wait4resp ;;
                   n <- the seqNum ;;
                   modify (fun s => set_seqNum s ((n + 1) mod 256)))
                (transmit_ready s) Htx) as (evs & L).
    - intros _.
      do 2 (apply extends_bind; [solve [keeping]|intros]).
      intros x. exists []. cbn. now rewrite app_nil_r.
    - exists (write_frame (cs s) (SYS_CTRL C) (NO_SUB C)
                (set_bit_in (repeat 0 4) (TRXOFF_BIT C) true)
              ++ write_frame (cs s) (SYS_STATUS C) (NO_SUB C)
                   (set_bits_in (repeat 0 5) transmit_bits true)), evs.
      rewrite L. unfold transmit_ready, status_cleared, idled. fields.
      rewrite <- !app_assoc. reflexivity. }
  split.
  { intros s' E. rewrite E in B. exact B. }
  split.
  { intros e s' E. rewrite E in B. exact B. }
  split.
  { intros ->. rewrite Eo.
    assert (S : safe (setData (message_of s dstAddr dstPAN payload ackReq)
                        (Datatypes.length (message_of s dstAddr dstPAN payload ackReq)) ;;
                      ret tt ;;
                      startTransmit wait4resp ;;
                      n <- the seqNum ;;
                      modify (fun s => set_seqNum s ((n + 1) mod 256)))).
    { apply safe_bind; [now apply safe_setData|intros _].
      apply safe_bind; [apply safe_ret|intros _].
      apply safe_bind; [now apply safe_startTransmit|intros _].
      apply safe_bind; [apply safe_the|intros n].
      intros x Hx. exists tt. eexists. split; [reflexivity|exact Hx]. }
    destruct (S (transmit_ready s) (wf_self_transmit_ready s Hwf))
      as ([] & s' & E & _).
    exists s'. exact E. }
  split.
  { unfold seqNum_ok. destruct o; cbn [final]; rewrite B.
    - apply mod_256_range.
    - exact Hn. }
  split.
  { intros pin_cs pin_rst pin_irq entropy.
    unfold seqNum_ok, __init__, randrange. cbn [seqNum].
    apply Z.mod_pos_bound. lia. }
  intros op x. apply perform_seqNum_ok.
Qed.

(** *** Transactions that go wrong *)

Lemma lift_Failure {A} (r : res A) e s : r = Failure e -> lift r s = Raise e s.
Proof. intros ->. reflexivity. Qed.

Lemma getitem_past {A} (l : list A) (i : nat) :
  (Datatypes.length l <= i)%nat -> getitem l (Z.of_nat i) = Failure IndexError.
Proof.
  intros H. unfold getitem.
  destruct (Z.ltb_spec (Z.of_nat i) 0); [reflexivity|].
  rewrite Nat2Z.id.
  destruct (nth_error l i) eqn:E; [|reflexivity].
  assert (nth_error l i <> None) by congruence.
  apply nth_error_Some in H1. lia.
Qed.

Lemma setitem_past {A} (l : list A) (i : nat) v :
  (Datatypes.length l <= i)%nat -> setitem l (Z.of_nat i) v = Failure IndexError.
Proof.
  intros H. unfold setitem.
  destruct (Z.ltb_spec (Z.of_nat i) (Z.of_nat (Datatypes.length l))); [lia|].
  now rewrite andb_false_r.
Qed.

Lemma read_loop_overrun : forall (k i : nat) (d : list Z) s,
  (i <= Datatypes.length d)%nat ->
  (Datatypes.length d < i + k)%nat ->
  read_loop d (Z.of_nat i) k s
  = Raise IndexError
      (add_log s (repeat (SPI_xfer (JUNK C)) (S (Datatypes.length d - i)))).
Proof.
  induction k as [|k IH]; intros i d s Hi Hk; [lia|].
  cbn [read_loop].
  unfold bind at 1. unfold spi_xfer at 1.
  fold (add_log s [SPI_xfer (JUNK C)]).
  destruct (Nat.eq_dec i (Datatypes.length d)) as [->|Hne].
  - rewrite (bind_Raise _ _ _ _ _ (lift_Failure _ _ _ (setitem_past d _ _ (le_n _)))).
    rewrite Nat.sub_diag. reflexivity.
  - rewrite (bind_Ok _ _ _ _ _
               (lift_Success _ _ _ (setitem_Z d (Z.of_nat i) _ ltac:(lia)))).
    replace (Z.of_nat i + 1) with (Z.of_nat (S i)) by lia.
    rewrite IH by (rewrite replace_nth_length; lia).
    rewrite add_log_add_log, replace_nth_length.
    replace (S (Datatypes.length d - i)) with (S (S (Datatypes.length d - S i))) by lia.
    reflexivity.
Qed.

Lemma write_loop_overrun (l : list Z) : forall (k i : nat) s,
  (i <= Datatypes.length l)%nat ->
  (Datatypes.length l < i + k)%nat ->
  write_loop l (Z.of_nat i) k s
  = Raise IndexError (add_log s (map SPI_xfer (skipn i l))).
Proof.
  induction k as [|k IH]; intros i s Hi Hk; [lia|].
  cbn [write_loop].
  destruct (Nat.eq_dec i (Datatypes.length l)) as [->|Hne].
  - rewrite (bind_Raise _ _ _ _ _ (lift_Failure _ _ _ (getitem_past l _ (le_n _)))).
    rewrite skipn_all. cbn [map]. unfold add_log, set_log.
    rewrite app_nil_r. now destruct s.
  - rewrite (bind_Ok _ _ _ _ _
               (lift_Success _ _ _ (getitem_nth l i 0 ltac:(lia)))).
    unfold bind at 1. unfold spi_xfer at 1.
    fold (add_log s [SPI_xfer (nth i l 0)]).
    replace (Z.of_nat i + 1) with (Z.of_nat (S i)) by lia.
    rewrite IH by lia.
    rewrite add_log_add_log. do 2 f_equal.
    clear -Hi Hne. revert i Hi Hne.
    induction l as [|h t IHl]; intros [|i] Hi Hne; cbn in *; try lia; auto.
    apply IHl; lia.
Qed.

(** [readBytes] into a buffer shorter than the count asked for raises
    [IndexError] in the middle of the transaction: the header and one
    junk byte more than the buffer holds have been clocked out, and chip
    select is still low. *)
Theorem readBytes_buffer_overrun cmd offset d n s :
  addressable cmd offset = true ->
  (Datatypes.length d < n)%nat ->
  readBytes cmd offset d n s
  = Raise IndexError
      (add_log s (GPIO_output (cs s) false
                  :: map SPI_xfer
                       (rd_hdr cmd offset
                        ++ repeat (JUNK C) (S (Datatypes.length d))))).
Proof.
  intros Ha Hn.
  destruct (addressable_read _ _ Ha) as (h & k & Eh & Ew & Hk).
  unfold readBytes.
  rewrite (bind_Ok _ _ _ _ _ (lift_Success _ _ _ Eh)).
  unfold bind at 1, get_self at 1.
  unfold bind at 1, GPIO_set at 1.
  fold (add_log s [GPIO_output (cs s) false]).
  cbn [fst snd].
  assert (Hk' : (0 + k <= Datatypes.length h)%nat) by lia.
  rewrite (bind_Ok _ _ _ _ _ (xfer_header_log h k 0 _ Hk')).
  rewrite add_log_add_log.
  rewrite (bind_Raise _ _ _ _ _
             (read_loop_overrun n 0 d _ (Nat.le_0_l _) ltac:(lia))).
  rewrite add_log_add_log, Nat.sub_0_r.
  rewrite Ew, map_app, map_repeat. cbn [skipn app].
  reflexivity.
Qed.

(** [writeBytes] from a buffer shorter than the count raises
    [IndexError] after the header and the whole buffer have been clocked
    out, with chip select still low. *)
Theorem writeBytes_buffer_overrun cmd offset d n s :
  addressable cmd offset = true ->
  (Datatypes.length d < n)%nat ->
  writeBytes cmd offset d n s
  = Raise IndexError
      (add_log s (GPIO_output (cs s) false
                  :: map SPI_xfer (wr_hdr cmd offset ++ d))).
Proof.
  intros Ha Hn.
  destruct (addressable_write _ _ Ha) as (h & k & Eh & Ew & Hk).
  unfold writeBytes.
  rewrite (bind_Ok _ _ _ _ _ (lift_Success _ _ _ Eh)).
  unfold bind at 1, get_self at 1.
  unfold bind at 1, GPIO_set at 1.
  fold (add_log s [GPIO_output (cs s) false]).
  cbn [fst snd].
  assert (Hk' : (0 + k <= Datatypes.length h)%nat) by lia.
  rewrite (bind_Ok _ _ _ _ _ (xfer_header_log h k 0 _ Hk')).
  rewrite add_log_add_log.
  rewrite (bind_Raise _ _ _ _ _
             (write_loop_overrun d n 0 _ (Nat.le_0_l _) ltac:(lia))).
  rewrite add_log_add_log.
  rewrite Ew, map_app. cbn [skipn app].
  reflexivity.
Qed.

(** A sub-address that does not fit the header, negative or from 2^15
    on, makes [readBytes] and [writeBytes] raise [ValueError] before
    they touch chip select or the port. *)
Theorem transaction_rejects_offset cmd offset d n s :
  wire_format_ok = true ->
  0 <= cmd < 64 ->
  offset <> NO_SUB C ->
  offset < 0 \/ 32768 <= offset ->
  readBytes cmd offset d n s = Raise ValueError s /\
  writeBytes cmd offset d n s = Raise ValueError s.
Proof.
  intros Hw Hc Hne Ho.
  destruct (wire_format_values Hw) as (_ & Hrs & _ & Hws & _).
  split.
  - unfold readBytes, readHeader.
    rewrite (bind_Raise _ _ _ _ _ (lift_Failure _ _ _
               (buildHeader_rejects (READ C) (READ_SUB C) cmd offset Hw Hc
                  ltac:(rewrite Hrs; cbn; tauto) Hne Ho))).
    reflexivity.
  - unfold writeBytes, writeHeader.
    rewrite (bind_Raise _ _ _ _ _ (lift_Failure _ _ _
               (buildHeader_rejects (WRITE C) (WRITE_SUB C) cmd offset Hw Hc
                  ltac:(rewrite Hws; cbn; tauto) Hne Ho))).
    reflexivity.
Qed.

(** *** Timestamps in byte arrays *)

Lemma byte_at v i : 0 <= i -> Z.land (Z.shiftr v (i * 8)) 255 = (v / 2 ^ (8 * i)) mod 256.
Proof.
  intros H. change 255 with (Z.ones 8).
  rewrite Z.land_ones, Z.shiftr_div_pow2 by lia.
  rewrite (Z.mul_comm i 8). reflexivity.
Qed.

Lemma lor_shift_add a b k :
  0 <= k -> 0 <= a < 2 ^ k -> Z.lor a (Z.shiftl b k) = a + b * 2 ^ k.
Proof.
  intros Hk Ha.
  assert (D : Z.land a (Z.shiftl b k) = 0).
  { apply Z.bits_inj'. intros n Hn.
    rewrite Z.land_spec, Z.bits_0.
    destruct (Z.lt_ge_cases n k) as [Hlt|Hge].
    - rewrite Z.shiftl_spec_low by lia. apply andb_false_r.
    - rewrite <- (Z.mod_small a (2 ^ k)) by lia.
      rewrite Z.mod_pow2_bits_high by lia. reflexivity. }
  rewrite <- Z.lxor_lor by exact D.
  rewrite <- Z.add_nocarry_lxor by exact D.
  now rewrite Z.shiftl_mul_pow2.
Qed.

Lemma lor_bytes5 b0 b1 b2 b3 b4 :
  0 <= b0 < 256 -> 0 <= b1 < 256 -> 0 <= b2 < 256 -> 0 <= b3 < 256 ->
  Z.lor (Z.lor (Z.lor (Z.lor (Z.lor 0 (Z.shiftl b0 (0 * 8))) (Z.shiftl b1 (1 * 8)))
                      (Z.shiftl b2 (2 * 8)))
               (Z.shiftl b3 (3 * 8)))
        (Z.shiftl b4 (4 * 8))
  = le_value [b0; b1; b2; b3; b4].
Proof.
  intros H0 H1 H2 H3.
  rewrite (lor_shift_add 0 b0) by lia.
  rewrite (lor_shift_add _ b1) by lia.
  rewrite (lor_shift_add _ b2) by lia.
  rewrite (lor_shift_add _ b3) by lia.
  rewrite (lor_shift_add _ b4) by lia.
  unfold le_value, fold_right. lia.
Qed.

Lemma le_value_le_bytes5 t : le_value (le_bytes 5 t) = t mod 2 ^ 40.
Proof.
  unfold le_value, le_bytes. cbn [seq map fold_right].
  change (8 * Z.of_nat 0) with 0. change (8 * Z.of_nat 1) with 8.
  change (8 * Z.of_nat 2) with 16. change (8 * Z.of_nat 3) with 24.
  change (8 * Z.of_nat 4) with 32.
  change (2 ^ 0) with 1. change (2 ^ 8) with 256.
  change (2 ^ 16) with 65536. change (2 ^ 24) with 16777216.
  change (2 ^ 32) with 4294967296. change (2 ^ 40) with 1099511627776.
  clear. Z.div_mod_to_equations. lia.
Qed.

Lemma le_bytes_byte k t : Forall (fun b => 0 <= b < 256) (le_bytes k t).
Proof.
  unfold le_bytes. apply Forall_map, Forall_forall.
  intros i _. apply Z.mod_pos_bound. lia.
Qed.

Lemma py_index_in n i :
  0 <= i < Z.of_nat n -> py_index n i = Success (Z.to_nat i).
Proof.
  intros H. unfold py_index.
  destruct (Z.ltb_spec i 0); [lia|].
  destruct (Z.leb_spec 0 i); [|lia].
  destruct (Z.ltb_spec i (Z.of_nat n)); [|lia].
  reflexivity.
Qed.

Lemma py_index_past n i :
  Z.of_nat n <= i -> py_index n i = Failure IndexError.
Proof.
  intros H. unfold py_index.
  destruct (Z.ltb_spec i 0); [lia|].
  destruct (Z.ltb_spec i (Z.of_nat n)); [lia|].
  now rewrite andb_false_r.
Qed.

Lemma replace_nth_app_r {A} (pre l : list A) j v :
  replace_nth (pre ++ l) (Datatypes.length pre + j) v = pre ++ replace_nth l j v.
Proof.
  induction pre as [|h t IH]; cbn; [reflexivity|].
  destruct l; cbn; now rewrite IH.
Qed.

Lemma py_setitem_app (pre l : list Z) i v :
  0 <= i < Z.of_nat (Datatypes.length l) ->
  py_setitem (pre ++ l) (i + Z.of_nat (Datatypes.length pre)) v
  = Success (pre ++ replace_nth l (Z.to_nat i) v).
Proof.
  intros H. unfold py_setitem.
  rewrite py_index_in by (rewrite length_app; lia).
  cbn [res_bind].
  replace (Z.to_nat (i + Z.of_nat (Datatypes.length pre)))
    with (Datatypes.length pre + Z.to_nat i)%nat by lia.
  now rewrite replace_nth_app_r.
Qed.

Lemma py_setitem_past (pre l : list Z) i v :
  Z.of_nat (Datatypes.length l) <= i ->
  py_setitem (pre ++ l) (i + Z.of_nat (Datatypes.length pre)) v
  = Failure IndexError.
Proof.
  intros H. unfold py_setitem.
  rewrite py_index_past by (rewrite length_app; lia).
  reflexivity.
Qed.

Lemma py_getitem_app (pre l : list Z) i :
  0 <= i < Z.of_nat (Datatypes.length l) ->
  py_getitem (pre ++ l) (i + Z.of_nat (Datatypes.length pre))
  = Success (nth (Z.to_nat i) l 0).
Proof.
  intros H. unfold py_getitem.
  rewrite py_index_in by (rewrite length_app; lia).
  cbn [res_bind].
  replace (Z.to_nat (i + Z.of_nat (Datatypes.length pre)))
    with (Datatypes.length pre + Z.to_nat i)%nat by lia.
  rewrite nth_error_app2 by lia.
  replace (Datatypes.length pre + Z.to_nat i - Datatypes.length pre)%nat
    with (Z.to_nat i) by lia.
  destruct (nth_error l (Z.to_nat i)) eqn:E.
  - now rewrite (nth_error_nth _ _ 0 E).
  - apply nth_error_None in E. lia.
Qed.

Lemma split_at {A} (l : list A) (n : nat) :
  (n <= Datatypes.length l)%nat ->
  l = firstn n l ++ skipn n l /\
  Datatypes.length (firstn n l) = n /\
  Datatypes.length (skipn n l) = (Datatypes.length l - n)%nat.
Proof.
  intros H. rewrite firstn_skipn, firstn_length_le, length_skipn by lia. auto.
Qed.

(** The timestamp loops, one step at a time. *)
Ltac stamp_numbers :=
  change (0 + 1 + 1 + 1 + 1) with 4 in *;
  change (0 + 1 + 1 + 1) with 3 in *;
  change (0 + 1 + 1) with 2 in *;
  change (0 + 1) with 1 in *;
  change (Z.to_nat 0) with 0%nat in *;
  change (Z.to_nat 1) with 1%nat in *;
  change (Z.to_nat 2) with 2%nat in *;
  change (Z.to_nat 3) with 3%nat in *;
  change (Z.to_nat 4) with 4%nat in *.

Ltac stamp :=
  cbn [setTimeStamp_loop getTimeStamp_loop res_bind];
  stamp_numbers;
  repeat (first
    [ rewrite py_setitem_app by (cbn [Datatypes.length]; lia)
    | rewrite py_getitem_app by (cbn [Datatypes.length]; lia)
    | rewrite py_setitem_past by (cbn [Datatypes.length]; lia) ];
    stamp_numbers;
    cbn [replace_nth nth res_bind]).

(** A timestamp written into an array by [setTimeStamp] where five bytes
    fit is read back by [getTimeStamp] modulo 2^40, whatever integer it
    was; the array keeps its other elements. *)
Theorem timestamp_round_trip data t index :
  MASK_LS_BYTE C = 255 ->
  0 <= index ->
  index + 5 <= Z.of_nat (Datatypes.length data) ->
  exists data',
    setTimeStamp data t index = (data', None) /\
    data' = firstn (Z.to_nat index) data ++ le_bytes 5 t
            ++ skipn (Z.to_nat index + 5) data /\
    getTimeStamp data' index = Success (t mod 2 ^ 40).
Proof.
  intros Hm Hi Hl.
  destruct (split_at data (Z.to_nat index) ltac:(lia)) as (E & Lp & Lr).
  assert (Es : skipn (Z.to_nat index + 5) data = skipn 5 (skipn (Z.to_nat index) data)).
  { rewrite skipn_skipn. f_equal. lia. }
  rewrite Es. clear Es.
  remember (firstn (Z.to_nat index) data) as pre eqn:Ep.
  assert (Ei : index = Z.of_nat (Datatypes.length pre)) by lia.
  destruct (skipn (Z.to_nat index) data) as [|d0 [|d1 [|d2 [|d3 [|d4 post]]]]];
    cbn [Datatypes.length] in Lr; try lia.
  rewrite E, Ei. clear E Ep.
  eexists. split; [|split].
  - unfold setTimeStamp. cbn [setTimeStamp_loop]. rewrite Hm.
    rewrite !byte_at by lia.
    stamp. reflexivity.
  - cbn [Nat.add skipn]. reflexivity.
  - unfold getTimeStamp. stamp.
    rewrite lor_bytes5 by (apply Z.mod_pos_bound; lia).
    f_equal. exact (le_value_le_bytes5 t).
Qed.

(** Where fewer than five bytes fit, both raise [IndexError], and
    [setTimeStamp] has by then overwritten the array up to its end. *)
Theorem setTimeStamp_overrun data t index :
  MASK_LS_BYTE C = 255 ->
  0 <= index ->
  Z.of_nat (Datatypes.length data) < index + 5 ->
  setTimeStamp data t index
  = (firstn (Z.to_nat index) data
     ++ le_bytes (Datatypes.length data - Z.to_nat index) t,
     Some IndexError) /\
  getTimeStamp data index = Failure IndexError.
Proof.
  intros Hm Hi Hl.
  destruct (Z.le_gt_cases index (Z.of_nat (Datatypes.length data))) as [Hle|Hgt].
  - destruct (split_at data (Z.to_nat index) ltac:(lia)) as (E & Lp & Lr).
    rewrite <- Lr.
    remember (firstn (Z.to_nat index) data) as pre eqn:Ep.
    assert (Ei : index = Z.of_nat (Datatypes.length pre)) by lia.
    destruct (skipn (Z.to_nat index) data) as [|d0 [|d1 [|d2 [|d3 [|d4 post]]]]];
      cbn [Datatypes.length] in Lr; try lia;
      rewrite E, Ei; clear E Ep;
      (split;
       [ unfold setTimeStamp; cbn [setTimeStamp_loop]; rewrite Hm;
         rewrite !byte_at by lia; stamp; reflexivity
       | unfold getTimeStamp; cbn [getTimeStamp_loop]; stamp;
         unfold py_getitem;
         rewrite py_index_past by (rewrite length_app; cbn [Datatypes.length]; lia);
         reflexivity ]).
  - replace (Datatypes.length data - Z.to_nat index)%nat with 0%nat by lia.
    rewrite firstn_all2 by lia. cbn [le_bytes seq map]. rewrite app_nil_r.
    unfold setTimeStamp, getTimeStamp.
    cbn [setTimeStamp_loop getTimeStamp_loop].
    unfold py_setitem, py_getitem.
    rewrite py_index_past by lia. split; reflexivity.
Qed.

(** *** Forty-bit registers *)

Lemma gather_le_value r :
  Datatypes.length (data r) = 5%nat ->
  Forall (fun b => 0 <= b < 256) (data r) ->
  gather r 0 5 0 = Success (le_value (data r)) /\
  0 <= le_value (data r) < 2 ^ 40.
Proof.
  intros L F. unfold Register.get, gather, Register.get.
  destruct (data r) as [|b0 [|b1 [|b2 [|b3 [|b4 [|? ?]]]]]]; try discriminate L.
  inversion F as [|? ? F0 F']; subst. inversion F' as [|? ? F1 F'']; subst.
  inversion F'' as [|? ? F2 F3']; subst. inversion F3' as [|? ? F3 F4']; subst.
  inversion F4' as [|? ? F4 _]; subst.
  stamp_numbers.
  rewrite !(getitem_Z _ _ 0) by (cbn [Datatypes.length]; lia).
  stamp_numbers. cbn [nth res_bind].
  split.
  - f_equal. apply lor_bytes5; assumption.
  - unfold le_value, fold_right. lia.
Qed.

(** [getTransmitTimestamp] reads the five bytes of the transmit stamp in
    one transaction and returns the number they stand for, lowest byte
    first: a value below 2^40. *)
Theorem getTransmitTimestamp_value s :
  addressable (TX_TIME C') (TX_STAMP_SUB C') = true ->
  getTransmitTimestamp s
  = Ok (le_value (tx_time_read s))
       (add_log s (read_frame (cs s) (TX_TIME C') (TX_STAMP_SUB C') 5)) /\
  0 <= le_value (tx_time_read s) < 2 ^ 40.
Proof.
  intros Ha.
  destruct (gather_le_value
              (with_data (Register.new (TX_TIME C') (TX_STAMP_SUB C') 5)
                 (tx_time_read s))) as (G & B).
  { rewrite data_with_data. apply repeat_answer_length. }
  { rewrite data_with_data. apply answers_bytes. }
  rewrite data_with_data in G, B.
  split; [|exact B].
  unfold getTransmitTimestamp.
  erewrite bind_Ok; cycle 1.
  { apply readRegister_spec; [exact Ha|].
    unfold Register.wf, Register.new. cbn. reflexivity. }
  cbn [address subaddress size Register.new].
  fold (tx_time_read s).
  now apply lift_Success.
Qed.

Lemma scatter5 r v :
  MASK_LS_BYTE C = 255 ->
  Datatypes.length (data r) = 5%nat ->
  scatter r v 0 5 = Success (with_data r (le_bytes 5 v)).
Proof.
  intros Hm L. unfold scatter, Register.set. rewrite Hm.
  destruct (data r) as [|b0 [|b1 [|b2 [|b3 [|b4 [|? ?]]]]]]; try discriminate L.
  stamp_numbers.
  rewrite !byte_at by lia.
  do 5 (rewrite setitem_Z by (cbn [Datatypes.length]; lia);
        stamp_numbers;
        cbn [res_bind data with_data replace_nth address subaddress size]).
  reflexivity.
Qed.

Lemma even_mask_check_all : check_from even_mask_check 0 256 = true.
Proof. vm_compute. reflexivity. Qed.

Lemma land_254 x : 0 <= x < 256 -> Z.land x 254 = x - x mod 2.
Proof.
  intros H.
  pose proof (check_from_sound _ _ _ even_mask_check_all x ltac:(lia)) as K.
  now apply Z.eqb_eq in K.
Qed.

Lemma delayed_time_bytes v :
  [0; Z.land ((v / 2 ^ (8 * 1)) mod 256) 254; (v / 2 ^ (8 * 2)) mod 256;
   (v / 2 ^ (8 * 3)) mod 256; (v / 2 ^ (8 * 4)) mod 256]
  = le_bytes 5 (v mod 2 ^ 40 - (v mod 2 ^ 40) mod 512).
Proof.
  rewrite land_254 by (apply Z.mod_pos_bound; lia).
  unfold le_bytes. cbn [seq map].
  change (8 * Z.of_nat 0) with 0. change (8 * Z.of_nat 1) with 8.
  change (8 * Z.of_nat 2) with 16. change (8 * Z.of_nat 3) with 24.
  change (8 * Z.of_nat 4) with 32.
  change (8 * 1) with 8. change (8 * 2) with 16.
  change (8 * 3) with 24. change (8 * 4) with 32.
  change (2 ^ 0) with 1. change (2 ^ 8) with 256.
  change (2 ^ 16) with 65536. change (2 ^ 24) with 16777216.
  change (2 ^ 32) with 4294967296. change (2 ^ 40) with 1099511627776.
  clear.
  repeat (apply (f_equal2 (@cons Z)); [Z.div_mod_to_equations; lia|]).
  reflexivity.
Qed.

Lemma delay_ok_parts :
  delay_ok = true ->
  MASK_LS_BYTE C = 255 /\ SET_DELAY_MASK C = 254 /\
  addressable (SYS_TIME C) (NO_SUB C) = true /\
  addressable (DX_TIME C) (NO_SUB C) = true /\
  in_range 32 (TXDLYS_BIT C) = true /\ in_range 32 (RXDLYE_BIT C) = true.
Proof.
  unfold delay_ok. rewrite !andb_true_iff, !Z.eqb_eq. intuition.
Qed.

(** The first statement of [setDelay]: a bit of the control attribute,
    or nothing for an unknown mode; the bus is not used. *)
Lemma setDelay_mode mode s :
  wf_self s ->
  in_range 32 (TXDLYS_BIT C) = true -> in_range 32 (RXDLYE_BIT C) = true ->
  exists s1,
    (if String.eqb (lower mode) "tx"%string then
       call self_sysctrl (fun r => setBit r (TXDLYS_BIT C) true)
     else if String.eqb (lower mode) "rx"%string then
       call self_sysctrl (fun r => setBit r (RXDLYE_BIT C) true)
     else ret tt) s = Ok tt s1 /\
    log s1 = log s /\ cs s1 = cs s /\
    (delay_bit mode = None -> s1 = s).
Proof.
  intros (Hc & _) Ht Hr. unfold delay_bit.
  destruct (String.eqb (lower mode) "tx"%string).
  - destruct (setBit_shaped _ _ _ 4 _ true Hc Ht) as (r' & E & _).
    exists (set_sysctrl s r'). split; [now apply call_ok|].
    repeat split. discriminate.
  - destruct (String.eqb (lower mode) "rx"%string).
    + destruct (setBit_shaped _ _ _ 4 _ true Hc Hr) as (r' & E & _).
      exists (set_sysctrl s r'). split; [now apply call_ok|].
      repeat split. discriminate.
    + exists s. repeat split.
Qed.

Lemma delayed_time_range now ticks :
  0 <= delayed_time now ticks < 2 ^ 40 /\ delayed_time now ticks mod 512 = 0.
Proof.
  unfold delayed_time.
  change (2 ^ 40) with 1099511627776.
  clear. split; Z.div_mod_to_equations; lia.
Qed.

(** [setDelay] reads the system time, adds the delay in ticks and
    programs the sum, taken modulo 2^40 with its nine low bits cleared,
    as the time of the delayed operation; it returns that time plus the
    antenna delay.  A mode string that is neither of the two known ones
    changes no attribute, and the delay is programmed all the same. *)
Theorem setDelay_programs delay unit mode ticks s :
  delay_ok = true ->
  wf_self s ->
  py_int (delay * unit * TIME_RES_INV C)%float = Success ticks ->
  let time := delayed_time (le_value (sys_time_read s)) ticks in
  exists s',
    setDelay delay unit mode s = Ok (time + ANTENNA_DELAY C) s' /\
    log s' = log s
             ++ read_frame (cs s) (SYS_TIME C) (NO_SUB C) 5
             ++ write_frame (cs s) (DX_TIME C) (NO_SUB C) (le_bytes 5 time) /\
    (delay_bit mode = None -> sysctrl s' = sysctrl s) /\
    0 <= time < 2 ^ 40 /\ time mod 512 = 0.
Proof.
  intros Hok Hwf Hticks time.
  destruct (delay_ok_parts Hok) as (Hm & Hd & As & Ad & Ht & Hr).
  destruct (setDelay_mode mode s Hwf Ht Hr) as (s1 & E1 & L1 & C1 & U1).
  destruct (gather_le_value
              (with_data (Register.new (SYS_TIME C) (NO_SUB C) 5)
                 (sys_time_read s))) as (G & _).
  { rewrite data_with_data. apply repeat_answer_length. }
  { rewrite data_with_data. apply answers_bytes. }
  rewrite data_with_data in G.
  destruct (gather_le_value
              (with_data (clear (Register.new (DX_TIME C) (NO_SUB C) 5))
                 (le_bytes 5 time))) as (G' & _).
  { reflexivity. }
  { rewrite data_with_data. apply le_bytes_byte. }
  rewrite data_with_data in G'.
  destruct (delayed_time_range (le_value (sys_time_read s)) ticks) as (R1 & R2).
  fold time in R1, R2.
  assert (V : le_value (le_bytes 5 time) = time).
  { rewrite le_value_le_bytes5. apply Z.mod_small. exact R1. }
  eexists. split; [|split; [|split; [|split; [exact R1|exact R2]]]].
  - unfold setDelay.
    rewrite (bind_Ok _ _ _ _ _ E1).
    erewrite bind_Ok; cycle 1.
    { apply readRegister_spec; [exact As|].
      unfold Register.wf, Register.new. cbn. reflexivity. }
    cbn [address subaddress size Register.new].
    rewrite L1, C1. fold (sys_time_read s).
    rewrite (bind_Ok _ _ _ _ _ (lift_Success _ _ _ G)).
    rewrite (bind_Ok _ _ _ _ _ (lift_Success _ _ _ Hticks)).
    cbv zeta.
    rewrite (bind_Ok _ _ _ _ _ (lift_Success _ _ _
               (scatter5 (clear (Register.new (DX_TIME C) (NO_SUB C) 5)) _
                  Hm eq_refl))).
    unfold Register.set at 1, Register.get at 1, Register.set at 1.
    cbn [data with_data le_bytes seq map].
    rewrite !(setitem_Z _ _ _) by (cbn [Datatypes.length]; lia).
    stamp_numbers. cbn [res_bind replace_nth data with_data].
    rewrite (bind_Ok _ _ _ _ _ (lift_Success _ _ _ eq_refl)).
    unfold Register.get, Register.set. cbn [data with_data].
    rewrite !(getitem_Z _ _ 0) by (cbn [Datatypes.length]; lia).
    stamp_numbers. cbn [res_bind nth].
    rewrite !(setitem_Z _ _ _) by (cbn [Datatypes.length]; lia).
    stamp_numbers. cbn [res_bind replace_nth data with_data].
    rewrite (bind_Ok _ _ _ _ _ (lift_Success _ _ _ eq_refl)).
    rewrite Hd.
    change (8 * Z.of_nat 1) with (8 * 1). change (8 * Z.of_nat 2) with (8 * 2).
    change (8 * Z.of_nat 3) with (8 * 3). change (8 * Z.of_nat 4) with (8 * 4).
    rewrite (delayed_time_bytes (le_value (sys_time_read s) + ticks)).
    fold (delayed_time (le_value (sys_time_read s)) ticks). fold time.
    erewrite bind_Ok; cycle 1.
    { apply writeRegister_spec; [exact Ad|]. reflexivity. }
    cbn [address subaddress size data with_data clear Register.new].
    rewrite (bind_Ok _ _ _ _ _ (lift_Success _ _ _ G')).
    unfold ret. rewrite V. reflexivity.
  - rewrite !log_add_log, !cs_add_log, L1, C1.
    now rewrite <- app_assoc.
  - intros Hn. cbn. now rewrite (U1 Hn).
Qed.


(** *** Diagnostics that cannot be computed *)

(** With a count [N] of zero [getReceivePower] divides by zero. *)
Theorem getReceivePower_zero_count s :
  ranging_ok = true ->
  accumulator_count s = 0 ->
  getReceivePower s = Raise ZeroDivisionError (power_read s).
Proof.
  intros Hok HN.
  rewrite (getReceivePower_reads s Hok). cbv zeta.
  rewrite HN.
  unfold bind at 1, get_self at 1.
  destruct (is_code (pulseFrequency (operationMode (power_read s)))
              (TX_PULSE_FREQ_16MHZ C));
    apply bind_Raise; apply lift_Failure; unfold py_truediv;
    replace (py_float 0 * py_float 0 =? 0)%float with true
      by (vm_compute; reflexivity);
    reflexivity.
Qed.

Lemma first_path_ok_parts :
  first_path_ok = true ->
  addressable (RX_TIME C') (FP_AMPL1_SUB C') = true /\
  addressable (RX_FQUAL C) (FP_AMPL2_SUB C') = true /\
  addressable (RX_FQUAL C) (PP_AMPL3_SUB C') = true /\
  addressable (RX_FINFO C) (NO_SUB C) = true /\
  MASK_LS_BYTE C = 255.
Proof.
  unfold first_path_ok. rewrite !andb_true_iff, !Z.eqb_eq. intuition.
Qed.

Lemma new_wf addr sub n : Register.wf (Register.new addr sub n).
Proof. unfold Register.wf, Register.new. cbn. apply repeat_length. Qed.

(** What [getFirstPathPower] computes after its four reads. *)
Lemma getFirstPathPower_reads s :
  first_path_ok = true ->
  getFirstPathPower s
  = (let f1 := field16 (ampl1_read s) in
     let f2 := field16 (ampl2_read s) in
     let f3 := field16 (ampl3_read s) in
     let N := first_path_count s in
     self <- get_self ;;
     let '(A, corrFac) :=
       if is_code (pulseFrequency (operationMode self)) (TX_PULSE_FREQ_16MHZ C)
       then (A_16MHZ C, CORRFAC_16MHZ C)
       else (A_64MHZ C, CORRFAC_64MHZ C) in
     q <- lift (int_truediv (f1 * f1 + f2 * f2 + f3 * f3) (N * N)) ;;
     l <- lift (math_log10 q) ;;
     let estFPPower := (PWR_COEFF2 C * l - A)%float in
     if (estFPPower <=? - PWR_COEFF C)%float then ret estFPPower
     else ret (estFPPower + (estFPPower + PWR_COEFF C) * corrFac)%float)
      (first_path_read s).
Proof.
  intros Hok. destruct (first_path_ok_parts Hok) as (A1 & A2 & A3 & A4 & _).
  unfold getFirstPathPower.
  erewrite bind_Ok; cycle 1.
  { apply readRegister_spec; [exact A1|apply new_wf]. }
  erewrite bind_Ok; cycle 1.
  { apply readRegister_spec; [exact A2|apply new_wf]. }
  erewrite bind_Ok; cycle 1.
  { apply readRegister_spec; [exact A3|apply new_wf]. }
  erewrite bind_Ok; cycle 1.
  { apply readRegister_spec; [exact A4|apply new_wf]. }
  rewrite !add_log_add_log, !cs_add_log, !log_add_log.
  cbn [address subaddress size data Register.new with_data].
  rewrite <- !app_assoc.
  fold (ampl1_frame s). fold (ampl2_frame s). fold (ampl3_frame s).
  fold (finfo_frame s).
  fold (ampl1_read s). fold (ampl2_read s). fold (ampl3_read s).
  fold (first_path_finfo_read s). fold (first_path_read s).
  unfold Register.get. rewrite !data_with_data.
  erewrite bind_Ok; cycle 1.
  { apply lift_Success. apply (getitem_Z _ 0 0).
    unfold ampl1_read. rewrite repeat_answer_length. lia. }
  erewrite bind_Ok; cycle 1.
  { apply lift_Success. apply (getitem_Z _ 1 0).
    unfold ampl1_read. rewrite repeat_answer_length. lia. }
  erewrite bind_Ok; cycle 1.
  { apply lift_Success. apply (getitem_Z _ 0 0).
    unfold ampl2_read. rewrite repeat_answer_length. lia. }
  erewrite bind_Ok; cycle 1.
  { apply lift_Success. apply (getitem_Z _ 1 0).
    unfold ampl2_read. rewrite repeat_answer_length. lia. }
  erewrite bind_Ok; cycle 1.
  { apply lift_Success. apply (getitem_Z _ 0 0).
    unfold ampl3_read. rewrite repeat_answer_length. lia. }
  erewrite bind_Ok; cycle 1.
  { apply lift_Success. apply (getitem_Z _ 1 0).
    unfold ampl3_read. rewrite repeat_answer_length. lia. }
  erewrite bind_Ok; cycle 1.
  { apply lift_Success. apply (getitem_Z _ 2 0).
    unfold first_path_finfo_read. rewrite repeat_answer_length. lia. }
  erewrite bind_Ok; cycle 1.
  { apply lift_Success. apply (getitem_Z _ 3 0).
    unfold first_path_finfo_read. rewrite repeat_answer_length. lia. }
  reflexivity.
Qed.

Lemma first_path_zero_check_all : check_from first_path_zero_check 0 65536 = true.
Proof. vm_compute. reflexivity. Qed.

Lemma first_path_zero_guard r2 r3 :
  0 <= r2 < 256 -> 0 <= r3 < 256 ->
  let N := Z.lor (Z.land (Z.shiftr r2 4) 255) (Z.shiftl r3 4) in
  N <> 0 ->
  math_log10 (py_float 0 / py_float (N * N))%float = Failure ValueError.
Proof.
  intros H2 H3 N HN.
  pose proof (check_from_sound _ _ _ first_path_zero_check_all (r2 + 256 * r3)
                ltac:(lia)) as H.
  unfold first_path_zero_check in H.
  replace ((r2 + 256 * r3) mod 256) with r2 in H
    by (apply (Z.mod_unique_pos _ 256 r3); lia).
  replace ((r2 + 256 * r3) / 256) with r3 in H
    by (apply (Z.div_unique_pos _ 256 r3 r2); lia).
  cbv zeta in H. fold N in H.
  apply orb_true_iff in H. destruct H as [H|H].
  - apply Z.eqb_eq in H. contradiction.
  - apply andb_true_iff in H. destruct H as [Hp Hn].
    apply negb_true_iff in Hp, Hn.
    unfold math_log10. now rewrite Hp, Hn.
Qed.

(** [getFirstPathPower] has no guard: with a count [N] of zero it
    divides by zero, and with the three amplitudes reading zero it asks
    for the logarithm of zero, a [ValueError]; either way after its four
    reads. *)
Theorem getFirstPathPower_unguarded s :
  first_path_ok = true ->
  (first_path_count s = 0 ->
   getFirstPathPower s = Raise ZeroDivisionError (first_path_read s)) /\
  (first_path_count s <> 0 ->
   field16 (ampl1_read s) = 0 -> field16 (ampl2_read s) = 0 ->
   field16 (ampl3_read s) = 0 ->
   getFirstPathPower s = Raise ValueError (first_path_read s)).
Proof.
  intros Hok. destruct (first_path_ok_parts Hok) as (_ & _ & _ & _ & Hm).
  rewrite (getFirstPathPower_reads s Hok). cbv zeta.
  split.
  - intros HN. rewrite HN.
    unfold bind at 1, get_self at 1.
    destruct (is_code _ _); apply bind_Raise; apply lift_Failure; reflexivity.
  - intros HN H1 H2 H3. rewrite H1, H2, H3.
    unfold bind at 1, get_self at 1.
    unfold first_path_count in *. rewrite Hm in *.
    pose proof (first_path_zero_guard
                  (nth 2 (first_path_finfo_read s) 0)
                  (nth 3 (first_path_finfo_read s) 0)
                  ltac:(apply read_answer_byte; lia)
                  ltac:(apply read_answer_byte; lia) HN) as G.
    cbv zeta in G.
    set (N := Z.lor (Z.land (Z.shiftr (nth 2 (first_path_finfo_read s) 0) 4) 255)
                    (Z.shiftl (nth 3 (first_path_finfo_read s) 0) 4)) in *.
    assert (Q : int_truediv (0 * 0 + 0 * 0 + 0 * 0) (N * N)
                = Success (py_float 0 / py_float (N * N))%float).
    { unfold int_truediv.
      destruct (Z.eqb_spec (N * N) 0) as [E|E]; [|reflexivity].
      apply Z.mul_eq_0 in E. tauto. }
    destruct (is_code _ _);
      rewrite (bind_Ok _ _ _ _ _ (lift_Success _ _ _ Q));
      apply bind_Raise; apply lift_Failure; exact G.
Qed.

Lemma field16_range h pin cmd offset :
  0 <= field16 (read_answer h pin cmd offset 2) < 65536.
Proof.
  unfold field16.
  pose proof (read_answer_byte h pin cmd offset 2 0 ltac:(lia)) as H0.
  pose proof (read_answer_byte h pin cmd offset 2 1 ltac:(lia)) as H1.
  rewrite lor_shift_add by lia. lia.
Qed.

Lemma nonzero_float_check_all : check_from nonzero_float_check 1 65535 = true.
Proof. vm_compute. reflexivity. Qed.

(** [getReceiveQuality] returns the first-path amplitude divided by the
    noise figure, and divides by zero exactly when the noise figure
    reads zero; either way after its two reads. *)
Theorem getReceiveQuality_noise s :
  addressable (RX_FQUAL C) (STD_NOISE_SUB C') = true ->
  addressable (RX_FQUAL C) (FP_AMPL2_SUB C') = true ->
  (field16 (noise_read s) = 0 ->
   getReceiveQuality s = Raise ZeroDivisionError (quality_read s)) /\
  (field16 (noise_read s) <> 0 ->
   getReceiveQuality s
   = Ok (py_float (field16 (quality_ampl_read s))
         / py_float (field16 (noise_read s)))%float
        (quality_read s)).
Proof.
  intros An Aa.
  assert (E : getReceiveQuality s
              = lift (py_truediv (py_float (field16 (quality_ampl_read s)))
                                 (py_float (field16 (noise_read s))))
                  (quality_read s)).
  { unfold getReceiveQuality.
    erewrite bind_Ok; cycle 1.
    { apply readRegister_spec; [exact An|apply new_wf]. }
    erewrite bind_Ok; cycle 1.
    { apply readRegister_spec; [exact Aa|apply new_wf]. }
    rewrite !add_log_add_log, !cs_add_log, !log_add_log.
    cbn [address subaddress size data Register.new with_data].
    fold (noise_frame s). fold (ampl2_frame s).
    fold (noise_read s). fold (quality_ampl_read s). fold (quality_read s).
    unfold Register.get. rewrite !data_with_data.
    erewrite bind_Ok; cycle 1.
    { apply lift_Success. apply (getitem_Z _ 0 0).
      unfold noise_read. rewrite repeat_answer_length. lia. }
    erewrite bind_Ok; cycle 1.
    { apply lift_Success. apply (getitem_Z _ 1 0).
      unfold noise_read. rewrite repeat_answer_length. lia. }
    erewrite bind_Ok; cycle 1.
    { apply lift_Success. apply (getitem_Z _ 0 0).
      unfold quality_ampl_read. rewrite repeat_answer_length. lia. }
    erewrite bind_Ok; cycle 1.
    { apply lift_Success. apply (getitem_Z _ 1 0).
      unfold quality_ampl_read. rewrite repeat_answer_length. lia. }
    reflexivity. }
  rewrite E. unfold py_truediv. split.
  - intros ->. reflexivity.
  - intros Hn.
    pose proof (field16_range (log s) (cs s) (RX_FQUAL C) (STD_NOISE_SUB C')) as R.
    fold (noise_read s) in R.
    pose proof (check_from_sound _ _ _ nonzero_float_check_all
                  (field16 (noise_read s)) ltac:(lia)) as K.
    unfold nonzero_float_check in K. apply negb_true_iff in K.
    rewrite K. reflexivity.
Qed.

(** *** Received frames *)

Lemma bytearray_of_bytes l :
  Forall (fun b => 0 <= b < 256) l -> bytearray_of l = Success l.
Proof.
  intros F. unfold bytearray_of.
  replace (forallb _ l) with true; [reflexivity|].
  symmetry. apply forallb_forall. rewrite Forall_forall in F.
  intros x Hx. specialize (F x Hx).
  destruct (Z.leb_spec 0 x); [|lia].
  destruct (Z.ltb_spec x 256); [|lia]. reflexivity.
Qed.

Lemma read_answer_bytes h pin cmd offset n :
  Forall (fun b => 0 <= b < 256) (read_answer h pin cmd offset n).
Proof. unfold read_answer, read_result. apply answers_bytes. Qed.

Lemma length_check_all : check_from length_check 0 65536 = true.
Proof. vm_compute. reflexivity. Qed.

Lemma frame_length_range s : 0 <= frame_length s < 1024.
Proof.
  unfold frame_length.
  pose proof (read_answer_byte (log s) (cs s) (RX_FINFO C) (NO_SUB C) 4 0
                ltac:(lia)) as H0.
  pose proof (read_answer_byte (log s) (cs s) (RX_FINFO C) (NO_SUB C) 4 1
                ltac:(lia)) as H1.
  fold (frame_info_read s) in H0, H1.
  set (r0 := nth 0 (frame_info_read s) 0) in *.
  set (r1 := nth 1 (frame_info_read s) 0) in *.
  pose proof (check_from_sound _ _ _ length_check_all (r0 + 256 * r1)
                ltac:(lia)) as K.
  unfold length_check in K.
  replace ((r0 + 256 * r1) mod 256) with r0 in K
    by (apply (Z.mod_unique_pos _ 256 r1); lia).
  replace ((r0 + 256 * r1) / 256) with r1 in K
    by (apply (Z.div_unique_pos _ 256 r1 r0); lia).
  cbv zeta in K. apply andb_true_iff in K. destruct K as [K1 K2].
  apply Z.leb_le in K1. apply Z.ltb_lt in K2. lia.
Qed.

Lemma getData_spec n s :
  addressable (RX_BUFFER C') (NO_SUB C) = true ->
  0 <= n ->
  getData n s
  = Ok (read_answer (log s) (cs s) (RX_BUFFER C') (NO_SUB C) (Z.to_nat n))
       (add_log s (read_frame (cs s) (RX_BUFFER C') (NO_SUB C) (Z.to_nat n))).
Proof.
  intros Ha Hn. unfold getData, bytearray_new.
  destruct (Z.ltb_spec n 0); [lia|].
  rewrite (bind_Ok _ _ _ _ _ (lift_Success _ _ _ eq_refl)).
  rewrite readBytes_spec by (rewrite ?repeat_length; auto).
  rewrite skipn_all2 by (rewrite repeat_length; lia).
  now rewrite app_nil_r.
Qed.

Lemma getData_negative n s : n < 0 -> getData n s = Raise ValueError s.
Proof.
  intros Hn. unfold getData, bytearray_new.
  destruct (Z.ltb_spec n 0); [|lia]. reflexivity.
Qed.

(** [getMessage] never raises: it reads the frame information, then as
    many bytes of the receive buffer as the ten-bit frame length says
    (the two check bytes included), and returns them. *)
Theorem getMessage_length s :
  shaped (rxfinfo s) (RX_FINFO C) (NO_SUB C) 4 ->
  addressable (RX_FINFO C) (NO_SUB C) = true ->
  addressable (RX_BUFFER C') (NO_SUB C) = true ->
  let n := Z.to_nat (frame_length s) in
  0 <= frame_length s < 1024 /\
  Datatypes.length (buffer_read s n) = n /\
  exists s',
    getMessage s = Ok (buffer_read s n) s' /\
    log s' = log s
             ++ read_frame (cs s) (RX_FINFO C) (NO_SUB C) 4
             ++ read_frame (cs s) (RX_BUFFER C') (NO_SUB C) n /\
    data (rxfinfo s') = frame_info_read s.
Proof.
  intros Hr Af Ab n.
  pose proof (frame_length_range s) as R.
  split; [exact R|]. split; [apply repeat_answer_length|].
  destruct Hr as (Ha & Hs & Hz & Hl).
  eexists. split; [|split].
  - unfold getMessage, getReceiveFrameLength.
    rewrite !bind_assoc.
    erewrite bind_Ok; cycle 1.
    { apply readRegister_self_spec.
      - cbn [fetch self_rxfinfo]. rewrite Ha, Hs. exact Af.
      - cbn [fetch self_rxfinfo]. unfold Register.wf. now rewrite Hl, Hz.
      - reflexivity. }
    cbn [fetch store self_rxfinfo]. rewrite Ha, Hs, Hz.
    fold (frame_info_read s).
    rewrite !bind_assoc.
    unfold bind at 1, the at 1. cbn [rxfinfo set_rxfinfo].
    unfold Register.get. rewrite !data_with_data.
    rewrite !bind_assoc.
    erewrite bind_Ok; cycle 1.
    { apply lift_Success. apply (getitem_Z _ 1 0).
      unfold frame_info_read. rewrite repeat_answer_length. lia. }
    rewrite !bind_assoc.
    erewrite bind_Ok; cycle 1.
    { apply lift_Success. apply (getitem_Z _ 0 0).
      unfold frame_info_read. rewrite repeat_answer_length. lia. }
    unfold bind at 1, ret at 1.
    change (Z.to_nat 1) with 1%nat. change (Z.to_nat 0) with 0%nat.
    fold (frame_length s).
    erewrite bind_Ok; cycle 1.
    { apply getData_spec; [exact Ab|lia]. }
    apply lift_Success. apply bytearray_of_bytes. apply read_answer_bytes.
  - cbn. now rewrite <- app_assoc.
  - reflexivity.
Qed.

Lemma string_of_list_ascii_length l :
  String.length (string_of_list_ascii l) = Datatypes.length l.
Proof. induction l as [|c l IH]; cbn; congruence. Qed.

(** [getDataStr] takes the frame length less the two check bytes.  A
    frame whose length field reads 0 or 1 makes that negative, and the
    call raises [ValueError] after reading the frame information, the
    receive buffer untouched; otherwise it returns that many characters. *)
Theorem getDataStr_length s :
  addressable (RX_FINFO C) (NO_SUB C) = true ->
  addressable (RX_BUFFER C') (NO_SUB C) = true ->
  (text_length s < 0 ->
   getDataStr s
   = Raise ValueError (add_log s (read_frame (cs s) (RX_FINFO C) (NO_SUB C) 4))) /\
  (0 <= text_length s ->
   getDataStr s
   = Ok (string_of_list_ascii
           (map chr (buffer_read s (Z.to_nat (text_length s)))))
        (add_log s (read_frame (cs s) (RX_FINFO C) (NO_SUB C) 4
                    ++ read_frame (cs s) (RX_BUFFER C') (NO_SUB C)
                         (Z.to_nat (text_length s)))) /\
   String.length (string_of_list_ascii
                    (map chr (buffer_read s (Z.to_nat (text_length s)))))
   = Z.to_nat (text_length s)).
Proof.
  intros Af Ab.
  assert (E : getDataStr s
              = (dataBytes <- getData (text_length s) ;;
                 ret (string_of_list_ascii (map chr dataBytes)))
                  (add_log s (read_frame (cs s) (RX_FINFO C) (NO_SUB C) 4))).
  { unfold getDataStr.
    erewrite bind_Ok; cycle 1.
    { apply readRegister_spec; [exact Af|apply new_wf]. }
    cbn [address subaddress size data Register.new with_data].
    fold (frame_info_read s).
    unfold Register.get. rewrite !data_with_data.
    erewrite bind_Ok; cycle 1.
    { apply lift_Success. apply (getitem_Z _ 1 0).
      unfold frame_info_read. rewrite repeat_answer_length. lia. }
    erewrite bind_Ok; cycle 1.
    { apply lift_Success. apply (getitem_Z _ 0 0).
      unfold frame_info_read. rewrite repeat_answer_length. lia. }
    reflexivity. }
  rewrite E. split.
  - intros Hn. apply bind_Raise. now apply getData_negative.
  - intros Hn. split.
    + erewrite bind_Ok; cycle 1.
      { apply getData_spec; [exact Ab|exact Hn]. }
      unfold ret. rewrite add_log_add_log. reflexivity.
    + rewrite string_of_list_ascii_length, length_map.
      apply repeat_answer_length.
Qed.

(** *** Text to send *)

Lemma skipn_nth_cons {A} (l : list A) i d :
  (i < Datatypes.length l)%nat -> skipn i l = nth i l d :: skipn (S i) l.
Proof.
  revert i. induction l as [|h t IH]; intros [|i] H; cbn in *; try lia; auto.
  apply IH. lia.
Qed.

Lemma firstn_S_nth {A} (l : list A) i d :
  (i < Datatypes.length l)%nat -> firstn (S i) l = firstn i l ++ [nth i l d].
Proof.
  revert i. induction l as [|h t IH]; intros [|i] H; cbn in *; try lia; auto.
  f_equal. apply IH. lia.
Qed.

Lemma setDataStr_loop_ok data : forall k i,
  (i + k = Datatypes.length data)%nat ->
  Forall (fun c => 0 <= c < 256) data ->
  setDataStr_loop (firstn i data ++ repeat 0 (k + 1)) data (Z.of_nat i) k
  = Success (data ++ [0]).
Proof.
  induction k as [|k IH]; intros i Hi F.
  - cbn. rewrite firstn_all2 by lia. reflexivity.
  - cbn [setDataStr_loop].
    rewrite (getitem_nth data i 0) by lia. cbn [res_bind].
    unfold bytearray_setitem.
    rewrite byte_value_ok; cycle 1.
    { rewrite Forall_forall in F.
      assert (Hin : In (nth i data 0) data) by (apply nth_In; lia).
      specialize (F _ Hin).
      unfold in_range.
      destruct (Z.leb_spec 0 (nth i data 0)); [|lia].
      destruct (Z.ltb_spec (nth i data 0) 256); [|lia]. reflexivity. }
    cbn [res_bind].
    rewrite setitem_Z
      by (rewrite length_app, firstn_length_le, repeat_length; lia).
    cbn [res_bind]. rewrite Nat2Z.id.
    replace i with (Datatypes.length (firstn i data) + 0)%nat at 2
      by (rewrite firstn_length_le; lia).
    rewrite replace_nth_app_r. cbn [Nat.add repeat replace_nth].
    replace (Z.of_nat i + 1) with (Z.of_nat (S i)) by lia.
    rewrite <- (IH (S i)) by (auto; lia).
    rewrite (firstn_S_nth data i 0) by lia.
    rewrite <- app_assoc. reflexivity.
Qed.

Lemma setDataStr_loop_bad data : forall k i testData,
  (i + k = Datatypes.length data)%nat ->
  Datatypes.length testData = (Datatypes.length data + 1)%nat ->
  Exists (fun c => ~ 0 <= c < 256) (skipn i data) ->
  setDataStr_loop testData data (Z.of_nat i) k = Failure ValueError.
Proof.
  induction k as [|k IH]; intros i testData Hi L E.
  - rewrite skipn_all2 in E by lia. inversion E.
  - cbn [setDataStr_loop].
    rewrite (getitem_nth data i 0) by lia. cbn [res_bind].
    rewrite (skipn_nth_cons data i 0) in E by lia.
    unfold bytearray_setitem, byte_value.
    destruct ((0 <=? nth i data 0) && (nth i data 0 <? 256)) eqn:B;
      [|reflexivity].
    cbn [res_bind].
    rewrite setitem_Z by lia. cbn [res_bind].
    replace (Z.of_nat i + 1) with (Z.of_nat (S i)) by lia.
    apply IH; [lia|now rewrite replace_nth_length|].
    inversion E as [? ? Hbad|? ? Hrest]; subst; [|exact Hrest].
    apply andb_true_iff in B. destruct B as [B1 B2].
    apply Z.leb_le in B1. apply Z.ltb_lt in B2. lia.
Qed.

(** [setDataStr] hands [setData] the character codes of the string
    followed by one zero byte, with the length of the string plus one.
    A character beyond code 255 makes it raise [ValueError] before
    anything is sent. *)
Theorem setDataStr_stages data s :
  (Forall (fun c => 0 <= c < 256) data ->
   setDataStr data s
   = (setData (data ++ [0]) (S (Datatypes.length data)) ;; ret tt) s) /\
  (Exists (fun c => ~ 0 <= c < 256) data ->
   setDataStr data s = Raise ValueError s).
Proof.
  unfold setDataStr, bytearray_new.
  destruct (Z.ltb_spec (Z.of_nat (Datatypes.length data) + 1) 0); [lia|].
  rewrite (bind_Ok _ _ _ _ _ (lift_Success _ _ _ eq_refl)).
  replace (Z.to_nat (Z.of_nat (Datatypes.length data) + 1))
    with (Datatypes.length data + 1)%nat by lia.
  split.
  - intros F.
    pose proof (setDataStr_loop_ok data (Datatypes.length data) 0 eq_refl F) as L.
    cbn [firstn app Z.of_nat] in L.
    rewrite (bind_Ok _ _ _ _ _ (lift_Success _ _ _ L)).
    replace (Datatypes.length data + 1)%nat with (S (Datatypes.length data)) by lia.
    reflexivity.
  - intros E.
    apply bind_Raise, lift_Failure.
    apply (setDataStr_loop_bad data (Datatypes.length data) 0);
      [reflexivity|now rewrite repeat_length|exact E].
Qed.


(** *** Configuration *)

Lemma list4 {A} (l : list A) (d : A) :
  Datatypes.length l = 4%nat -> l = [nth 0 l d; nth 1 l d; nth 2 l d; nth 3 l d].
Proof.
  destruct l as [|a [|b [|c [|e [|? ?]]]]]; try discriminate. reflexivity.
Qed.

(** [enableClock] reads the power-management control register, changes
    byte 1 for the automatic clock and byte 0 for the crystal clock, and
    writes the register back.  For any other clock code it writes back
    exactly what it read. *)
Theorem enableClock_writes clock s :
  shaped (pmscctrl0 s) (PMSC C) (PMSC_CTRL0_SUB C) 4 ->
  addressable (PMSC C) (PMSC_CTRL0_SUB C) = true ->
  exists s',
    enableClock clock s = Ok tt s' /\
    log s' = log s
             ++ read_frame (cs s) (PMSC C) (PMSC_CTRL0_SUB C) 4
             ++ write_frame (cs s) (PMSC C) (PMSC_CTRL0_SUB C)
                  (clock_bytes clock (pmsc_read s)) /\
    data (pmscctrl0 s') = clock_bytes clock (pmsc_read s) /\
    (clock <> AUTO_CLOCK C' -> clock <> XTI_CLOCK C' ->
     clock_bytes clock (pmsc_read s) = pmsc_read s).
Proof.
  intros (Ha & Hs & Hz & Hl) Ap.
  assert (L4 : Datatypes.length (pmsc_read s) = 4%nat)
    by apply repeat_answer_length.
  assert (R : readRegister_self self_pmscctrl0 s
              = Ok tt (set_pmscctrl0
                         (add_log s (read_frame (cs s) (PMSC C) (PMSC_CTRL0_SUB C) 4))
                         (with_data (pmscctrl0 s) (pmsc_read s)))).
  { rewrite readRegister_self_spec.
    - cbn [fetch store self_pmscctrl0]. rewrite Ha, Hs, Hz. reflexivity.
    - cbn [fetch self_pmscctrl0]. rewrite Ha, Hs. exact Ap.
    - cbn [fetch self_pmscctrl0]. unfold Register.wf. now rewrite Hl, Hz.
    - reflexivity. }
  assert (W : forall x d,
            Datatypes.length d = 4%nat ->
            cs x = cs s ->
            pmscctrl0 x = with_data (pmscctrl0 s) d ->
            writeRegister_self self_pmscctrl0 x
            = Ok tt (add_log x (write_frame (cs s) (PMSC C) (PMSC_CTRL0_SUB C) d))).
  { intros x d Ld Cx Px. rewrite writeRegister_self_spec.
    - cbn [fetch self_pmscctrl0]. rewrite Px, Cx.
      cbn [address subaddress data with_data]. now rewrite Ha, Hs.
    - cbn [fetch self_pmscctrl0]. rewrite Px.
      cbn [address subaddress with_data]. rewrite Ha, Hs. exact Ap.
    - cbn [fetch self_pmscctrl0]. rewrite Px. unfold Register.wf.
      cbn [data size with_data]. now rewrite Ld, Hz. }
  unfold enableClock, clock_bytes.
  rewrite (bind_Ok _ _ _ _ _ R). clear R.
  destruct (pmsc_read s) as [|n0 [|n1 [|n2 [|n3 [|? ?]]]]]; try discriminate L4.
  cbn [nth].
  destruct (Z.eqb_spec clock (AUTO_CLOCK C')) as [Eauto|Nauto];
    [|destruct (Z.eqb_spec clock (XTI_CLOCK C')) as [Exti|Nxti]].
  - eexists. split; [|split; [|split]].
    + rewrite bind_assoc.
      erewrite bind_Ok; cycle 1.
      { apply call_ok. reflexivity. }
      erewrite bind_Ok; cycle 1.
      { apply call_ok. reflexivity. }
      eapply W. 3: reflexivity. 2: reflexivity. reflexivity.
    + cbn. now rewrite <- app_assoc.
    + reflexivity.
    + intros N. contradiction.
  - eexists. split; [|split; [|split]].
    + rewrite bind_assoc.
      erewrite bind_Ok; cycle 1.
      { apply call_ok. reflexivity. }
      erewrite bind_Ok; cycle 1.
      { apply call_ok. reflexivity. }
      eapply W. 3: reflexivity. 2: reflexivity. reflexivity.
    + cbn. now rewrite <- app_assoc.
    + reflexivity.
    + intros _ N. contradiction.
  - eexists. split; [|split; [|split]].
    + unfold bind at 1, ret at 1.
      eapply W. 3: reflexivity. 2: reflexivity. reflexivity.
    + cbn. now rewrite <- app_assoc.
    + reflexivity.
    + reflexivity.
Qed.

Lemma le_bytes2 v :
  [Z.land v 255; Z.land (Z.shiftr v 8) 255] = le_bytes 2 v.
Proof.
  unfold le_bytes. cbn [seq map].
  change (8 * Z.of_nat 0) with 0. change (8 * Z.of_nat 1) with 8.
  change 255 with (Z.ones 8).
  rewrite !Z.land_ones, Z.shiftr_div_pow2 by lia.
  change (2 ^ 0) with 1. rewrite Z.div_1_r. reflexivity.
Qed.

(** [setDeviceAddress] and [setNetworkId] fill the two halves of the
    address attribute, each with its value modulo 2^16, lowest byte
    first; they use no bus, the order of the two calls does not matter,
    and the device address is what [sendMessage] then gives as the
    source of a frame. *)
Theorem panadr_layout addr pan dst dpan ack s :
  MASK_LS_BYTE C = 255 ->
  shaped (panadr s) (PANADR C) (NO_SUB C) 4 ->
  exists s',
    (setDeviceAddress addr ;; setNetworkId pan) s = Ok tt s' /\
    (setNetworkId pan ;; setDeviceAddress addr) s = Ok tt s' /\
    data (panadr s') = le_bytes 2 addr ++ le_bytes 2 pan /\
    log s' = log s /\
    srcAddr (message_header s' dst dpan ack) = le_bytes 2 addr.
Proof.
  intros Hm (_ & _ & _ & Hl).
  unfold setDeviceAddress, setNetworkId. rewrite Hm.
  rewrite <- (le_bytes2 addr), <- (le_bytes2 pan).
  destruct s as [? ? ? ? ? ? ? ? ? ? ? ? ? ? [a sub sz d] ? ? ? ? ? ? ?].
  cbn [panadr data] in Hl.
  destruct d as [|d0 [|d1 [|d2 [|d3 [|? ?]]]]]; try discriminate Hl.
  eexists. split; [|split; [|split; [|split]]].
  - reflexivity.
  - reflexivity.
  - reflexivity.
  - reflexivity.
  - reflexivity.
Qed.

(** [setEUI] stores the first eight bytes of the address in reverse
    order and writes them to the chip.  An address of fewer than eight
    bytes raises [IndexError] at once, before the attribute or the bus is
    touched. *)
Theorem setEUI_reverses currentAddress s :
  shaped (eui s) (EUI C) (NO_SUB C) 8 ->
  addressable (EUI C) (NO_SUB C) = true ->
  ((8 <= Datatypes.length currentAddress)%nat ->
   exists s',
     setEUI currentAddress s = Ok tt s' /\
     data (eui s') = rev (firstn 8 currentAddress) /\
     log s' = log s ++ write_frame (cs s) (EUI C) (NO_SUB C)
                         (rev (firstn 8 currentAddress))) /\
  ((Datatypes.length currentAddress < 8)%nat ->
   setEUI currentAddress s = Raise IndexError s).
Proof.
  intros (Ha & Hs & Hz & Hl) Ae. split.
  - intros L.
    destruct currentAddress as [|a0 [|a1 [|a2 [|a3 [|a4 [|a5 [|a6 [|a7 rest]]]]]]]];
      cbn [Datatypes.length] in L; try lia.
    assert (E : setEUI_loop (a0 :: a1 :: a2 :: a3 :: a4 :: a5 :: a6 :: a7 :: rest) 0 8 s
                = Ok tt (set_eui s (with_data (eui s) [a7; a6; a5; a4; a3; a2; a1; a0]))).
    { destruct s as [? ? ? ? ? ? ? ? ? ? ? ? ? ? ? [a sub sz d] ? ? ? ? ? ?].
      cbn [eui data] in Hl.
      destruct d as [|d0 [|d1 [|d2 [|d3 [|d4 [|d5 [|d6 [|d7 [|? ?]]]]]]]]];
        try discriminate Hl.
      reflexivity. }
    eexists. split; [|split].
    + unfold setEUI. rewrite (bind_Ok _ _ _ _ _ E).
      apply writeRegister_self_spec.
      * cbn [fetch self_eui eui set_eui address subaddress with_data].
        rewrite Ha, Hs. exact Ae.
      * cbn [fetch self_eui eui set_eui]. unfold Register.wf.
        cbn [data size with_data]. now rewrite Hz.
    + reflexivity.
    + cbn [fetch self_eui eui set_eui address subaddress data with_data
           log add_log set_log cs].
      rewrite Ha, Hs. reflexivity.
  - intros L. unfold setEUI. apply bind_Raise.
    cbn [setEUI_loop]. apply bind_Raise, lift_Failure.
    change (8 - 0 - 1) with (Z.of_nat 7).
    apply getitem_past. lia.
Qed.

(** A delay that is not a finite number ([inf] or [nan], also as a
    product with the unit) makes [setDelay] raise [OverflowError] or
    [ValueError] after it has read the system time: nothing is written
    to the chip. *)
Theorem setDelay_not_finite delay unit mode e s :
  delay_ok = true ->
  wf_self s ->
  py_int (delay * unit * TIME_RES_INV C)%float = Failure e ->
  (e = OverflowError \/ e = ValueError) /\
  exists s',
    setDelay delay unit mode s = Raise e s' /\
    log s' = log s ++ read_frame (cs s) (SYS_TIME C) (NO_SUB C) 5.
Proof.
  intros Hok Hwf Hticks.
  destruct (delay_ok_parts Hok) as (Hm & Hd & As & Ad & Ht & Hr).
  destruct (setDelay_mode mode s Hwf Ht Hr) as (s1 & E1 & L1 & C1 & U1).
  destruct (gather_le_value
              (with_data (Register.new (SYS_TIME C) (NO_SUB C) 5)
                 (sys_time_read s))) as (G & _).
  { rewrite data_with_data. apply repeat_answer_length. }
  { rewrite data_with_data. apply answers_bytes. }
  split.
  - unfold py_int in Hticks.
    destruct (Prim2SF (delay * unit * TIME_RES_INV C)); inversion Hticks; auto.
  - eexists. split.
    + unfold setDelay.
      rewrite (bind_Ok _ _ _ _ _ E1).
      erewrite bind_Ok; cycle 1.
      { apply readRegister_spec; [exact As|apply new_wf]. }
      cbn [address subaddress size Register.new].
      rewrite L1, C1. fold (sys_time_read s).
      rewrite (bind_Ok _ _ _ _ _ (lift_Success _ _ _ G)).
      apply bind_Raise, lift_Failure. exact Hticks.
    + rewrite log_add_log, L1. reflexivity.
Qed.


(** *** Double buffering *)

(** [syncHSRBP] leaves the configuration attribute and the
    double-buffering flag as they are. *)
Lemma syncHSRBP_frame s :
  wf_self s -> controller_ok = true ->
  exists s',
    syncHSRBP s = Ok tt s' /\
    log s' = log s ++ read_frame (cs s) (SYS_STATUS C) (NO_SUB C) 5
             ++ (if dblbuffon s && pointers_equal s
                 then toggle_frames s else []) /\
    cs s' = cs s /\ syscfg s' = syscfg s /\ dblbuffon s' = dblbuffon s.
Proof.
  intros Hwf Hok.
  rewrite (syncHSRBP_spec s Hwf Hok).
  pose proof (wf_self_status_read s Hwf) as Hr.
  destruct (pointers_equal s).
  - destruct (dblbuffon s) eqn:Hd.
    + exists (toggled (status_read s)). split; [|split; [|repeat split]].
      * apply toggleHSRBP_on; [exact Hr|exact Hok|exact Hd].
      * unfold toggled. rewrite toggle_frames_status_read.
        unfold status_read. rewrite !log_add_log. cbn [andb].
        cbn [log set_sysctrl set_sysstatus add_log set_log].
        now rewrite <- app_assoc.
      * cbn. exact Hd.
    + exists (status_read s). split; [|split; [|repeat split]].
      * apply toggleHSRBP_off. exact Hd.
      * cbn. now rewrite app_nil_r.
      * cbn. exact Hd.
  - exists (status_read s). split; [|split; [|repeat split]].
    + reflexivity.
    + cbn. now rewrite andb_false_r, app_nil_r.
Qed.

(** Switching double buffering: both methods set the flag first, so
    [disableDoubleBuffer] never toggles the buffer pointer, whatever the
    status register says, while [enableDoubleBuffer] toggles it exactly
    when the two pointer bits read equal; each then writes the
    configuration register with its bit changed. *)
Theorem double_buffer_switch s :
  wf_self s ->
  shaped (syscfg s) (SYS_CFG C) (NO_SUB C) 4 ->
  controller_ok = true ->
  addressable (SYS_CFG C) (NO_SUB C) = true ->
  in_range 32 (HSRBP_BIT C) = true ->
  (exists s',
      disableDoubleBuffer s = Ok tt s' /\
      dblbuffon s' = false /\
      log s' = log s
               ++ read_frame (cs s) (SYS_STATUS C) (NO_SUB C) 5
               ++ write_frame (cs s) (SYS_CFG C) (NO_SUB C)
                    (set_bit_in (data (syscfg s)) (HSRBP_BIT C) false)) /\
  (exists s',
      enableDoubleBuffer s = Ok tt s' /\
      dblbuffon s' = true /\
      log s' = log s
               ++ read_frame (cs s) (SYS_STATUS C) (NO_SUB C) 5
               ++ (if pointers_equal s then toggle_frames s else [])
               ++ write_frame (cs s) (SYS_CFG C) (NO_SUB C)
                    (set_bit_in (data (syscfg s)) (HSRBP_BIT C) true)).
Proof.
  intros Hwf Hcfg Hok Ac Hb.
  assert (Wc : Register.wf (syscfg s)) by (eapply shaped_wf; exact Hcfg).
  assert (Bc : in_bits (syscfg s) (HSRBP_BIT C) = true)
    by (eapply shaped_in_bits; [exact Hcfg|exact Hb]).
  destruct Hcfg as (Ca & Cs & Cz & Cl).
  assert (K : forall b v,
            exists s',
              (modify (fun s => set_dblbuffon s b) ;;
               syncHSRBP ;;
               call self_syscfg (fun r => setBit r (HSRBP_BIT C) v) ;;
               writeRegister_self self_syscfg) s = Ok tt s' /\
              dblbuffon s' = b /\
              log s' = log s
                       ++ read_frame (cs s) (SYS_STATUS C) (NO_SUB C) 5
                       ++ (if b && pointers_equal s then toggle_frames s else [])
                       ++ write_frame (cs s) (SYS_CFG C) (NO_SUB C)
                            (set_bit_in (data (syscfg s)) (HSRBP_BIT C) v)).
  { intros b v.
    destruct (syncHSRBP_frame (set_dblbuffon s b) Hwf Hok)
      as (s1 & E1 & L1 & C1 & G1 & D1).
    cbn [log cs syscfg dblbuffon set_dblbuffon] in L1, C1, G1, D1.
    change (pointers_equal (set_dblbuffon s b)) with (pointers_equal s) in L1.
    change (toggle_frames (set_dblbuffon s b)) with (toggle_frames s) in L1.
    eexists. split; [|split].
    - unfold bind at 1, modify at 1.
      rewrite (bind_Ok _ _ _ _ _ E1).
      erewrite bind_Ok; cycle 1.
      { apply call_ok. cbn [fetch self_syscfg]. rewrite G1.
        apply setBit_ok; [exact Wc|exact Bc]. }
      apply writeRegister_self_spec.
      + cbn [fetch store self_syscfg syscfg set_syscfg address subaddress with_data].
        rewrite Ca, Cs. exact Ac.
      + cbn [fetch store self_syscfg syscfg set_syscfg]. unfold Register.wf.
        cbn [data size with_data]. rewrite set_bit_in_length. exact Wc.
    - cbn. exact D1.
    - cbn [fetch store self_syscfg syscfg set_syscfg address subaddress data
           with_data log add_log set_log cs].
      rewrite L1, C1, Ca, Cs. now rewrite <- !app_assoc. }
  split.
  - destruct (K false false) as (s' & E & D & L). exists s'.
    split; [exact E|]. split; [exact D|]. exact L.
  - destruct (K true true) as (s' & E & D & L). exists s'.
    split; [exact E|]. split; [exact D|]. exact L.
Qed.

(** *** What [tune] commits whatever the mode *)

Lemma writeValue_le_bytes r n :
  writeValue r n = with_data r (le_bytes (size r) n).
Proof.
  unfold writeValue, le_bytes. f_equal. apply map_ext. intros i.
  change 255 with (Z.ones 8).
  rewrite Z.land_ones, Z.shiftr_div_pow2 by lia. reflexivity.
Qed.

(** In every mode in which [tune] completes, the second register it
    commits, the one at the place of AGC_TUNE2, holds the constant of
    AGC_TUNE3 (the second [writeValue] on it replaces the first), and the
    third, at the place of AGC_TUNE3, holds zeros: it is never filled. *)
Theorem tune_agc_registers s :
  tuner_ok = true ->
  short_preamble_at_6800 (operationMode s) = false ->
  exists first rest,
    Datatypes.length rest = 14%nat /\
    tune_commits s
      (first
       :: with_data (Register.new (AGC_CTRL C) (AGC_TUNE2_SUB C) 4)
            (le_bytes 4 (AGC_TUNE3_OP C))
       :: with_data (Register.new (AGC_CTRL C) (AGC_TUNE3_SUB C) 2) [0; 0]
       :: rest).
Proof.
  intros Hok Hmode.
  destruct (tuneDrxtune1b_outcome s (Register.new (DRX_CONF C) (DRX_TUNE1b_SUB C) 2))
    as (Hs & _).
  destruct (Hs Hmode) as (r1b & H1b).
  pose proof (tune_spec s r1b Hok H1b) as T.
  unfold tune_table in T.
  rewrite (writeValue_le_bytes _ (AGC_TUNE3_OP C)) in T.
  eexists. eexists. split; [|exact T]. reflexivity.
Qed.

(** [tune] does not ask whether a mode was enabled.  On an object whose
    six mode slots are unset it completes and commits zeros to every
    register that is looked up by the mode; only the registers filled in
    an [else] branch or without a condition get a value. *)
Theorem tune_unset_mode s :
  tuner_ok = true ->
  operationMode s = unset_mode ->
  tune_commits s unset_mode_table.
Proof.
  intros Hok Hmode.
  assert (H1b : tuneDrxtune1b s (Register.new (DRX_CONF C) (DRX_TUNE1b_SUB C) 2)
                = Success (Register.new (DRX_CONF C) (DRX_TUNE1b_SUB C) 2)).
  { unfold tuneDrxtune1b. rewrite Hmode. reflexivity. }
  pose proof (tune_spec s _ Hok H1b) as T.
  unfold tune_table, tuneAgcTune1, tuneDrxTune0b, tuneDrxTune1aAndldecfg2,
    tuneDrxTune2, tunelderepc, lderepc_branch, tuneAccToChan, chan_branch in T.
  rewrite Hmode in T.
  cbn [unset_mode dataRate pulseFrequency pacSize preambleLength channel preacode
       is_code orb andb negb fst snd
       the_rftxctrl the_tcpgdelay the_fspllcfg the_fsplltune the_txpower] in T.
  rewrite !writeValue_le_bytes in T.
  exact T.
Qed.

End Driver.

(** ** The theorems at concrete inputs *)

(** On a chip whose impulse-response power reads zero and whose
    accumulation count reads 16, in the long-range mode. *)
Lemma getReceivePower_zero_cir_witness :
  let s := set_operationMode (__init__ datasheet 8 9 10 5) long_range_mode in
  cir_value datasheet late_chip s = 0 /\
  accumulator_count datasheet late_chip s = 16 /\
  getReceivePower datasheet log10_to_three_places late_chip s
  = Ok (if (0 <=? - PWR_COEFF datasheet)%float then 0%float
        else (0 + (0 + PWR_COEFF datasheet) * corrFac_of datasheet s)%float)
       (power_read datasheet s).
Proof.
  intros s.
  split; [vm_compute; reflexivity|].
  split; [vm_compute; reflexivity|].
  apply getReceivePower_zero_cir.
  - vm_compute; reflexivity.
  - vm_compute; reflexivity.
  - vm_compute; discriminate.
Defined.

(** The same reading: the logarithm argument is zero, and the method
    returns 88 * 2.3334, not 0. *)
Lemma getReceivePower_zero_cir_not_zero :
  let s := set_operationMode (__init__ datasheet 8 9 10 5) long_range_mode in
  cir_value datasheet late_chip s = 0 /\
  accumulator_count datasheet late_chip s = 16 /\
  exists power s',
    getReceivePower datasheet log10_to_three_places late_chip s = Ok power s' /\
    power = (88 * 2.3334)%float /\
    (power =? 0)%float = false.
Proof.
  intros s.
  split; [vm_compute; reflexivity|].
  split; [vm_compute; reflexivity|].
  exists (88 * 2.3334)%float, (power_read datasheet s).
  repeat split; vm_compute; reflexivity.
Qed.

(** The mode at 6800 kbps with a preamble of 64 symbols. *)
Lemma tune_raises_on_short_preamble_at_6800_witness :
  let s := set_operationMode (__init__ datasheet 8 9 10 5) short_preamble_mode in
  tune datasheet silent_chip s = Raise TypeError s.
Proof.
  intros s.
  apply tune_raises_on_short_preamble_at_6800; vm_compute; reflexivity.
Defined.

(** The headers of the impulse-response power field (sub-address 6) and
    of the replica coefficient (sub-address 0x2804), and a read of the
    receive buffer without sub-address. *)
Lemma header_encoding_witness :
  on_wire (readHeader datasheet 0x12 0x06) = Success [Z.lor 0x40 0x12; 0x06] /\
  on_wire (writeHeader datasheet 0x2E 0x2804)
  = Success [Z.lor 0xC0 0x2E; Z.lor (Z.land 0x2804 0x7F) 0x80; Z.shiftr 0x2804 7] /\
  spec_decode (wr_hdr datasheet 0x2E 0x2804 ++ [0x8E; 0x42])
  = Some (true, 0x2E, Some 0x2804, [0x8E; 0x42]) /\
  on_wire (readHeader datasheet 0x11 (NO_SUB datasheet)) = Success [Z.lor 0x00 0x11] /\
  readHeader datasheet 0x11 0x8000 = Failure ValueError.
Proof.
  assert (W : wire_format_ok datasheet = true) by (vm_compute; reflexivity).
  assert (R1 : 0 <= 0x12 < 64) by lia.
  assert (R2 : 0 <= 0x2E < 64) by lia.
  assert (R3 : 0 <= 0x11 < 64) by lia.
  destruct (header_encoding datasheet 0x12 0x06 W R1) as (_ & A & _).
  destruct (header_encoding datasheet 0x2E 0x2804 W R2) as (_ & _ & B & D & _).
  destruct (header_encoding datasheet 0x11 (NO_SUB datasheet) W R3) as (N & _).
  destruct (header_encoding datasheet 0x11 0x8000 W R3) as (_ & _ & _ & _ & V).
  split; [apply A; [discriminate|lia]|].
  split; [apply B; [discriminate|lia]|].
  split; [apply D; [discriminate|lia]|].
  split; [apply N; reflexivity|].
  apply V; [discriminate|lia].
Defined.

(** Sub-address 255 of the receive buffer.  It is 128 or more, yet its
    header is one byte, not three, and the receiving side reads no
    sub-address: 255 is the value of [NO_SUB].  And sub-address 2^15,
    also 128 or more, has no header at all. *)
Lemma header_encoding_not_at_255 :
  128 <= 255 /\
  on_wire (readHeader datasheet 0x11 255) = Success [0x11] /\
  on_wire (readHeader datasheet 0x11 255)
  <> Success [Z.lor 0x40 0x11; Z.lor (Z.land 255 0x7F) 0x80; Z.shiftr 255 7] /\
  spec_decode (rd_hdr datasheet 0x11 255 ++ [0]) = Some (false, 0x11, None, [0]) /\
  spec_decode (rd_hdr datasheet 0x11 255 ++ [0]) <> Some (false, 0x11, Some 255, [0]) /\
  128 <= 32768 /\
  on_wire (readHeader datasheet 0x11 32768) = Failure ValueError.
Proof.
  split; [lia|].
  split; [vm_compute; reflexivity|].
  split; [vm_compute; discriminate|].
  split; [vm_compute; reflexivity|].
  split; [vm_compute; discriminate|].
  split; [lia|].
  vm_compute; reflexivity.
Qed.

(** A fresh object on a chip that answers [x07] throughout. *)
Lemma forceTRxOff_sequence_witness :
  let s := __init__ datasheet 8 9 10 5 in
  exists s',
    forceTRxOff datasheet steady_chip s = Ok tt s' /\
    data (sysmask s') = saved_mask datasheet steady_chip s /\
    saved_mask datasheet steady_chip s = [7; 7; 7; 7].
Proof.
  intros s.
  destruct (forceTRxOff_sequence datasheet steady_chip s) as (s' & E & _ & D).
  - repeat split.
  - vm_compute; reflexivity.
  - exists s'. repeat split; [exact E|exact D].
Defined.

(** The difference of the timestamps 5 and 7, and the timestamp 9. *)
Lemma wrapTimestamp_wraps_witness :
  wrapTimestamp datasheet (5 - 7) = 5 - 7 + 2 ^ 40 /\
  0 <= wrapTimestamp datasheet (5 - 7) < 2 ^ 40 /\
  wrapTimestamp datasheet 9 = 9.
Proof.
  destruct (wrapTimestamp_wraps datasheet eq_refl) as (A & B).
  assert (Ra : 0 <= 5 < 2 ^ 40) by lia.
  assert (Rb : 0 <= 7 < 2 ^ 40) by lia.
  assert (Rab : 5 < 7) by lia.
  destruct (A 5 7 Ra Rb Rab) as (A1 & A2).
  split; [exact A1|]. split; [exact A2|]. apply B. lia.
Defined.

(** A chip whose factory memory holds zero for the crystal trim. *)
Lemma tune_crystal_trim_witness :
  let s := set_operationMode (__init__ datasheet 8 9 10 5) long_range_mode in
  otp_xtal_byte datasheet silent_chip s = 0 /\
  exists s' table,
    tune datasheet silent_chip s = Ok tt s' /\
    log s' = log s
             ++ otp_frames datasheet 8 (OTP_XTAL_ADDRESS datasheet)
             ++ table
             ++ write_frame datasheet 8 (FS_CTRL datasheet) (FS_XTALT_SUB datasheet)
                  [Z.land (Z.lor (Z.land (TUNE_OPERATION datasheet) (TUNE_MASK1 datasheet))
                                 (TUNE_MASK2 datasheet)) 255].
Proof.
  intros s.
  assert (Z0 : otp_xtal_byte datasheet silent_chip s = 0) by (vm_compute; reflexivity).
  split; [exact Z0|].
  destruct (tune_crystal_trim datasheet silent_chip s) as (s' & table & E & L & _).
  - vm_compute; reflexivity.
  - vm_compute; reflexivity.
  - exists s', table. split; [exact E|exact (L Z0)].
Defined.

(** Two objects in the long-range mode with different histories. *)
Lemma tune_deterministic_in_mode_witness :
  let s1 := set_operationMode (__init__ datasheet 8 9 10 5) long_range_mode in
  let s2 := set_log (set_seqNum s1 77) [GPIO_output 9 true] in
  (tune datasheet counting_chip s1 = Raise TypeError s1 /\
   tune datasheet counting_chip s2 = Raise TypeError s2) \/
  (exists table,
      Datatypes.length table = 17%nat /\
      tune_commits datasheet counting_chip s1 table /\
      tune_commits datasheet counting_chip s2 table).
Proof.
  intros s1 s2.
  apply tune_deterministic_in_mode.
  - vm_compute; reflexivity.
  - reflexivity.
Defined.

(** One object in the long-range mode on two chips, one whose factory
    memory holds 0 and one where it holds 7: the last register written
    gets 112 on the first and 103 on the second. *)
Lemma tune_commits_depend_on_otp :
  let s := set_operationMode (__init__ datasheet 8 9 10 5) long_range_mode in
  exists a b pre,
    tune datasheet silent_chip s = Ok tt a /\
    tune datasheet steady_chip s = Ok tt b /\
    log a = pre ++ write_frame datasheet 8 (FS_CTRL datasheet) (FS_XTALT_SUB datasheet) [112] /\
    log b = pre ++ write_frame datasheet 8 (FS_CTRL datasheet) (FS_XTALT_SUB datasheet) [103] /\
    log a <> log b.
Proof.
  intros s.
  exists (final (tune datasheet silent_chip s)),
         (final (tune datasheet steady_chip s)),
         (removelast (removelast (removelast (removelast (removelast
            (log (final (tune datasheet silent_chip s)))))))).
  split; [vm_compute; reflexivity|].
  split; [vm_compute; reflexivity|].
  split; [vm_compute; reflexivity|].
  split; [vm_compute; reflexivity|].
  intros H.
  apply (f_equal (fun l => nth 1 (rev l) (SPI_xfer 0))) in H.
  vm_compute in H. discriminate H.
Qed.

(** A receive power of -89 dBm, whose index is 14, and one of -61 dBm,
    whose index is the negative zero, in the long-range mode.  Neither
    the logarithm nor the chip has a part in it. *)
Lemma correctTimestamp_at_bracket_boundary_witness :
  let s := set_operationMode (__init__ datasheet 8 9 10 5) long_range_mode in
  (rxPowerBase_of (-89)%float =? py_float 14)%float = true /\
  (exists high rangeBias,
      bracket (rxPowerBase_of (-89)%float) = Success (14, high) /\
      rangeBias_of datasheet s (rxPowerBase_of (-89)%float) 14 high
      = Success rangeBias /\
      (rangeBias =? py_float (restored_bias (BIAS_500_16 datasheet) 10 14))%float
      = true) /\
  rxPowerBase_of (-61)%float = (-0)%float /\
  (rxPowerBase_of (-61)%float =? py_float 0)%float = true /\
  (exists high rangeBias,
      bracket (rxPowerBase_of (-61)%float) = Success (0, high) /\
      rangeBias_of datasheet s (rxPowerBase_of (-61)%float) 0 high
      = Success rangeBias /\
      (rangeBias =? py_float (restored_bias (BIAS_500_16 datasheet) 10 0))%float
      = true).
Proof.
  intros s.
  assert (B : (rxPowerBase_of (-89)%float =? py_float 14)%float = true)
    by (vm_compute; reflexivity).
  assert (Z0 : (rxPowerBase_of (-61)%float =? py_float 0)%float = true)
    by (vm_compute; reflexivity).
  assert (T : bias_table datasheet s = Some (BIAS_500_16 datasheet, 10))
    by (vm_compute; reflexivity).
  assert (F : Forall (fun e => 0 <= e < 256) (BIAS_500_16 datasheet))
    by (repeat (constructor; [lia|]); constructor).
  split; [exact B|]. split.
  { destruct (proj2 (correctTimestamp_at_bracket_boundary datasheet
                       log10_to_three_places silent_chip s 1000 (-89)%float 14
                       (BIAS_500_16 datasheet) 10 B ltac:(lia) T eq_refl F))
      as (high & rangeBias & H1 & H2 & H3 & _).
    exists high, rangeBias. repeat split; assumption. }
  split; [vm_compute; reflexivity|]. split; [exact Z0|].
  destruct (proj2 (correctTimestamp_at_bracket_boundary datasheet
                     log10_to_three_places silent_chip s 1000 (-61)%float 0
                     (BIAS_500_16 datasheet) 10 Z0 ltac:(lia) T eq_refl F))
    as (high & rangeBias & H1 & H2 & H3 & _).
  exists high, rangeBias. repeat split; assumption.
Defined.

(** A fresh object, double buffering off, on a chip whose two pointer
    bits read equal. *)
Lemma syncHSRBP_toggles_when_equal_witness :
  let s := __init__ datasheet 8 9 10 5 in
  pointers_equal datasheet steady_chip s = true /\
  syncHSRBP datasheet steady_chip s
  = toggleHSRBP datasheet steady_chip (status_read datasheet steady_chip s) /\
  toggleHSRBP datasheet steady_chip s = Ok tt s.
Proof.
  intros s.
  assert (P : pointers_equal datasheet steady_chip s = true) by (vm_compute; reflexivity).
  destruct (syncHSRBP_toggles_when_equal datasheet steady_chip s) as (A & _ & B).
  - repeat split.
  - vm_compute; reflexivity.
  - split; [exact P|]. split; [|exact (B eq_refl)].
    rewrite P in A. exact A.
Defined.

(** A message of two bytes sent from a fresh object numbered 5. *)
Lemma sendMessage_seqNum_witness :
  let s := __init__ datasheet 8 9 10 5 in
  let o := sendMessage datasheet plain_codec steady_chip 1 2 [3; 4] false false None s in
  message_of plain_codec s 1 2 [3; 4] false = [5; 2; 0; 1; 0; 0; 0; 3; 4] /\
  (exists s', o = Ok tt s' /\ seqNum s' = (5 + 1) mod 256) /\
  seqNum_ok (final o).
Proof.
  intros s o.
  destruct (sendMessage_seqNum datasheet plain_codec log10_to_three_places steady_chip
              datasheet_more 1 2 [3; 4] false false None s)
    as (_ & _ & A & _ & B & D & _).
  - vm_compute; reflexivity.
  - vm_compute; reflexivity.
  - repeat split.
  - vm_compute. split; [discriminate|reflexivity].
  - vm_compute; reflexivity.
  - split; [vm_compute; reflexivity|].
    split; [|exact D].
    destruct (B eq_refl) as (s' & E). exists s'. split; [exact E|exact (A s' E)].
Defined.

(** ** The second part at concrete inputs *)

(** Three bytes asked of the receive buffer into an array of two. *)
Lemma readBytes_buffer_overrun_witness :
  let s := __init__ datasheet 8 9 10 5 in
  readBytes datasheet steady_chip 0x11 0xFF [0; 0] 3 s
  = Raise IndexError
      (add_log s [GPIO_output 8 false; SPI_xfer 0x11;
                  SPI_xfer 0; SPI_xfer 0; SPI_xfer 0]).
Proof.
  intros s.
  apply (readBytes_buffer_overrun datasheet steady_chip 0x11 0xFF [0; 0] 3 s).
  - vm_compute; reflexivity.
  - cbn; lia.
Defined.

(** Three bytes of an array of two sent to the transmit buffer. *)
Lemma writeBytes_buffer_overrun_witness :
  let s := __init__ datasheet 8 9 10 5 in
  writeBytes datasheet steady_chip 0x09 0xFF [1; 2] 3 s
  = Raise IndexError
      (add_log s [GPIO_output 8 false; SPI_xfer 0x89; SPI_xfer 1; SPI_xfer 2]).
Proof.
  intros s.
  apply (writeBytes_buffer_overrun datasheet steady_chip 0x09 0xFF [1; 2] 3 s).
  - vm_compute; reflexivity.
  - cbn; lia.
Defined.

(** The sub-address 2^15 of register 0x2E. *)
Lemma transaction_rejects_offset_witness :
  let s := __init__ datasheet 8 9 10 5 in
  readBytes datasheet steady_chip 0x2E 0x8000 [0; 0] 2 s = Raise ValueError s /\
  writeBytes datasheet steady_chip 0x2E 0x8000 [0; 0] 2 s = Raise ValueError s.
Proof.
  intros s.
  apply (transaction_rejects_offset datasheet steady_chip 0x2E 0x8000 [0; 0] 2 s).
  - vm_compute; reflexivity.
  - lia.
  - discriminate.
  - right. lia.
Defined.

(** A timestamp of more than forty bits stored at index 1 of seven bytes. *)
Lemma timestamp_round_trip_witness :
  exists data',
    setTimeStamp datasheet [9; 9; 9; 9; 9; 9; 9] (2 ^ 40 + 0x0102030405) 1
    = (data', None) /\
    data' = [9; 0x05; 0x04; 0x03; 0x02; 0x01; 9] /\
    getTimeStamp data' 1 = Success 0x0102030405.
Proof.
  destruct (timestamp_round_trip datasheet [9; 9; 9; 9; 9; 9; 9]
              (2 ^ 40 + 0x0102030405) 1) as (data' & E1 & E2 & E3).
  - reflexivity.
  - lia.
  - cbn; lia.
  - exists data'. split; [exact E1|]. split; [|exact E3].
    rewrite E2. reflexivity.
Defined.

(** The same timestamp stored at index 1 of three bytes. *)
Lemma setTimeStamp_overrun_witness :
  setTimeStamp datasheet [9; 9; 9] 0x0102030405 1
  = ([9; 0x05; 0x04], Some IndexError) /\
  getTimeStamp [9; 9; 9] 1 = Failure IndexError.
Proof.
  apply (setTimeStamp_overrun datasheet [9; 9; 9] 0x0102030405 1).
  - reflexivity.
  - lia.
  - cbn; lia.
Defined.

(** A chip whose transmit stamp reads [07 07 07 07 07]. *)
Lemma getTransmitTimestamp_value_witness :
  let s := __init__ datasheet 8 9 10 5 in
  getTransmitTimestamp datasheet steady_chip datasheet_more s
  = Ok 0x0707070707 (add_log s (read_frame datasheet 8 0x17 0x00 5)).
Proof.
  intros s.
  refine (proj1 (getTransmitTimestamp_value datasheet steady_chip datasheet_more s _)).
  vm_compute; reflexivity.
Defined.

(** A delay of ten microseconds for a transmission, on a chip whose
    system time reads [07 07 07 07 07]. *)
Lemma setDelay_programs_witness :
  let s := __init__ datasheet 8 9 10 5 in
  py_int (10 * 1 * TIME_RES_INV datasheet)%float = Success 638976 /\
  exists s',
    setDelay datasheet steady_chip 10 1 "tx" s
    = Ok (0x070710C600 + ANTENNA_DELAY datasheet) s' /\
    log s' = log s
             ++ read_frame datasheet 8 (SYS_TIME datasheet) (NO_SUB datasheet) 5
             ++ write_frame datasheet 8 (DX_TIME datasheet) (NO_SUB datasheet)
                  [0x00; 0xC6; 0x10; 0x07; 0x07].
Proof.
  intros s.
  assert (T : py_int (10 * 1 * TIME_RES_INV datasheet)%float = Success 638976)
    by (vm_compute; reflexivity).
  split; [exact T|].
  destruct (setDelay_programs datasheet steady_chip 10 1 "tx" 638976 s)
    as (s' & E & L & _).
  - vm_compute; reflexivity.
  - repeat split.
  - exact T.
  - exists s'. split; [exact E|exact L].
Defined.

(** An infinite delay. *)
Lemma setDelay_not_finite_witness :
  let s := __init__ datasheet 8 9 10 5 in
  exists s',
    setDelay datasheet steady_chip infinity 1 "tx" s = Raise OverflowError s' /\
    log s' = log s
             ++ read_frame datasheet 8 (SYS_TIME datasheet) (NO_SUB datasheet) 5.
Proof.
  intros s.
  refine (proj2 (setDelay_not_finite datasheet steady_chip infinity 1 "tx"
                   OverflowError s _ _ _)).
  - vm_compute; reflexivity.
  - repeat split.
  - vm_compute; reflexivity.
Defined.

(** A chip that answers zero to everything: the count is zero. *)
Lemma getReceivePower_zero_count_witness :
  let s := __init__ datasheet 8 9 10 5 in
  getReceivePower datasheet log10_to_three_places silent_chip s
  = Raise ZeroDivisionError (power_read datasheet s).
Proof.
  intros s.
  apply getReceivePower_zero_count; vm_compute; reflexivity.
Defined.

(** The same chip, and one whose amplitudes read zero with a count of 16. *)
Lemma getFirstPathPower_unguarded_witness :
  let s := __init__ datasheet 8 9 10 5 in
  getFirstPathPower datasheet log10_to_three_places silent_chip datasheet_more s
  = Raise ZeroDivisionError (first_path_read datasheet datasheet_more s) /\
  first_path_count datasheet (scripted_chip pathless_reception) datasheet_more s = 16 /\
  getFirstPathPower datasheet log10_to_three_places
    (scripted_chip pathless_reception) datasheet_more s
  = Raise ValueError (first_path_read datasheet datasheet_more s).
Proof.
  intros s.
  assert (K : first_path_ok datasheet datasheet_more = true)
    by (vm_compute; reflexivity).
  split; [|split].
  - apply (getFirstPathPower_unguarded datasheet log10_to_three_places
             silent_chip datasheet_more s K).
    vm_compute; reflexivity.
  - vm_compute; reflexivity.
  - apply (getFirstPathPower_unguarded datasheet log10_to_three_places
             (scripted_chip pathless_reception) datasheet_more s K).
    + vm_compute; discriminate.
    + vm_compute; reflexivity.
    + vm_compute; reflexivity.
    + vm_compute; reflexivity.
Defined.

(** A chip whose noise figure and amplitude both read [07 07], and the
    chip that answers zero. *)
Lemma getReceiveQuality_noise_witness :
  let s := __init__ datasheet 8 9 10 5 in
  getReceiveQuality datasheet steady_chip datasheet_more s
  = Ok 1%float (quality_read datasheet datasheet_more s) /\
  getReceiveQuality datasheet silent_chip datasheet_more s
  = Raise ZeroDivisionError (quality_read datasheet datasheet_more s).
Proof.
  intros s. split.
  - refine (proj2 (getReceiveQuality_noise datasheet steady_chip datasheet_more s
                     _ _) _).
    + vm_compute; reflexivity.
    + vm_compute; reflexivity.
    + vm_compute; discriminate.
  - refine (proj1 (getReceiveQuality_noise datasheet silent_chip datasheet_more s
                     _ _) _).
    + vm_compute; reflexivity.
    + vm_compute; reflexivity.
    + vm_compute; reflexivity.
Defined.

(** A frame whose information register reads [07 07 07 07]: 775 bytes. *)
Lemma getMessage_length_witness :
  let s := __init__ datasheet 8 9 10 5 in
  frame_length datasheet steady_chip s = 775 /\
  exists s',
    getMessage datasheet steady_chip datasheet_more s = Ok (repeat 7 775) s'.
Proof.
  intros s.
  split; [vm_compute; reflexivity|].
  destruct (getMessage_length datasheet steady_chip datasheet_more s)
    as (_ & _ & s' & E & _).
  - repeat split.
  - vm_compute; reflexivity.
  - vm_compute; reflexivity.
  - exists s'. rewrite E. reflexivity.
Defined.

(** The same frame gives 773 characters; a frame information register
    that reads zero gives none and an error. *)
Lemma getDataStr_length_witness :
  let s := __init__ datasheet 8 9 10 5 in
  text_length datasheet silent_chip datasheet_more s = -2 /\
  getDataStr datasheet silent_chip datasheet_more s
  = Raise ValueError
      (add_log s (read_frame datasheet 8 (RX_FINFO datasheet) (NO_SUB datasheet) 4)) /\
  text_length datasheet steady_chip datasheet_more s = 773 /\
  exists str s',
    getDataStr datasheet steady_chip datasheet_more s = Ok str s' /\
    String.length str = 773%nat.
Proof.
  intros s.
  assert (Af : addressable datasheet (RX_FINFO datasheet) (NO_SUB datasheet) = true)
    by (vm_compute; reflexivity).
  assert (Ab : addressable datasheet (RX_BUFFER datasheet_more) (NO_SUB datasheet) = true)
    by (vm_compute; reflexivity).
  split; [vm_compute; reflexivity|]. split; [|split; [vm_compute; reflexivity|]].
  - apply (getDataStr_length datasheet silent_chip datasheet_more s Af Ab).
    vm_compute; reflexivity.
  - destruct (proj2 (getDataStr_length datasheet steady_chip datasheet_more s Af Ab))
      as (E & L).
    + vm_compute; discriminate.
    + eexists. eexists. split; [exact E|exact L].
Defined.

(** The phase-locked-loop clock, code 2, on a chip that answers [07]. *)
Lemma enableClock_writes_witness :
  let s := __init__ datasheet 8 9 10 5 in
  exists s',
    enableClock datasheet steady_chip datasheet_more 0x02 s = Ok tt s' /\
    log s' = log s
             ++ read_frame datasheet 8 (PMSC datasheet) (PMSC_CTRL0_SUB datasheet) 4
             ++ write_frame datasheet 8 (PMSC datasheet) (PMSC_CTRL0_SUB datasheet)
                  [7; 7; 7; 7].
Proof.
  intros s.
  destruct (enableClock_writes datasheet steady_chip datasheet_more 0x02 s)
    as (s' & E & L & _).
  - repeat split.
  - vm_compute; reflexivity.
  - exists s'. split; [exact E|exact L].
Defined.

(** The device address 0x1234 on the network 0xDECA. *)
Lemma panadr_layout_witness :
  let s := __init__ datasheet 8 9 10 5 in
  exists s',
    (setDeviceAddress datasheet 0x1234 ;; setNetworkId datasheet 0xDECA) s = Ok tt s' /\
    (setNetworkId datasheet 0xDECA ;; setDeviceAddress datasheet 0x1234) s = Ok tt s' /\
    data (panadr s') = [0x34; 0x12; 0xCA; 0xDE] /\
    srcAddr (message_header plain_codec s' 1 2 false) = [0x34; 0x12].
Proof.
  intros s.
  destruct (panadr_layout datasheet plain_codec 0x1234 0xDECA 1 2 false s)
    as (s' & E1 & E2 & D & _ & A).
  - reflexivity.
  - repeat split.
  - exists s'. split; [exact E1|]. split; [exact E2|]. split; [exact D|exact A].
Defined.

(** An address of eight bytes, and one of three. *)
Lemma setEUI_reverses_witness :
  let s := __init__ datasheet 8 9 10 5 in
  (exists s',
      setEUI datasheet steady_chip [1; 2; 3; 4; 5; 6; 7; 8] s = Ok tt s' /\
      data (eui s') = [8; 7; 6; 5; 4; 3; 2; 1]) /\
  setEUI datasheet steady_chip [1; 2; 3] s = Raise IndexError s.
Proof.
  intros s.
  assert (Hs : shaped (eui s) (EUI datasheet) (NO_SUB datasheet) 8) by (repeat split).
  assert (Ha : addressable datasheet (EUI datasheet) (NO_SUB datasheet) = true)
    by (vm_compute; reflexivity).
  split.
  - destruct (proj1 (setEUI_reverses datasheet steady_chip [1; 2; 3; 4; 5; 6; 7; 8] s
                       Hs Ha)) as (s' & E & D & _).
    + cbn; lia.
    + exists s'. split; [exact E|exact D].
  - apply (proj2 (setEUI_reverses datasheet steady_chip [1; 2; 3] s Hs Ha)).
    cbn; lia.
Defined.

(** A fresh object on a chip whose two pointer bits read equal. *)
Lemma double_buffer_switch_witness :
  let s := __init__ datasheet 8 9 10 5 in
  pointers_equal datasheet steady_chip s = true /\
  (exists s',
      disableDoubleBuffer datasheet steady_chip s = Ok tt s' /\
      dblbuffon s' = false /\
      log s' = log s
               ++ read_frame datasheet 8 (SYS_STATUS datasheet) (NO_SUB datasheet) 5
               ++ write_frame datasheet 8 (SYS_CFG datasheet) (NO_SUB datasheet)
                    [0; 0; 0; 0]) /\
  (exists s',
      enableDoubleBuffer datasheet steady_chip s = Ok tt s' /\
      dblbuffon s' = true /\
      log s' = log s
               ++ read_frame datasheet 8 (SYS_STATUS datasheet) (NO_SUB datasheet) 5
               ++ toggle_frames datasheet s
               ++ write_frame datasheet 8 (SYS_CFG datasheet) (NO_SUB datasheet)
                    [0; 0; 0; 0x40]).
Proof.
  intros s.
  split; [vm_compute; reflexivity|].
  apply (double_buffer_switch datasheet steady_chip s).
  - repeat split.
  - repeat split.
  - vm_compute; reflexivity.
  - vm_compute; reflexivity.
  - vm_compute; reflexivity.
Defined.

(** The long-range mode, on a chip whose factory memory holds zero. *)
Lemma tune_agc_registers_witness :
  let s := set_operationMode (__init__ datasheet 8 9 10 5) long_range_mode in
  le_bytes 4 (AGC_TUNE3_OP datasheet) = [0x35; 0; 0; 0] /\
  exists first rest,
    Datatypes.length rest = 14%nat /\
    tune_commits datasheet silent_chip s
      (first
       :: with_data (Register.new (AGC_CTRL datasheet) (AGC_TUNE2_SUB datasheet) 4)
            (le_bytes 4 (AGC_TUNE3_OP datasheet))
       :: with_data (Register.new (AGC_CTRL datasheet) (AGC_TUNE3_SUB datasheet) 2)
            [0; 0]
       :: rest).
Proof.
  intros s. split; [reflexivity|].
  apply (tune_agc_registers datasheet silent_chip s); vm_compute; reflexivity.
Defined.

(** A fresh object. *)
Lemma tune_unset_mode_witness :
  let s := __init__ datasheet 8 9 10 5 in
  tune_commits datasheet silent_chip s (unset_mode_table datasheet).
Proof.
  intros s.
  apply (tune_unset_mode datasheet silent_chip s).
  - vm_compute; reflexivity.
  - reflexivity.
Defined.

(** The text [Hi], and a text with a character of code 300. *)
Lemma setDataStr_stages_witness :
  let s := __init__ datasheet 8 9 10 5 in
  setDataStr datasheet steady_chip [72; 105] s
  = (setData datasheet steady_chip [72; 105; 0] 3 ;; ret tt) s /\
  setDataStr datasheet steady_chip [72; 300] s = Raise ValueError s.
Proof.
  intros s. split.
  - apply (proj1 (setDataStr_stages datasheet steady_chip [72; 105] s)).
    repeat constructor; lia.
  - apply (proj2 (setDataStr_stages datasheet steady_chip [72; 300] s)).
    apply Exists_cons_tl, Exists_cons_hd. lia.
Defined.
